(** * Quiz and secure-exam session logic of adaptive-scholar

    A shallow embedding of the quiz delivery and scoring handlers of the
    React pages [QuizView] (src/pages/QuizView.tsx and its timed successor
    with the question-count and timer setup) and [SecureExam], followed by
    the properties established about them.

    Component state is threaded explicitly: a handler is a function from the
    state it reads (together with the backend tables it writes) to the state
    after it has run to completion.  On the quiz page every handler is run
    by the render on screen (a button, or the body of the countdown effect)
    and reads the state as it is.  On the exam page the interval, the
    document listeners and the scheduled callbacks are closures of an
    earlier render: module [SecureExam] has the handlers as the render on
    screen runs them, module [ExamPage] the page with the render of each
    closure. *)

From Stdlib Require Import ZArith Lia List Permutation String Ascii.
From Stdlib Require Import DecimalString SpecFloat Sorted.
From stdpp Require Import base gmap strings list.

Local Open Scope Z_scope.

Set Warnings "-register-all".

(** ** JavaScript built-ins used by the handlers *)

Module JS.

(** *** Numbers

    Counters, indices and point totals are integers and are kept in [Z].
    The two quotients the handlers round ([correctCount / length] and the
    elapsed milliseconds over 1000) are IEEE 754 binary64 values, computed
    with the operations of [SpecFloat]. *)

Definition prec : Z := 53.
Definition emax : Z := 1024.

Definition double := spec_float.

Definition of_Z (z : Z) : double := binary_normalize prec emax z 0 false.
Definition div : double -> double -> double := SFdiv prec emax.
Definition mul : double -> double -> double := SFmul prec emax.
Definition sub : double -> double -> double := SFsub prec emax.

(** 0.5 is [1 * 2^-1]. *)
Definition one_half : double := binary_normalize prec emax 1 (-1) false.

(** [Math.round x]: the integer closest to [x], ties towards +infinity,
    that is [floor (x + 1/2)] taken exactly.  A finite double is
    [(-1)^s * m * 2^e].  The handlers only round quotients whose divisor
    is non-zero, which are finite; on NaN and the infinities (where
    [Math.round] returns its argument) the embedding yields 0. *)
Definition Math_round (x : double) : Z :=
  match x with
  | S754_finite s m e =>
      let n := if s then Z.neg m else Z.pos m in
      if 0 <=? e then n * 2 ^ e
      else (2 * n + 2 ^ (- e)) / 2 ^ (1 - e)
  | _ => 0
  end.

(** [x < 0] on doubles (false on NaN and on the zeros). *)
Definition ltb0 (x : double) : bool :=
  match x with
  | S754_finite true _ _ | S754_infinity true => true
  | _ => false
  end.

(** [String(n)] and [`${n}`] for an integer [n]: its decimal numeral. *)
Definition toString (n : Z) : string := NilZero.string_of_int (Z.to_int n).

(** *** Integer-valued numbers that may be NaN

    [parseInt] yields NaN on a string without a leading numeral, and NaN
    then flows through [Math.min], [*], [-] and the comparisons. *)

Inductive num := NaN | Int (z : Z).

#[global] Instance num_eq_dec : EqDecision num.
Proof. solve_decision. Defined.

Definition is_space (c : ascii) : bool :=
  let n := nat_of_ascii c in
  ((9 <=? n) && (n <=? 13))%nat || (n =? 32)%nat.

Definition digit_of (c : ascii) : option Z :=
  let n := nat_of_ascii c in
  if ((48 <=? n) && (n <=? 57))%nat then Some (Z.of_nat n - 48) else None.

Fixpoint skip_spaces (s : string) : string :=
  match s with
  | String c r => if is_space c then skip_spaces r else s
  | EmptyString => s
  end.

(** The longest prefix of decimal digits, read left to right. *)
Fixpoint digits (s : string) (acc : option Z) : option Z :=
  match s with
  | String c r =>
      match digit_of c with
      | Some d => digits r (Some (10 * default 0 acc + d))
      | None => acc
      end
  | EmptyString => acc
  end.

(** [parseInt(s, 10)]. *)
Definition parseInt (s : string) : num :=
  let body := skip_spaces s in
  let '(neg, rest) :=
    match body with
    | String "-" r => (true, r)
    | String "+" r => (false, r)
    | _ => (false, body)
    end in
  match digits rest None with
  | Some n => Int (if neg then - n else n)
  | None => NaN
  end.

(** [Math.min(a, n)] with [n] a number. *)
Definition Math_min (a : num) (n : Z) : num :=
  match a with
  | NaN => NaN
  | Int z => Int (Z.min z n)
  end.

Definition times (a : num) (k : Z) : num :=
  match a with
  | NaN => NaN
  | Int z => Int (z * k)
  end.

Definition minus (a : num) (k : Z) : num :=
  match a with
  | NaN => NaN
  | Int z => Int (z - k)
  end.

(** [a <= k]; every comparison with NaN is false. *)
Definition leb (a : num) (k : Z) : bool :=
  match a with
  | NaN => false
  | Int z => z <=? k
  end.

(** *** Arrays *)

Section Arrays.
Context {A : Type}.

(** [arr.slice(0, end)]: NaN counts as 0, a negative [end] counts from
    the end of the array, and the bound is clamped to the length. *)
Definition slice0 (stop : num) (arr : list A) : list A :=
  let len := Z.of_nat (length arr) in
  let k := match stop with
           | NaN => 0
           | Int e => if e <? 0 then Z.max (len + e) 0 else Z.min e len
           end in
  take (Z.to_nat k) arr.

(** [arr.sort(() => Math.random() - 0.5)].

    The comparator ignores its arguments; its [k]-th evaluation returns
    [Math_random k - 0.5], where [Math_random] is the sequence of draws.
    ECMAScript leaves the sorting algorithm to the engine; the embedding
    is an insertion sort that places each element by asking the
    comparator, in array order, whether it goes before the next element
    already placed.  The number of draws consumed is threaded along. *)
Variable Math_random : nat -> double.

Definition random_comparator (k : nat) : double :=
  sub (Math_random k) one_half.

Fixpoint sort_insert (x : A) (placed : list A) (k : nat) : list A * nat :=
  match placed with
  | [] => ([x], k)
  | y :: rest =>
      if ltb0 (random_comparator k) then (x :: y :: rest, S k)
      else let '(r, k') := sort_insert x rest (S k) in (y :: r, k')
  end.

Fixpoint sort_random (arr : list A) (k : nat) : list A * nat :=
  match arr with
  | [] => ([], k)
  | x :: rest =>
      let '(placed, k') := sort_random rest k in
      sort_insert x placed k'
  end.
End Arrays.

End JS.


(** ** JSON payloads

    The [Json] type of the generated backend bindings: what a JSONB column
    can hold. *)

Inductive Json :=
| JNull
| JBool (b : bool)
| JNumber (x : JS.double)
| JString (s : string)
| JArray (items : list Json)
| JObject (fields : list (string * Json)).

(** An array all of whose elements are strings: the values of type
    [string[]]. *)
Definition is_string (v : Json) : bool :=
  match v with
  | JString _ => true
  | _ => false
  end.

Definition is_string_array (v : Json) : bool :=
  match v with
  | JArray items => forallb is_string items
  | _ => false
  end.

Section Platform.

(** [Number.prototype.toString] on a double, and [JSON.parse] ([None] when
    it throws a SyntaxError), are the engine's. *)
Variable Number_toString : JS.double -> string.
Variable JSON_parse : string -> option Json.

(** [String(v)].  An array is joined with commas, its [null] elements
    giving the empty string; an object gives "[object Object]". *)
Fixpoint String_of (v : Json) : string :=
  match v with
  | JNull => "null"
  | JBool true => "true"
  | JBool false => "false"
  | JNumber x => Number_toString x
  | JString s => s
  | JArray items =>
      String.concat ","
        (List.map (fun e => match e with
                            | JNull => ""
                            | _ => String_of e
                            end) items)
  | JObject _ => "[object Object]"
  end.

(** [parseOptions] of both quiz pages (QuizView.tsx, lines 133-145), declared
    to return [string[]].  The value returned on a string payload is whatever
    [JSON.parse] produced. *)
Definition parseOptions (options : Json) : Json :=
  match options with
  | JArray items => JArray (List.map (fun opt => JString (String_of opt)) items)
  | JString s =>
      match JSON_parse s with
      | Some v => v
      | None => JArray []
      end
  | _ => JArray []
  end.

End Platform.

(** ** Rows and records *)

Inductive difficulty_level := beginner | intermediate | advanced.

#[global] Instance difficulty_level_eq_dec : EqDecision difficulty_level.
Proof. solve_decision. Defined.

Definition level_name (l : difficulty_level) : string :=
  match l with
  | beginner => "beginner"
  | intermediate => "intermediate"
  | advanced => "advanced"
  end.

Module Quiz.
Record t := mk {
  id : string;
  title : string;
  lesson_id : string;
  difficulty : difficulty_level;
  passing_score : Z
}.
End Quiz.

Module Question.
Record t := mk {
  id : string;
  question : string;
  options : Json;
  correct_answer : Z;
  explanation : option string;
  points : Z;
  order_index : Z
}.
End Question.

(** A row of [quiz_questions] as the backend returns it. *)
Module QuestionRow.
Record t := mk {
  id : string;
  quiz_id : string;
  question : string;
  options : Json;
  correct_answer : Z;
  explanation : option string;
  points : option Z;
  order_index : option Z
}.
End QuestionRow.

Module Lesson.
Record t := mk {
  id : string;
  course_id : string;
  title : string
}.
End Lesson.

Module Profile.
Record t := mk {
  id : string;
  total_points : option Z;
  current_level : option difficulty_level
}.
End Profile.

Module Attempt.
Record t := mk {
  user_id : string;
  quiz_id : string;
  score : Z;
  correct_answers : Z;
  total_questions : Z;
  time_taken_seconds : Z
}.
End Attempt.

Module Recommendation.
Record t := mk {
  user_id : string;
  lesson_id : string;
  reason : string;
  priority : Z
}.
End Recommendation.

Module ExamSession.
Record t := mk {
  id : string;
  quiz_id : string;
  started_at : string;
  tab_switches : option Z;
  fullscreen_exits : option Z;
  is_flagged : bool
}.
End ExamSession.

(** A row of [exam_sessions]: the columns the page writes. *)
Module ExamSessionRow.
Record t := mk {
  id : string;
  tab_switches : option Z;
  fullscreen_exits : option Z;
  is_flagged : bool;
  flag_reason : option string;
  ended : bool;
  is_active : bool
}.
End ExamSessionRow.

Module Toast.
Record t := mk {
  title : string;
  description : string
}.
End Toast.

(** [x || 0] on a nullable number. *)
Definition or0 (x : option Z) : Z := default 0 x.

(** [x || 10]: 10 for [null] and for 0. *)
Definition or10 (x : option Z) : Z :=
  match x with
  | Some 0 | None => 10
  | Some n => n
  end.

(** [.maybeSingle()]: the row when the query matches exactly one, [null]
    when it matches none (and when it matches several, which is reported as
    an error with no data). *)
Definition maybeSingle {A : Type} (rows : list A) : option A :=
  match rows with
  | [r] => Some r
  | _ => None
  end.

(** [.order('order_index')], ascending, on the rows of [quiz_questions]:
    PostgreSQL puts the rows without [order_index] last.  It leaves open in
    which order rows with the same [order_index] come; here they keep the
    order of the table. *)
Definition index_leb (a b : option Z) : bool :=
  match a, b with
  | Some x, Some y => x <=? y
  | Some _, None => true
  | None, Some _ => false
  | None, None => true
  end.

Fixpoint insert_by_order_index (r : QuestionRow.t)
    (rows : list QuestionRow.t) : list QuestionRow.t :=
  match rows with
  | [] => [r]
  | r' :: rest =>
      if index_leb (QuestionRow.order_index r) (QuestionRow.order_index r')
      then r :: rows
      else r' :: insert_by_order_index r rest
  end.

Definition order_by_order_index (rows : list QuestionRow.t)
  : list QuestionRow.t :=
  foldr insert_by_order_index [] rows.

(** ** Scoring, shared by both pages *)

(** The [forEach] loop of [handleSubmitQuiz] and [handleSubmitExam]: the
    pair [(correctCount, totalPoints)].  A question counts when the answer
    recorded under its id is strictly equal to [correct_answer]; a missing
    entry is [undefined] and never equal. *)
Definition is_correct (answers : gmap string Z) (q : Question.t) : bool :=
  bool_decide (answers !! Question.id q = Some (Question.correct_answer q)).

Definition grade (questions : list Question.t) (answers : gmap string Z)
  : Z * Z :=
  fold_left
    (fun '(correctCount, totalPoints) q =>
       if is_correct answers q
       then (correctCount + 1, totalPoints + Question.points q)
       else (correctCount, totalPoints))
    questions (0, 0).

(** [Math.round((correctCount / length) * 100)]. *)
Definition scorePercentage (correctCount length : Z) : Z :=
  JS.Math_round
    (JS.mul (JS.div (JS.of_Z correctCount) (JS.of_Z length)) (JS.of_Z 100)).

(** ** The backend tables *)

Module Backend.
Record t := mk {
  quizzes : list Quiz.t;
  lessons : list Lesson.t;
  quiz_questions : list QuestionRow.t;
  profiles : list Profile.t;
  quiz_attempts : list Attempt.t;
  recommendations : list Recommendation.t;
  exam_sessions : list ExamSessionRow.t
}.

Definition setProfiles (v : list Profile.t) (d : t) : t :=
  {| quizzes := quizzes d; lessons := lessons d;
     quiz_questions := quiz_questions d; profiles := v;
     quiz_attempts := quiz_attempts d; recommendations := recommendations d;
     exam_sessions := exam_sessions d |}.

Definition setQuiz_attempts (v : list Attempt.t) (d : t) : t :=
  {| quizzes := quizzes d; lessons := lessons d;
     quiz_questions := quiz_questions d; profiles := profiles d;
     quiz_attempts := v; recommendations := recommendations d;
     exam_sessions := exam_sessions d |}.

Definition setRecommendations (v : list Recommendation.t) (d : t) : t :=
  {| quizzes := quizzes d; lessons := lessons d;
     quiz_questions := quiz_questions d; profiles := profiles d;
     quiz_attempts := quiz_attempts d; recommendations := v;
     exam_sessions := exam_sessions d |}.

Definition setExam_sessions (v : list ExamSessionRow.t) (d : t) : t :=
  {| quizzes := quizzes d; lessons := lessons d;
     quiz_questions := quiz_questions d; profiles := profiles d;
     quiz_attempts := quiz_attempts d; recommendations := recommendations d;
     exam_sessions := v |}.

(** [.insert(row)] appends a row. *)
Definition insert_attempt (a : Attempt.t) (d : t) : t :=
  setQuiz_attempts (quiz_attempts d ++ [a]) d.

Definition insert_recommendation (r : Recommendation.t) (d : t) : t :=
  setRecommendations (recommendations d ++ [r]) d.

(** [.from('profiles').select(...).eq('id', uid).maybeSingle()]. *)
Definition select_profile (uid : string) (d : t) : option Profile.t :=
  maybeSingle (filter (fun p => String.eqb (Profile.id p) uid) (profiles d)).

(** [.from('profiles').update({total_points, current_level}).eq('id', uid)]. *)
Definition update_profile (uid : string) (newPoints : Z)
    (newLevel : option difficulty_level) (d : t) : t :=
  setProfiles
    (List.map (fun p =>
       if String.eqb (Profile.id p) uid
       then Profile.mk (Profile.id p) (Some newPoints) newLevel
       else p) (profiles d)) d.

End Backend.

(** ** The quiz page (QuizView)

    The component state of the timed page; the earlier page in
    src/pages/QuizView.tsx has the same [handleSelectAnswer],
    [handleSubmitQuiz] and [parseOptions] and no setup step or timer. *)

Module QuizView.

Record State := mkState {
  user : option string;
  quiz : option Quiz.t;
  lesson : option Lesson.t;
  allQuestions : list Question.t;
  questions : list Question.t;
  currentQuestionIndex : Z;
  selectedAnswers : gmap string Z;
  isSubmitted : bool;
  score : Z;
  startTime : Z;
  quizStarted : bool;
  selectedQuestionCount : string;
  timerEnabled : bool;
  timerMinutes : string;
  timeRemaining : option JS.num;
  timerExpired : bool
}.

Definition setQuiz (v : option Quiz.t) (s : State) : State :=
    {| user := user s; quiz := v; lesson := lesson s;
       allQuestions := allQuestions s; questions := questions s;
       currentQuestionIndex := currentQuestionIndex s;
       selectedAnswers := selectedAnswers s; isSubmitted := isSubmitted s;
       score := score s; startTime := startTime s;
       quizStarted := quizStarted s;
       selectedQuestionCount := selectedQuestionCount s;
       timerEnabled := timerEnabled s; timerMinutes := timerMinutes s;
       timeRemaining := timeRemaining s; timerExpired := timerExpired s |}.

Definition setLesson (v : option Lesson.t) (s : State) : State :=
    {| user := user s; quiz := quiz s; lesson := v;
       allQuestions := allQuestions s; questions := questions s;
       currentQuestionIndex := currentQuestionIndex s;
       selectedAnswers := selectedAnswers s; isSubmitted := isSubmitted s;
       score := score s; startTime := startTime s;
       quizStarted := quizStarted s;
       selectedQuestionCount := selectedQuestionCount s;
       timerEnabled := timerEnabled s; timerMinutes := timerMinutes s;
       timeRemaining := timeRemaining s; timerExpired := timerExpired s |}.

Definition setAllQuestions (v : list Question.t) (s : State) : State :=
    {| user := user s; quiz := quiz s; lesson := lesson s; allQuestions := v;
       questions := questions s;
       currentQuestionIndex := currentQuestionIndex s;
       selectedAnswers := selectedAnswers s; isSubmitted := isSubmitted s;
       score := score s; startTime := startTime s;
       quizStarted := quizStarted s;
       selectedQuestionCount := selectedQuestionCount s;
       timerEnabled := timerEnabled s; timerMinutes := timerMinutes s;
       timeRemaining := timeRemaining s; timerExpired := timerExpired s |}.

Definition setQuestions (v : list Question.t) (s : State) : State :=
    {| user := user s; quiz := quiz s; lesson := lesson s;
       allQuestions := allQuestions s; questions := v;
       currentQuestionIndex := currentQuestionIndex s;
       selectedAnswers := selectedAnswers s; isSubmitted := isSubmitted s;
       score := score s; startTime := startTime s;
       quizStarted := quizStarted s;
       selectedQuestionCount := selectedQuestionCount s;
       timerEnabled := timerEnabled s; timerMinutes := timerMinutes s;
       timeRemaining := timeRemaining s; timerExpired := timerExpired s |}.

Definition setCurrentQuestionIndex (v : Z) (s : State) : State :=
    {| user := user s; quiz := quiz s; lesson := lesson s;
       allQuestions := allQuestions s; questions := questions s;
       currentQuestionIndex := v; selectedAnswers := selectedAnswers s;
       isSubmitted := isSubmitted s; score := score s;
       startTime := startTime s; quizStarted := quizStarted s;
       selectedQuestionCount := selectedQuestionCount s;
       timerEnabled := timerEnabled s; timerMinutes := timerMinutes s;
       timeRemaining := timeRemaining s; timerExpired := timerExpired s |}.

Definition setSelectedAnswers (v : gmap string Z) (s : State) : State :=
    {| user := user s; quiz := quiz s; lesson := lesson s;
       allQuestions := allQuestions s; questions := questions s;
       currentQuestionIndex := currentQuestionIndex s; selectedAnswers := v;
       isSubmitted := isSubmitted s; score := score s;
       startTime := startTime s; quizStarted := quizStarted s;
       selectedQuestionCount := selectedQuestionCount s;
       timerEnabled := timerEnabled s; timerMinutes := timerMinutes s;
       timeRemaining := timeRemaining s; timerExpired := timerExpired s |}.

Definition setIsSubmitted (v : bool) (s : State) : State :=
    {| user := user s; quiz := quiz s; lesson := lesson s;
       allQuestions := allQuestions s; questions := questions s;
       currentQuestionIndex := currentQuestionIndex s;
       selectedAnswers := selectedAnswers s; isSubmitted := v;
       score := score s; startTime := startTime s;
       quizStarted := quizStarted s;
       selectedQuestionCount := selectedQuestionCount s;
       timerEnabled := timerEnabled s; timerMinutes := timerMinutes s;
       timeRemaining := timeRemaining s; timerExpired := timerExpired s |}.

Definition setScore (v : Z) (s : State) : State :=
    {| user := user s; quiz := quiz s; lesson := lesson s;
       allQuestions := allQuestions s; questions := questions s;
       currentQuestionIndex := currentQuestionIndex s;
       selectedAnswers := selectedAnswers s; isSubmitted := isSubmitted s;
       score := v; startTime := startTime s; quizStarted := quizStarted s;
       selectedQuestionCount := selectedQuestionCount s;
       timerEnabled := timerEnabled s; timerMinutes := timerMinutes s;
       timeRemaining := timeRemaining s; timerExpired := timerExpired s |}.

Definition setStartTime (v : Z) (s : State) : State :=
    {| user := user s; quiz := quiz s; lesson := lesson s;
       allQuestions := allQuestions s; questions := questions s;
       currentQuestionIndex := currentQuestionIndex s;
       selectedAnswers := selectedAnswers s; isSubmitted := isSubmitted s;
       score := score s; startTime := v; quizStarted := quizStarted s;
       selectedQuestionCount := selectedQuestionCount s;
       timerEnabled := timerEnabled s; timerMinutes := timerMinutes s;
       timeRemaining := timeRemaining s; timerExpired := timerExpired s |}.

Definition setQuizStarted (v : bool) (s : State) : State :=
    {| user := user s; quiz := quiz s; lesson := lesson s;
       allQuestions := allQuestions s; questions := questions s;
       currentQuestionIndex := currentQuestionIndex s;
       selectedAnswers := selectedAnswers s; isSubmitted := isSubmitted s;
       score := score s; startTime := startTime s; quizStarted := v;
       selectedQuestionCount := selectedQuestionCount s;
       timerEnabled := timerEnabled s; timerMinutes := timerMinutes s;
       timeRemaining := timeRemaining s; timerExpired := timerExpired s |}.

Definition setTimeRemaining (v : option JS.num) (s : State) : State :=
    {| user := user s; quiz := quiz s; lesson := lesson s;
       allQuestions := allQuestions s; questions := questions s;
       currentQuestionIndex := currentQuestionIndex s;
       selectedAnswers := selectedAnswers s; isSubmitted := isSubmitted s;
       score := score s; startTime := startTime s;
       quizStarted := quizStarted s;
       selectedQuestionCount := selectedQuestionCount s;
       timerEnabled := timerEnabled s; timerMinutes := timerMinutes s;
       timeRemaining := v; timerExpired := timerExpired s |}.

Definition setTimerExpired (v : bool) (s : State) : State :=
    {| user := user s; quiz := quiz s; lesson := lesson s;
       allQuestions := allQuestions s; questions := questions s;
       currentQuestionIndex := currentQuestionIndex s;
       selectedAnswers := selectedAnswers s; isSubmitted := isSubmitted s;
       score := score s; startTime := startTime s;
       quizStarted := quizStarted s;
       selectedQuestionCount := selectedQuestionCount s;
       timerEnabled := timerEnabled s; timerMinutes := timerMinutes s;
       timeRemaining := timeRemaining s; timerExpired := v |}.

(** The state on mount. *)
Definition initial (user : option string) : State :=
  {| user := user; quiz := None; lesson := None; allQuestions := [];
     questions := []; currentQuestionIndex := 0; selectedAnswers := ∅;
     isSubmitted := false; score := 0; startTime := 0; quizStarted := false;
     selectedQuestionCount := "all"; timerEnabled := false;
     timerMinutes := "10"; timeRemaining := None; timerExpired := false |}.

(** The component together with what surrounds it: the backend, the toasts
    shown, the route navigated to, the clock read by [Date.now()] (in
    milliseconds) and the number of [Math.random()] draws made so far. *)
Record World := mkWorld {
  state : State;
  backend : Backend.t;
  toasts : list Toast.t;
  navigated : option string;
  now : Z;
  draws : nat
}.

Definition setState (v : State) (w : World) : World :=
  {| state := v; backend := backend w; toasts := toasts w;
     navigated := navigated w; now := now w; draws := draws w |}.

Definition setBackend (v : Backend.t) (w : World) : World :=
  {| state := state w; backend := v; toasts := toasts w;
     navigated := navigated w; now := now w; draws := draws w |}.

Definition toast (title description : string) (w : World) : World :=
  {| state := state w; backend := backend w;
     toasts := toasts w ++ [Toast.mk title description];
     navigated := navigated w; now := now w; draws := draws w |}.

Definition navigate (route : string) (w : World) : World :=
  {| state := state w; backend := backend w; toasts := toasts w;
     navigated := Some route; now := now w; draws := draws w |}.

Definition setNow (v : Z) (w : World) : World :=
  {| state := state w; backend := backend w; toasts := toasts w;
     navigated := navigated w; now := v; draws := draws w |}.

Definition setDraws (v : nat) (w : World) : World :=
  {| state := state w; backend := backend w; toasts := toasts w;
     navigated := navigated w; now := now w; draws := v |}.

Definition update (f : State -> State) (w : World) : World :=
  setState (f (state w)) w.

(** [handleSelectAnswer] (QuizView.tsx, lines 147-153). *)
Definition handleSelectAnswer (questionId : string) (answerIndex : Z)
    (s : State) : State :=
  if isSubmitted s then s
  else
    let newAnswers := <[questionId := answerIndex]> (selectedAnswers s) in
    setSelectedAnswers newAnswers s.

(** The "Adaptive level adjustment" of [handleSubmitQuiz]. *)
Definition adjustLevel (newPoints : Z) (current_level : option difficulty_level)
  : option difficulty_level :=
  if (500 <=? newPoints)
     && bool_decide (current_level = Some beginner)
  then Some intermediate
  else if (1500 <=? newPoints)
          && bool_decide (current_level = Some intermediate)
  then Some advanced
  else current_level.

Definition level_text (l : option difficulty_level) : string :=
  match l with
  | Some l => level_name l
  | None => "null"
  end.

(** The profile update of [handleSubmitQuiz] (lines 188-221), entered when
    [scorePercentage >= quiz.passing_score]. *)
Definition updateProfile (uid : string) (totalPoints : Z) (w : World) : World :=
  match Backend.select_profile uid (backend w) with
  | Some profile =>
      let newPoints := or0 (Profile.total_points profile) + totalPoints in
      let newLevel := adjustLevel newPoints (Profile.current_level profile) in
      let w1 := setBackend
                  (Backend.update_profile uid newPoints newLevel (backend w)) w in
      if bool_decide (newLevel = Profile.current_level profile) then w1
      else toast "Level Up!"
             ("Congratulations! You've advanced to " +:+ level_text newLevel
              +:+ " level!") w1
  | None => w
  end.

(** [handleSubmitQuiz] (QuizView.tsx, lines 155-234). *)
Definition handleSubmitQuiz (w : World) : World :=
  let s := state w in
  match user s, quiz s with
  | Some uid, Some qz =>
      match questions s with
      | [] => w
      | _ :: _ =>
          let '(correctCount, totalPoints) :=
            grade (questions s) (selectedAnswers s) in
          let length := Z.of_nat (length (questions s)) in
          let scorePercentage := scorePercentage correctCount length in
          let w1 := update (fun s => setIsSubmitted true
                                       (setScore scorePercentage s)) w in
          let timeTaken :=
            JS.Math_round
              (JS.div (JS.of_Z (now w - startTime s)) (JS.of_Z 1000)) in
          let w2 := setBackend
                      (Backend.insert_attempt
                         (Attempt.mk uid (Quiz.id qz) scorePercentage
                            correctCount length timeTaken)
                         (backend w1)) w1 in
          let w3 := if Quiz.passing_score qz <=? scorePercentage
                    then updateProfile uid totalPoints w2
                    else w2 in
          match lesson s with
          | Some l =>
              if scorePercentage <? Quiz.passing_score qz
              then setBackend
                     (Backend.insert_recommendation
                        (Recommendation.mk uid (Lesson.id l)
                           ("Review this lesson - you scored "
                            +:+ JS.toString scorePercentage
                            +:+ "% on the quiz")
                           10)
                        (backend w3)) w3
              else w3
          | None => w3
          end
      end
  | _, _ => w
  end.

(** [handleRetry]. *)
Definition handleRetry (s : State) : State :=
  setTimerExpired false
    (setTimeRemaining None
       (setQuestions []
          (setQuizStarted false
             (setCurrentQuestionIndex 0
                (setScore 0
                   (setIsSubmitted false (setSelectedAnswers ∅ s))))))).

(** [getQuestionCountOptions]: the values offered by the count menu. *)
Definition getQuestionCountOptions (s : State) : list string :=
  let total := Z.of_nat (length (allQuestions s)) in
  let options := ["all"] in
  let options := if 5 <=? total then "5" :: options else options in
  let options := if 10 <=? total then "10" :: options else options in
  let options := if 15 <=? total then "15" :: options else options in
  let options := if 20 <=? total then "20" :: options else options in
  rev options.

(** The countdown effect (timed page, lines 88-105) is keyed on these four
    values: it runs again exactly when one of them has changed. *)
Definition timerDeps (s : State) : bool * bool * option JS.num * bool :=
  (quizStarted s, timerEnabled s, timeRemaining s, isSubmitted s).

(** The body of the countdown effect.  When it neither returns early nor
    submits, it arms a one-second interval (see [intervalArmed]). *)
Definition timerEffect (w : World) : World :=
  let s := state w in
  if negb (quizStarted s) || negb (timerEnabled s) || isSubmitted s then w
  else
    match timeRemaining s with
    | None => w
    | Some t =>
        if JS.leb t 0
        then handleSubmitQuiz (update (setTimerExpired true) w)
        else w
    end.

(** Whether the effect has left an interval armed: it is cleared and set
    anew whenever the effect runs again, so this is a function of the
    state. *)
Definition intervalArmed (s : State) : bool :=
  quizStarted s && timerEnabled s && negb (isSubmitted s)
  && match timeRemaining s with
     | Some t => negb (JS.leb t 0)
     | None => false
     end.

(** The interval callback: [prev => prev === null || prev <= 0 ? 0 : prev - 1]. *)
Definition countdown (prev : option JS.num) : option JS.num :=
  match prev with
  | None => Some (JS.Int 0)
  | Some t => if JS.leb t 0 then Some (JS.Int 0) else Some (JS.minus t 1)
  end.

(** What the page renders (the loading spinner aside): the "no questions"
    card, the setup card, the results, or the current question. *)
Inductive View := Unavailable | Setup | Results | Answering.

Definition view (s : State) : View :=
  match quiz s, allQuestions s with
  | None, _ | _, [] => Unavailable
  | Some _, _ :: _ =>
      if negb (quizStarted s) then Setup
      else if isSubmitted s then Results
      else Answering
  end.

(** [questions[currentQuestionIndex]]. *)
Definition currentQuestion (s : State) : option Question.t :=
  if currentQuestionIndex s <? 0 then None
  else questions s !! Z.to_nat (currentQuestionIndex s).

(** What can happen to a mounted page: a second passes, or the user clicks
    one of the controls on screen. *)
Inductive Event :=
| Tick
| ClickStart
| ClickOption (idx : Z)
| ClickPrevious
| ClickNext
| ClickQuestion (idx : nat)
| ClickSubmit
| ClickRetry.

#[global] Instance Event_eq_dec : EqDecision Event.
Proof. solve_decision. Defined.

Section Handlers.

Variable Number_toString : JS.double -> string.
Variable JSON_parse : string -> option Json.
Variable Math_random : nat -> JS.double.

(** [fetchQuizData] (QuizView.tsx, lines 75-131; lines 113-169 of the timed
    page): the quiz, its lesson and its questions, the rows of
    [quiz_questions] in ascending [order_index]. *)
Definition formatQuestion (q : QuestionRow.t) : Question.t :=
  {| Question.id := QuestionRow.id q;
     Question.question := QuestionRow.question q;
     Question.options :=
       parseOptions Number_toString JSON_parse (QuestionRow.options q);
     Question.correct_answer := QuestionRow.correct_answer q;
     Question.explanation := QuestionRow.explanation q;
     Question.points := or10 (QuestionRow.points q);
     Question.order_index := or0 (QuestionRow.order_index q) |}.

Definition fetchQuizData (quizId : string) (w : World) : World :=
  match user (state w) with
  | None => w
  | Some _ =>
      let d := backend w in
      match maybeSingle
              (filter (fun q => String.eqb (Quiz.id q) quizId)
                 (Backend.quizzes d)) with
      | None => navigate "/courses" (toast "Error" "Quiz not found." w)
      | Some quizData =>
          let lessonData :=
            maybeSingle
              (filter (fun l => String.eqb (Lesson.id l)
                                  (Quiz.lesson_id quizData))
                 (Backend.lessons d)) in
          let questionsData :=
            order_by_order_index
              (filter (fun q => String.eqb (QuestionRow.quiz_id q) quizId)
                 (Backend.quiz_questions d)) in
          update (fun s =>
            setAllQuestions (List.map formatQuestion questionsData)
              (match lessonData with
               | Some _ => setLesson lessonData
               | None => fun s => s
               end (setQuiz (Some quizData) s))) w
      end
  end.

(** [startQuiz] (timed page, lines 171-191): first the questions to
    present, with the number of draws made once they are chosen. *)
Definition selectQuestions (w : World) : list Question.t * nat :=
  let s := state w in
  if String.eqb (selectedQuestionCount s) "all"
  then (allQuestions s, draws w)
  else
    let count := JS.parseInt (selectedQuestionCount s) in
    let '(shuffled, k) :=
      JS.sort_random Math_random (allQuestions s) (draws w) in
    (JS.slice0
       (JS.Math_min count (Z.of_nat (length (allQuestions s)))) shuffled,
     k).

Definition startQuiz (w : World) : World :=
  let s := state w in
  let '(selectedQuestions, drawn) := selectQuestions w in
  let s := setStartTime (now w) (setQuestions selectedQuestions s) in
  let s := if timerEnabled s
           then setTimeRemaining
                  (Some (JS.times (JS.parseInt (timerMinutes s)) 60)) s
           else s in
  setDraws drawn (setState (setQuizStarted true s) w).

(** The handler an event runs.  A control that is not on screen, or is
    disabled, cannot be clicked. *)
Definition handle (e : Event) (w : World) : World :=
  let s := state w in
  let last := Z.of_nat (length (questions s)) - 1 in
  match e, view s with
  | Tick, _ =>
      let w := setNow (now w + 1000) w in
      if intervalArmed s
      then update (fun s => setTimeRemaining (countdown (timeRemaining s)) s) w
      else w
  | ClickStart, Setup => startQuiz w
  | ClickOption idx, Answering =>
      match currentQuestion s with
      | Some q => update (handleSelectAnswer (Question.id q) idx) w
      | None => w
      end
  | ClickPrevious, Answering =>
      if currentQuestionIndex s =? 0 then w
      else update (setCurrentQuestionIndex (currentQuestionIndex s - 1)) w
  | ClickNext, Answering =>
      if currentQuestionIndex s =? last then w
      else update (setCurrentQuestionIndex (currentQuestionIndex s + 1)) w
  | ClickQuestion idx, Answering =>
      if (idx <? length (questions s))%nat
      then update (setCurrentQuestionIndex (Z.of_nat idx)) w
      else w
  | ClickSubmit, Answering =>
      if (currentQuestionIndex s =? last)
         && negb (Z.of_nat (size (selectedAnswers s))
                  <? Z.of_nat (length (questions s)))
      then handleSubmitQuiz w
      else w
  | ClickRetry, Results => update handleRetry w
  | _, _ => w
  end.

(** An event, followed by the countdown effect when the render it causes
    has changed one of the effect's dependencies. *)
Definition dispatch (e : Event) (w : World) : World :=
  let w' := handle e w in
  if decide (timerDeps (state w') = timerDeps (state w)) then w'
  else timerEffect w'.

Definition run (es : list Event) (w : World) : World :=
  fold_left (fun w e => dispatch e w) es w.

End Handlers.

End QuizView.

(** ** The secure exam page (SecureExam) *)

Module SecureExam.

Inductive ViolationType := tab_switch | fullscreen_exit.

#[global] Instance ViolationType_eq_dec : EqDecision ViolationType.
Proof. solve_decision. Defined.

Record State := mkState {
  user : option string;
  quizId : option string;
  examSession : option ExamSession.t;
  questions : list Question.t;
  currentQuestion : Z;
  answers : gmap string Z;
  isFullscreen : bool;
  showWarning : bool;
  warningMessage : string;
  timeLeft : Z;
  isSubmitting : bool;
  examStarted : bool
}.

Definition setExamSession (v : option ExamSession.t) (s : State) : State :=
    {| user := user s; quizId := quizId s; examSession := v;
       questions := questions s; currentQuestion := currentQuestion s;
       answers := answers s; isFullscreen := isFullscreen s;
       showWarning := showWarning s; warningMessage := warningMessage s;
       timeLeft := timeLeft s; isSubmitting := isSubmitting s;
       examStarted := examStarted s |}.

Definition setCurrentQuestion (v : Z) (s : State) : State :=
    {| user := user s; quizId := quizId s; examSession := examSession s;
       questions := questions s; currentQuestion := v; answers := answers s;
       isFullscreen := isFullscreen s; showWarning := showWarning s;
       warningMessage := warningMessage s; timeLeft := timeLeft s;
       isSubmitting := isSubmitting s; examStarted := examStarted s |}.

Definition setAnswers (v : gmap string Z) (s : State) : State :=
    {| user := user s; quizId := quizId s; examSession := examSession s;
       questions := questions s; currentQuestion := currentQuestion s;
       answers := v; isFullscreen := isFullscreen s;
       showWarning := showWarning s; warningMessage := warningMessage s;
       timeLeft := timeLeft s; isSubmitting := isSubmitting s;
       examStarted := examStarted s |}.

Definition setIsFullscreen (v : bool) (s : State) : State :=
    {| user := user s; quizId := quizId s; examSession := examSession s;
       questions := questions s; currentQuestion := currentQuestion s;
       answers := answers s; isFullscreen := v; showWarning := showWarning s;
       warningMessage := warningMessage s; timeLeft := timeLeft s;
       isSubmitting := isSubmitting s; examStarted := examStarted s |}.

Definition setShowWarning (v : bool) (s : State) : State :=
    {| user := user s; quizId := quizId s; examSession := examSession s;
       questions := questions s; currentQuestion := currentQuestion s;
       answers := answers s; isFullscreen := isFullscreen s;
       showWarning := v; warningMessage := warningMessage s;
       timeLeft := timeLeft s; isSubmitting := isSubmitting s;
       examStarted := examStarted s |}.

Definition setWarningMessage (v : string) (s : State) : State :=
    {| user := user s; quizId := quizId s; examSession := examSession s;
       questions := questions s; currentQuestion := currentQuestion s;
       answers := answers s; isFullscreen := isFullscreen s;
       showWarning := showWarning s; warningMessage := v;
       timeLeft := timeLeft s; isSubmitting := isSubmitting s;
       examStarted := examStarted s |}.

Definition setTimeLeft (v : Z) (s : State) : State :=
    {| user := user s; quizId := quizId s; examSession := examSession s;
       questions := questions s; currentQuestion := currentQuestion s;
       answers := answers s; isFullscreen := isFullscreen s;
       showWarning := showWarning s; warningMessage := warningMessage s;
       timeLeft := v; isSubmitting := isSubmitting s;
       examStarted := examStarted s |}.

Definition setIsSubmitting (v : bool) (s : State) : State :=
    {| user := user s; quizId := quizId s; examSession := examSession s;
       questions := questions s; currentQuestion := currentQuestion s;
       answers := answers s; isFullscreen := isFullscreen s;
       showWarning := showWarning s; warningMessage := warningMessage s;
       timeLeft := timeLeft s; isSubmitting := v;
       examStarted := examStarted s |}.

Definition setExamStarted (v : bool) (s : State) : State :=
    {| user := user s; quizId := quizId s; examSession := examSession s;
       questions := questions s; currentQuestion := currentQuestion s;
       answers := answers s; isFullscreen := isFullscreen s;
       showWarning := showWarning s; warningMessage := warningMessage s;
       timeLeft := timeLeft s; isSubmitting := isSubmitting s;
       examStarted := v |}.

(** The state on mount: thirty minutes on the clock. *)
Definition initial (user quizId : option string)
    (questions : list Question.t) : State :=
  {| user := user; quizId := quizId; examSession := None;
     questions := questions; currentQuestion := 0; answers := ∅;
     isFullscreen := false; showWarning := false; warningMessage := "";
     timeLeft := 1800; isSubmitting := false; examStarted := false |}.

(** The component and its surroundings: the backend, the toasts shown, the
    route navigated to, the number of
    [setTimeout(() => handleSubmitExam(), 3000)] calls made, and the
    document's [fullscreenElement] and [hidden]. *)
Record World := mkWorld {
  state : State;
  backend : Backend.t;
  toasts : list Toast.t;
  navigated : option string;
  autoSubmits : nat;
  fullscreenElement : bool;
  hidden : bool
}.

Definition setState (v : State) (w : World) : World :=
  {| state := v; backend := backend w; toasts := toasts w;
     navigated := navigated w; autoSubmits := autoSubmits w;
     fullscreenElement := fullscreenElement w; hidden := hidden w |}.

Definition setBackend (v : Backend.t) (w : World) : World :=
  {| state := state w; backend := v; toasts := toasts w;
     navigated := navigated w; autoSubmits := autoSubmits w;
     fullscreenElement := fullscreenElement w; hidden := hidden w |}.

Definition toast (title description : string) (w : World) : World :=
  {| state := state w; backend := backend w;
     toasts := toasts w ++ [Toast.mk title description];
     navigated := navigated w; autoSubmits := autoSubmits w;
     fullscreenElement := fullscreenElement w; hidden := hidden w |}.

Definition navigate (route : string) (w : World) : World :=
  {| state := state w; backend := backend w; toasts := toasts w;
     navigated := Some route; autoSubmits := autoSubmits w;
     fullscreenElement := fullscreenElement w; hidden := hidden w |}.

Definition setAutoSubmits (v : nat) (w : World) : World :=
  {| state := state w; backend := backend w; toasts := toasts w;
     navigated := navigated w; autoSubmits := v;
     fullscreenElement := fullscreenElement w; hidden := hidden w |}.

Definition setFullscreenElement (v : bool) (w : World) : World :=
  {| state := state w; backend := backend w; toasts := toasts w;
     navigated := navigated w; autoSubmits := autoSubmits w;
     fullscreenElement := v; hidden := hidden w |}.

Definition update (f : State -> State) (w : World) : World :=
  setState (f (state w)) w.

(** The counter named by [field], and [{ ...examSession, [field]: newCount,
    is_flagged }]. *)
Definition counter (type : ViolationType) (es : ExamSession.t) : option Z :=
  match type with
  | tab_switch => ExamSession.tab_switches es
  | fullscreen_exit => ExamSession.fullscreen_exits es
  end.

Definition withCounter (type : ViolationType) (newCount : Z) (flagged : bool)
    (es : ExamSession.t) : ExamSession.t :=
  match type with
  | tab_switch =>
      ExamSession.mk (ExamSession.id es) (ExamSession.quiz_id es)
        (ExamSession.started_at es) (Some newCount)
        (ExamSession.fullscreen_exits es) flagged
  | fullscreen_exit =>
      ExamSession.mk (ExamSession.id es) (ExamSession.quiz_id es)
        (ExamSession.started_at es) (ExamSession.tab_switches es)
        (Some newCount) flagged
  end.

(** [type.replace('_', ' ')]. *)
Definition type_words (type : ViolationType) : string :=
  match type with
  | tab_switch => "tab switch"
  | fullscreen_exit => "fullscreen exit"
  end.

(** [.from('exam_sessions').update({[field], is_flagged, flag_reason})
    .eq('id', id)]. *)
Definition update_violation (id : string) (type : ViolationType)
    (newCount : Z) (d : Backend.t) : Backend.t :=
  Backend.setExam_sessions
    (List.map (fun r =>
       if String.eqb (ExamSessionRow.id r) id
       then
         {| ExamSessionRow.id := ExamSessionRow.id r;
            ExamSessionRow.tab_switches :=
              match type with
              | tab_switch => Some newCount
              | fullscreen_exit => ExamSessionRow.tab_switches r
              end;
            ExamSessionRow.fullscreen_exits :=
              match type with
              | tab_switch => ExamSessionRow.fullscreen_exits r
              | fullscreen_exit => Some newCount
              end;
            ExamSessionRow.is_flagged := 3 <=? newCount;
            ExamSessionRow.flag_reason :=
              if 3 <=? newCount
              then Some ("Multiple " +:+ type_words type +:+ "s detected")
              else None;
            ExamSessionRow.ended := ExamSessionRow.ended r;
            ExamSessionRow.is_active := ExamSessionRow.is_active r |}
       else r) (Backend.exam_sessions d)) d.

(** [handleSecurityViolation] (lines 612-641). *)
Definition handleSecurityViolation (type : ViolationType) (w : World)
  : World :=
  match examSession (state w) with
  | None => w
  | Some es =>
      let newCount := or0 (counter type es) + 1 in
      let w := setBackend
                 (update_violation (ExamSession.id es) type newCount
                    (backend w)) w in
      let w := update (setExamSession
                         (Some (withCounter type newCount (3 <=? newCount) es)))
                 w in
      if 3 <=? newCount
      then
        let w := update (setWarningMessage
          "Your exam has been flagged due to multiple security violations. The exam will now end.")
          w in
        let w := update (setShowWarning true) w in
        setAutoSubmits (S (autoSubmits w)) w
      else
        toast "Warning"
          ((match type with
            | tab_switch => "Tab switch"
            | fullscreen_exit => "Fullscreen exit"
            end) +:+ " detected. (" +:+ JS.toString newCount +:+ "/3 allowed)")
          w
  end.

(** The violation count shown in the page header:
    [(tab_switches || 0) + (fullscreen_exits || 0)], displayed over 3. *)
Definition headerViolations (s : State) : Z :=
  match examSession s with
  | Some es =>
      or0 (ExamSession.tab_switches es) + or0 (ExamSession.fullscreen_exits es)
  | None => 0
  end.

(** [handleAnswerSelect] (lines 673-675). *)
Definition handleAnswerSelect (questionId : string) (answerIndex : Z)
    (s : State) : State :=
  setAnswers (<[questionId := answerIndex]> (answers s)) s.

(** Closing the session row: [update({ended_at, is_active: false})]. *)
Definition end_session (id : string) (d : Backend.t) : Backend.t :=
  Backend.setExam_sessions
    (List.map (fun r =>
       if String.eqb (ExamSessionRow.id r) id
       then
         {| ExamSessionRow.id := ExamSessionRow.id r;
            ExamSessionRow.tab_switches := ExamSessionRow.tab_switches r;
            ExamSessionRow.fullscreen_exits := ExamSessionRow.fullscreen_exits r;
            ExamSessionRow.is_flagged := ExamSessionRow.is_flagged r;
            ExamSessionRow.flag_reason := ExamSessionRow.flag_reason r;
            ExamSessionRow.ended := true;
            ExamSessionRow.is_active := false |}
       else r) (Backend.exam_sessions d)) d.

(** [handleSubmitExam] (lines 677-728). *)
Definition handleSubmitExam (w : World) : World :=
  let s := state w in
  if isSubmitting s then w
  else
    let w := update (setIsSubmitting true) w in
    let '(correctCount, totalPoints) := grade (questions s) (answers s) in
    let length := Z.of_nat (length (questions s)) in
    let score := if 0 <? length then scorePercentage correctCount length
                 else 0 in
    let w :=
      match user s, quizId s with
      | Some uid, Some qid =>
          let w := setBackend
                     (Backend.insert_attempt
                        (Attempt.mk uid qid score correctCount length
                           (1800 - timeLeft s))
                        (backend w)) w in
          match examSession s with
          | Some es =>
              setBackend (end_session (ExamSession.id es) (backend w)) w
          | None => w
          end
      | _, _ => w
      end in
    let w := if fullscreenElement w then setFullscreenElement false w else w in
    let w := toast "Exam Submitted"
               ("Your score: " +:+ JS.toString score +:+ "%") w in
    navigate "/dashboard" w.

(** The violations of a session, recorded one after the other. *)
Definition recordAll (types : list ViolationType) (w : World) : World :=
  fold_left (fun w type => handleSecurityViolation type w) types w.

(** The exam as [startExam] leaves it: the session row just inserted, with
    the column defaults (both counters 0, not flagged), mirrored in the
    component state. *)
Definition started (uid qid sessionId started_at : string)
    (questions : list Question.t) : World :=
  {| state :=
       setExamStarted true
         (setExamSession
            (Some (ExamSession.mk sessionId qid started_at (Some 0) (Some 0)
                     false))
            (setIsFullscreen true (initial (Some uid) (Some qid) questions)));
     backend :=
       Backend.mk [] [] [] [] [] []
         [ExamSessionRow.mk sessionId (Some 0) (Some 0) false None false true];
     toasts := []; navigated := None; autoSubmits := 0;
     fullscreenElement := true; hidden := false |}.

End SecureExam.

(** ** Vocabulary of the properties *)

(** How often [type] occurs among [types]. *)
Definition occurrences (type : SecureExam.ViolationType)
    (types : list SecureExam.ViolationType) : Z :=
  Z.of_nat (length (filter (fun t => t = type) types)).

(** The percentage in the words of the specification:
    [round(100 * correctCount / totalQuestions)] rounding halves up, that is
    [floor ((200 * correctCount + totalQuestions) / (2 * totalQuestions))],
    and 0 when there is no question. *)
Definition round_half_up_percentage (correctCount totalQuestions : Z) : Z :=
  if totalQuestions =? 0 then 0
  else (200 * correctCount + totalQuestions) / (2 * totalQuestions).

(** Whether the rounded double agrees with the exact percentage for every
    count of right answers out of [n] questions. *)
Definition percentage_exact_for (n : nat) : bool :=
  forallb
    (fun c => scorePercentage (Z.of_nat c) (Z.of_nat n)
              =? round_half_up_percentage (Z.of_nat c) (Z.of_nat n))
    (seq 0 (S n)).

(** The part of a quiz page that the countdown and the submission depend
    on, apart from the answers and the cursor. *)
Definition session_frame (w : QuizView.World) :=
  let s := QuizView.state w in
  (QuizView.user s, QuizView.quiz s, QuizView.allQuestions s,
   QuizView.questions s, QuizView.quizStarted s, QuizView.timerEnabled s,
   QuizView.isSubmitted s, QuizView.timeRemaining s, QuizView.backend w).

(** The number of seconds that pass during a sequence of events. *)
Definition ticks (es : list QuizView.Event) : Z :=
  Z.of_nat (length (filter (fun e => e = QuizView.Tick) es)).

(** A timed quiz in progress for user [uid], with [remaining] seconds on the
    countdown and the backend as [d]. *)
Definition counting_down (uid : string) (remaining : Z) (d : Backend.t)
    (w : QuizView.World) : Prop :=
  let s := QuizView.state w in
  QuizView.user s = Some uid
  /\ QuizView.quiz s <> None
  /\ QuizView.allQuestions s <> []
  /\ QuizView.questions s <> []
  /\ QuizView.quizStarted s = true
  /\ QuizView.timerEnabled s = true
  /\ QuizView.isSubmitted s = false
  /\ QuizView.timeRemaining s = Some (JS.Int remaining)
  /\ 0 < remaining
  /\ QuizView.backend w = d.

(** A quiz in progress without timer, the backend as [d]. *)
Definition untimed (d : Backend.t) (w : QuizView.World) : Prop :=
  let s := QuizView.state w in
  QuizView.quiz s <> None
  /\ QuizView.allQuestions s <> []
  /\ QuizView.quizStarted s = true
  /\ QuizView.timerEnabled s = false
  /\ QuizView.isSubmitted s = false
  /\ QuizView.timeRemaining s = None
  /\ QuizView.backend w = d.

(** The order of the three levels. *)
Definition level_rank (l : option difficulty_level) : Z :=
  match l with
  | None => 0
  | Some beginner => 1
  | Some intermediate => 2
  | Some advanced => 3
  end.

(** ** Sample sessions

    Concrete sessions on which the handlers are evaluated. *)

Definition sampleQuestion (id : string) (correct points : Z) : Question.t :=
  Question.mk id "?" (JArray [JString "a"; JString "b"; JString "c"])
    correct None points 0.

(** [n] ten-point questions with ids "0", "1", ..., all with correct
    option 0. *)
Definition samplePool (n : nat) : list Question.t :=
  List.map (fun i => sampleQuestion (JS.toString (Z.of_nat i)) 0 10) (seq 0 n).

(** The answer map that picks option 0 for the first [k] sample questions
    and option 1 for the questions from [k] up to [n]. *)
Definition sampleAnswers (k n : nat) : gmap string Z :=
  fold_left
    (fun m i => <[JS.toString (Z.of_nat i) :=
                   if (i <? k)%nat then 0 else 1]> m)
    (seq 0 n) ∅.

Definition sampleQuiz : Quiz.t :=
  Quiz.mk "quiz-1" "Sample quiz" "lesson-1" beginner 70.

Definition sampleLesson : Lesson.t :=
  Lesson.mk "lesson-1" "course-1" "Sample lesson".

Definition sampleBackend : Backend.t :=
  Backend.mk [sampleQuiz] [sampleLesson] []
    [Profile.mk "user-1" (Some 495) (Some beginner)] [] [] [].

(** Question rows out of order: two of the sample quiz, the later one
    first, and one of another quiz between them. *)
Definition sampleRows : list QuestionRow.t :=
  [QuestionRow.mk "b" "quiz-1" "Second?" (JArray [JString "x"; JString "y"])
     1 None (Some 0) (Some 2);
   QuestionRow.mk "c" "quiz-2" "Other?" (JArray [JString "x"]) 0 None
     (Some 5) (Some 0);
   QuestionRow.mk "a" "quiz-1" "First?" (JString "[1, 2]") 0 None None
     (Some 1)].

Definition sampleBackendWithRows : Backend.t :=
  Backend.mk [sampleQuiz] [sampleLesson] sampleRows
    [Profile.mk "user-1" (Some 495) (Some beginner)] [] [] [].

(** A loaded quiz page showing the setup card: a pool of [n] questions, the
    count menu on [count], the timer switch on [timer] with [minutes]. *)
Definition sampleSetup (n : nat) (count : string) (timer : bool)
    (minutes : string) : QuizView.World :=
  {| QuizView.state :=
       {| QuizView.user := Some "user-1";
          QuizView.quiz := Some sampleQuiz;
          QuizView.lesson := Some sampleLesson;
          QuizView.allQuestions := samplePool n;
          QuizView.questions := [];
          QuizView.currentQuestionIndex := 0;
          QuizView.selectedAnswers := ∅;
          QuizView.isSubmitted := false;
          QuizView.score := 0;
          QuizView.startTime := 0;
          QuizView.quizStarted := false;
          QuizView.selectedQuestionCount := count;
          QuizView.timerEnabled := timer;
          QuizView.timerMinutes := minutes;
          QuizView.timeRemaining := None;
          QuizView.timerExpired := false |};
     QuizView.backend := sampleBackend;
     QuizView.toasts := [];
     QuizView.navigated := None;
     QuizView.now := 0;
     QuizView.draws := 0 |}.

(** A sequence of draws alternating 0 and 0.5. *)
Definition sampleRandom (k : nat) : JS.double :=
  if Nat.even k then JS.of_Z 0 else JS.one_half.

(** A quiz of one question in progress, with the right option chosen. *)
Definition sampleInProgress : QuizView.World :=
  QuizView.run sampleRandom [QuizView.ClickStart; QuizView.ClickOption 0]
    (sampleSetup 1 "all" false "10").

(** The same quiz with a wrong option chosen. *)
Definition sampleInProgressWrong : QuizView.World :=
  QuizView.run sampleRandom [QuizView.ClickStart; QuizView.ClickOption 1]
    (sampleSetup 1 "all" false "10").

(** The same again on a page whose lesson could not be loaded. *)
Definition sampleWithoutLesson : QuizView.World :=
  QuizView.update (QuizView.setLesson None) sampleInProgressWrong.

(** A quiz of forty questions in progress, twenty-three of them answered
    with the right option and the others with a wrong one. *)
Definition sampleForty : QuizView.World :=
  QuizView.update (QuizView.setSelectedAnswers (sampleAnswers 23 40))
    (QuizView.startQuiz sampleRandom (sampleSetup 40 "all" false "10")).

(** The same forty questions and answers in a secure exam. *)
Definition sampleFortyExam : SecureExam.World :=
  SecureExam.update (SecureExam.setAnswers (sampleAnswers 23 40))
    (SecureExam.started "user-1" "quiz-1" "session-1" "2026-01-03T09:00:00Z"
       (samplePool 40)).

(** A secure exam just started, without questions. *)
Definition sampleExam : SecureExam.World :=
  SecureExam.started "user-1" "quiz-1" "session-1" "2026-01-03T09:00:00Z" [].

(** [Number.prototype.toString] on the integer-valued doubles. *)
Definition integer_toString (x : JS.double) : string :=
  JS.toString (JS.Math_round x).

(** [JSON.parse] on the texts that are a literal name or an unsigned decimal
    integer, without surrounding blanks; the other texts are not covered
    (they yield [None] here). *)
Definition JSON_parse_scalar (text : string) : option Json :=
  if String.eqb text "null" then Some JNull
  else if String.eqb text "true" then Some (JBool true)
  else if String.eqb text "false" then Some (JBool false)
  else if forallb (fun c => bool_decide (is_Some (JS.digit_of c)))
            (list_ascii_of_string text)
  then JNumber ∘ JS.of_Z <$> JS.digits text None
  else None.

(** ** The clock display

    [formatTime] of both pages: minutes and seconds, each padded to two
    characters with [padStart(2, '0')].  [Math.floor(seconds / 60)] is the
    floor of the exact quotient and [%] takes the sign of the dividend. *)

Definition padStart2 (s : string) : string :=
  match String.length s with
  | 0%nat => "00"
  | 1%nat => "0" +:+ s
  | _ => s
  end.

Definition formatTime (seconds : Z) : string :=
  let mins := seconds / 60 in
  let secs := Z.rem seconds 60 in
  padStart2 (JS.toString mins) +:+ ":" +:+ padStart2 (JS.toString secs).

(** ** More of the secure exam page

    The loading of the questions, [startExam], the thirty-minute timer, the
    three observers of the security monitor and the navigation of
    SecureExam (AdminAnalytics.tsx, lines 512-610, 643-671 and 894-928).

    The buttons of the page run the handlers of the render on screen, which
    read the state as it is.  The interval, the two document listeners and
    the callbacks handed to [setTimeout] are closures of the render in which
    their effect last ran: they run the [handleSubmitExam] and the
    [handleSecurityViolation] of that render, which read the state of that
    render, while their state updates land on the component as it is.  A
    page therefore carries, beside the component and its surroundings, the
    state of the render each of these closures belongs to. *)

Module ExamPage.

Definition setQuestions (v : list Question.t) (s : SecureExam.State)
  : SecureExam.State :=
  {| SecureExam.user := SecureExam.user s;
     SecureExam.quizId := SecureExam.quizId s;
     SecureExam.examSession := SecureExam.examSession s;
     SecureExam.questions := v;
     SecureExam.currentQuestion := SecureExam.currentQuestion s;
     SecureExam.answers := SecureExam.answers s;
     SecureExam.isFullscreen := SecureExam.isFullscreen s;
     SecureExam.showWarning := SecureExam.showWarning s;
     SecureExam.warningMessage := SecureExam.warningMessage s;
     SecureExam.timeLeft := SecureExam.timeLeft s;
     SecureExam.isSubmitting := SecureExam.isSubmitting s;
     SecureExam.examStarted := SecureExam.examStarted s |}.

Definition setHidden (v : bool) (w : SecureExam.World) : SecureExam.World :=
  {| SecureExam.state := SecureExam.state w;
     SecureExam.backend := SecureExam.backend w;
     SecureExam.toasts := SecureExam.toasts w;
     SecureExam.navigated := SecureExam.navigated w;
     SecureExam.autoSubmits := SecureExam.autoSubmits w;
     SecureExam.fullscreenElement := SecureExam.fullscreenElement w;
     SecureExam.hidden := v |}.

(** The question the exam page builds from a row (lines 600-606): the
    options are kept when they are an array and replaced by [[]]
    otherwise. *)
Definition formatQuestion (q : QuestionRow.t) : Question.t :=
  {| Question.id := QuestionRow.id q;
     Question.question := QuestionRow.question q;
     Question.options :=
       match QuestionRow.options q with
       | JArray items => JArray items
       | _ => JArray []
       end;
     Question.correct_answer := QuestionRow.correct_answer q;
     Question.explanation := None;
     Question.points := or10 (QuestionRow.points q);
     Question.order_index := 0 |}.

(** [fetchQuizData] of the exam page (lines 582-610), which the mount
    effect calls when there are a user and a quiz id; [failed] tells whether
    the query reported an error.  The rows come in ascending
    [order_index]. *)
Definition fetchQuizData (failed : bool) (w : SecureExam.World)
  : SecureExam.World :=
  if failed
  then SecureExam.navigate "/dashboard"
         (SecureExam.toast "Error" "Failed to load exam questions." w)
  else
    let questionsData :=
      match SecureExam.quizId (SecureExam.state w) with
      | Some quizId =>
          order_by_order_index
            (filter (fun q => String.eqb (QuestionRow.quiz_id q) quizId)
               (Backend.quiz_questions (SecureExam.backend w)))
      | None => []
      end in
    SecureExam.update (setQuestions (List.map formatQuestion questionsData)) w.

(** [startExam] (lines 643-671).  [granted] tells whether the fullscreen
    request succeeded; [inserted] is the id and start time of the session
    row the backend created, or [None] when the insert failed.  The new row
    has the column defaults. *)
Definition startExam (granted : bool) (inserted : option (string * string))
    (w : SecureExam.World) : SecureExam.World :=
  match SecureExam.user (SecureExam.state w),
        SecureExam.quizId (SecureExam.state w) with
  | Some uid, Some qid =>
      let w := if granted
               then SecureExam.update (SecureExam.setIsFullscreen true)
                      (SecureExam.setFullscreenElement true w)
               else w in
      match inserted with
      | None => w
      | Some (sessionId, started_at) =>
          let d := SecureExam.backend w in
          let w := SecureExam.setBackend
                     (Backend.setExam_sessions
                        (Backend.exam_sessions d
                         ++ [ExamSessionRow.mk sessionId (Some 0) (Some 0)
                               false None false true]) d) w in
          let w := SecureExam.update
                     (SecureExam.setExamSession
                        (Some (ExamSession.mk sessionId qid started_at
                                 (Some 0) (Some 0) false))) w in
          SecureExam.update (SecureExam.setExamStarted true) w
      end
  | _, _ => w
  end.

(** [handleSecurityViolation] (lines 612-641) of the render with state [c]:
    [examSession] is the one of that render. *)
Definition handleSecurityViolationIn (c : SecureExam.State)
    (type : SecureExam.ViolationType) (w : SecureExam.World)
  : SecureExam.World :=
  match SecureExam.examSession c with
  | None => w
  | Some es =>
      let newCount := or0 (SecureExam.counter type es) + 1 in
      let w := SecureExam.setBackend
                 (SecureExam.update_violation (ExamSession.id es) type
                    newCount (SecureExam.backend w)) w in
      let w := SecureExam.update
                 (SecureExam.setExamSession
                    (Some (SecureExam.withCounter type newCount
                             (3 <=? newCount) es))) w in
      if 3 <=? newCount
      then
        let w := SecureExam.update (SecureExam.setWarningMessage
          "Your exam has been flagged due to multiple security violations. The exam will now end.")
          w in
        let w := SecureExam.update (SecureExam.setShowWarning true) w in
        SecureExam.setAutoSubmits (S (SecureExam.autoSubmits w)) w
      else
        SecureExam.toast "Warning"
          ((match type with
            | SecureExam.tab_switch => "Tab switch"
            | SecureExam.fullscreen_exit => "Fullscreen exit"
            end) +:+ " detected. (" +:+ JS.toString newCount +:+ "/3 allowed)")
          w
  end.

(** [handleSubmitExam] (lines 677-728) of the render with state [c]: the
    guard, the questions, the answers, the user, the quiz, the session and
    the clock are those of that render.  [setIsSubmitting] reaches the
    component while it is mounted, that is until [navigate] has left the
    page. *)
Definition handleSubmitExamIn (c : SecureExam.State) (w : SecureExam.World)
  : SecureExam.World :=
  if SecureExam.isSubmitting c then w
  else
    let w := match SecureExam.navigated w with
             | None => SecureExam.update (SecureExam.setIsSubmitting true) w
             | Some _ => w
             end in
    let '(correctCount, totalPoints) :=
      grade (SecureExam.questions c) (SecureExam.answers c) in
    let length := Z.of_nat (length (SecureExam.questions c)) in
    let score := if 0 <? length then scorePercentage correctCount length
                 else 0 in
    let w :=
      match SecureExam.user c, SecureExam.quizId c with
      | Some uid, Some qid =>
          let w := SecureExam.setBackend
                     (Backend.insert_attempt
                        (Attempt.mk uid qid score correctCount length
                           (1800 - SecureExam.timeLeft c))
                        (SecureExam.backend w)) w in
          match SecureExam.examSession c with
          | Some es =>
              SecureExam.setBackend
                (SecureExam.end_session (ExamSession.id es)
                   (SecureExam.backend w)) w
          | None => w
          end
      | _, _ => w
      end in
    let w := if SecureExam.fullscreenElement w
             then SecureExam.setFullscreenElement false w else w in
    let w := SecureExam.toast "Exam Submitted"
               ("Your score: " +:+ JS.toString score +:+ "%") w in
    SecureExam.navigate "/dashboard" w.

(** The page: the component with its surroundings, the renders of the
    interval callback (effect of lines 512-527, run again when
    [examStarted] or [timeLeft] changes), of the [visibilitychange] listener
    (lines 530-541, [examStarted] or [examSession]) and of the
    [fullscreenchange] listener (lines 544-556, [examStarted] or
    [isFullscreen]), and the renders of the pending
    [setTimeout(() => handleSubmitExam(), 3000)] callbacks, the oldest
    first.  Leaving the page removes the interval and the listeners; the
    pending callbacks stay. *)
Record Page := mkPage {
  world : SecureExam.World;
  timer : SecureExam.State;
  visibility : SecureExam.State;
  fullscreen : SecureExam.State;
  timeouts : list SecureExam.State
}.

Definition setWorld (v : SecureExam.World) (p : Page) : Page :=
  {| world := v; timer := timer p; visibility := visibility p;
     fullscreen := fullscreen p; timeouts := timeouts p |}.

Definition setTimer (v : SecureExam.State) (p : Page) : Page :=
  {| world := world p; timer := v; visibility := visibility p;
     fullscreen := fullscreen p; timeouts := timeouts p |}.

Definition setVisibility (v : SecureExam.State) (p : Page) : Page :=
  {| world := world p; timer := timer p; visibility := v;
     fullscreen := fullscreen p; timeouts := timeouts p |}.

Definition setFullscreen (v : SecureExam.State) (p : Page) : Page :=
  {| world := world p; timer := timer p; visibility := visibility p;
     fullscreen := v; timeouts := timeouts p |}.

Definition setTimeouts (v : list SecureExam.State) (p : Page) : Page :=
  {| world := world p; timer := timer p; visibility := visibility p;
     fullscreen := fullscreen p; timeouts := v |}.

(** The page after a render in which every effect has run, as the one in
    which [startExam] sets [examStarted]: the three closures are of that
    render and no callback is pending. *)
Definition mount (w : SecureExam.World) : Page :=
  {| world := w; timer := SecureExam.state w;
     visibility := SecureExam.state w; fullscreen := SecureExam.state w;
     timeouts := [] |}.

(** The timer effect (lines 513-527) keeps a one-second interval while the
    exam is started and [timeLeft] is positive.  Its callback:
    [prev => { if (prev <= 1) { handleSubmitExam(); return 0; }
               return prev - 1; }], where [prev] is the clock of the
    component and [handleSubmitExam] the one of the render of the
    interval.  The effect runs again when the clock has changed. *)
Definition timerArmed (s : SecureExam.State) : bool :=
  SecureExam.examStarted s && negb (SecureExam.timeLeft s <=? 0).

Definition tick (p : Page) : Page :=
  let c := timer p in
  if timerArmed c
  then
    let w := world p in
    let prev := SecureExam.timeLeft (SecureExam.state w) in
    let w := if prev <=? 1
             then SecureExam.update (SecureExam.setTimeLeft 0)
                    (handleSubmitExamIn c w)
             else SecureExam.update (SecureExam.setTimeLeft (prev - 1)) w in
    let p := setWorld w p in
    if SecureExam.timeLeft (SecureExam.state w) =? prev then p
    else setTimer (SecureExam.state w) p
  else p.

(** A violation reported by a listener of the render with state [c].
    [setExamSession] installs a new session object, so the effect of the
    [visibilitychange] listener runs again in the render that follows; the
    callback handed to [setTimeout] belongs to the render of the
    listener. *)
Definition violation (c : SecureExam.State)
    (type : SecureExam.ViolationType) (p : Page) : Page :=
  match SecureExam.examSession c with
  | None => p
  | Some es =>
      let w := handleSecurityViolationIn c type (world p) in
      let p := setVisibility (SecureExam.state w) (setWorld w p) in
      if 3 <=? or0 (SecureExam.counter type es) + 1
      then setTimeouts (timeouts p ++ [c]) p
      else p
  end.

(** [handleVisibilityChange] (lines 530-541), registered by a render in
    which the exam is started and has a session; [hidden] is the new
    [document.hidden]. *)
Definition handleVisibilityChange (hidden : bool) (p : Page) : Page :=
  let c := visibility p in
  let p := setWorld (setHidden hidden (world p)) p in
  if SecureExam.examStarted c
     && bool_decide (is_Some (SecureExam.examSession c))
     && hidden
  then violation c SecureExam.tab_switch p
  else p.

(** [handleFullscreenChange] (lines 544-556), registered by a render in
    which the exam is started; [element] tells whether
    [document.fullscreenElement] is set after the change.  The listener
    compares with the [isFullscreen] of its render.  [setIsFullscreen] is
    called while the update of the session row is still awaited: when it
    changes [isFullscreen] the effect runs again in a render that has the
    session as it was, and the new session arrives after it. *)
Definition handleFullscreenChange (element : bool) (p : Page) : Page :=
  let c := fullscreen p in
  let p := setWorld (SecureExam.setFullscreenElement element (world p)) p in
  if SecureExam.examStarted c
  then
    let s := SecureExam.state (world p) in
    let p := setWorld
               (SecureExam.update (SecureExam.setIsFullscreen element)
                  (world p)) p in
    let p := if Bool.eqb (SecureExam.isFullscreen s) element then p
             else setFullscreen (SecureExam.setIsFullscreen element s) p in
    if negb element && SecureExam.isFullscreen c
    then violation c SecureExam.fullscreen_exit p
    else p
  else p.

(** [preventAction] (lines 559-580), on copy, paste and context menu. *)
Definition preventAction (w : SecureExam.World) : SecureExam.World :=
  if SecureExam.examStarted (SecureExam.state w)
  then SecureExam.toast "Action Blocked"
         "Copy/paste is disabled during the exam." w
  else w.

(** [questions[currentQuestion]]. *)
Definition question (s : SecureExam.State) : option Question.t :=
  if SecureExam.currentQuestion s <? 0 then None
  else SecureExam.questions s !! Z.to_nat (SecureExam.currentQuestion s).

(** What can happen to the exam page; [AutoSubmit] is the firing of the
    oldest pending [setTimeout] callback, [ClickUnderstood] the button of
    the warning dialog (lines 932-947). *)
Inductive Event :=
| Tick
| VisibilityChange (hidden : bool)
| FullscreenChange (element : bool)
| AutoSubmit
| BlockedAction
| ClickOption (idx : Z)
| ClickPrevious
| ClickNext
| ClickQuestion (idx : nat)
| ClickSubmit
| ClickUnderstood.

#[global] Instance Event_eq_dec : EqDecision Event.
Proof. solve_decision. Defined.

(** The copy and paste listeners and the buttons of the exam view, which is
    on screen once the exam is started; the footer shows Next, or Submit on
    the last question, and the warning dialog is open while [showWarning]
    is set. *)
Definition click (e : Event) (w : SecureExam.World) : SecureExam.World :=
  let s := SecureExam.state w in
  let last := Z.of_nat (length (SecureExam.questions s)) - 1 in
  match e with
  | BlockedAction => preventAction w
  | _ =>
      if SecureExam.examStarted s
      then
        match e with
        | ClickOption idx =>
            match question s with
            | Some q =>
                SecureExam.update
                  (SecureExam.handleAnswerSelect (Question.id q) idx) w
            | None => w
            end
        | ClickPrevious =>
            if SecureExam.currentQuestion s =? 0 then w
            else SecureExam.update
                   (SecureExam.setCurrentQuestion
                      (Z.max 0 (SecureExam.currentQuestion s - 1))) w
        | ClickNext =>
            if SecureExam.currentQuestion s =? last then w
            else SecureExam.update
                   (SecureExam.setCurrentQuestion
                      (Z.min last (SecureExam.currentQuestion s + 1))) w
        | ClickQuestion idx =>
            if (idx <? length (SecureExam.questions s))%nat
            then SecureExam.update
                   (SecureExam.setCurrentQuestion (Z.of_nat idx)) w
            else w
        | ClickSubmit =>
            if (SecureExam.currentQuestion s =? last)
               && negb (SecureExam.isSubmitting s)
            then SecureExam.handleSubmitExam w
            else w
        | ClickUnderstood =>
            if SecureExam.showWarning s
            then SecureExam.update (SecureExam.setShowWarning false) w
            else w
        | _ => w
        end
      else w
  end.

(** The firing of the oldest pending callback. *)
Definition fire (p : Page) : Page :=
  match timeouts p with
  | [] => p
  | c :: rest => setTimeouts rest (setWorld (handleSubmitExamIn c (world p)) p)
  end.

(** The interval, the listeners and the buttons act while the page is
    mounted: [navigate] leaves it.  A pending callback fires all the
    same. *)
Definition dispatch (e : Event) (p : Page) : Page :=
  match e with
  | AutoSubmit => fire p
  | _ =>
      match SecureExam.navigated (world p) with
      | None =>
          match e with
          | Tick => tick p
          | VisibilityChange hidden => handleVisibilityChange hidden p
          | FullscreenChange element => handleFullscreenChange element p
          | _ => setWorld (click e (world p)) p
          end
      | Some _ => p
      end
  end.

Definition run (es : list Event) (p : Page) : Page :=
  fold_left (fun p e => dispatch e p) es p.

End ExamPage.

(** ** The analytics page

    The course figures of [fetchAnalyticsData] (AdminAnalytics.tsx, lines
    105-109 and 168-185). *)

Module Analytics.

Record Course := mkCourse {
  title : string;
  is_published : option bool;
  difficulty : option difficulty_level
}.

(** [coursesData?.filter(c => c.is_published).length || 0]. *)
Definition publishedCount (coursesData : option (list Course)) : Z :=
  match coursesData with
  | Some courses =>
      Z.of_nat (length (filter (fun c => is_published c = Some true) courses))
  | None => 0
  end.

(** The [difficultyData] record, one counter per level. *)
Record Tally := mkTally {
  beginners : Z;
  intermediates : Z;
  advanceds : Z
}.

(** [difficultyData[diff] = (difficultyData[diff] || 0) + 1] with
    [diff = course.difficulty || 'beginner']. *)
Definition count_course (t : Tally) (c : Course) : Tally :=
  match default beginner (difficulty c) with
  | beginner => mkTally (beginners t + 1) (intermediates t) (advanceds t)
  | intermediate => mkTally (beginners t) (intermediates t + 1) (advanceds t)
  | advanced => mkTally (beginners t) (intermediates t) (advanceds t + 1)
  end.

Definition difficultyDistribution (courses : list Course)
  : list (string * Z) :=
  let t := fold_left count_course courses (mkTally 0 0 0) in
  [("Beginner", beginners t); ("Intermediate", intermediates t);
   ("Advanced", advanceds t)].

End Analytics.

(** ** More vocabulary *)

(** The number of retries in a sequence of quiz events. *)
Definition retries (es : list QuizView.Event) : Z :=
  Z.of_nat (length (filter (fun e => e = QuizView.ClickRetry) es)).

(** The quiz page as the interface keeps it: the count is one the menu
    offers; before the start the cursor is on the first question and no
    answer is recorded; once started, the cursor is on one of the questions
    presented, these are taken from the pool without repetition, and every
    answer recorded belongs to one of them. *)
Definition page_invariant (w : QuizView.World) : Prop :=
  let s := QuizView.state w in
  QuizView.selectedQuestionCount s ∈ QuizView.getQuestionCountOptions s
  /\ (QuizView.quizStarted s = false ->
        QuizView.currentQuestionIndex s = 0
        /\ QuizView.selectedAnswers s = ∅)
  /\ (QuizView.quizStarted s = true ->
        0 <= QuizView.currentQuestionIndex s
           < Z.of_nat (length (QuizView.questions s))
        /\ (exists rest,
              QuizView.questions s ++ rest ≡ₚ QuizView.allQuestions s)
        /\ (forall k,
              is_Some (QuizView.selectedAnswers s !! k) ->
              k ∈ Question.id <$> QuizView.questions s)).


(** How often a held fullscreen is lost along a sequence of fullscreen
    changes, [held] telling whether it is held at the start. *)
Fixpoint fullscreenLosses (held : bool) (changes : list bool) : Z :=
  match changes with
  | [] => 0
  | element :: rest =>
      (if negb element && held then 1 else 0) + fullscreenLosses element rest
  end.

(** The fields of a clock string read back: the two characters before the
    colon and the two after it. *)
Definition clockMinutes (text : string) : JS.num :=
  JS.parseInt (String.substring 0 2 text).

Definition clockSeconds (text : string) : JS.num :=
  JS.parseInt (String.substring 3 2 text).

(** Whether [formatTime n] is a five-character clock that reads back as
    [n]. *)
Definition clock_reads_back (n : nat) : bool :=
  let text := formatTime (Z.of_nat n) in
  (String.length text =? 5)%nat
  && bool_decide (String.get 2 text = Some ":"%char)
  && bool_decide (clockMinutes text = JS.Int (Z.of_nat n / 60))
  && bool_decide (clockSeconds text = JS.Int (Z.of_nat n mod 60)).

(** The part of the quiz page that [page_invariant] speaks about. *)
Definition page_fields (w : QuizView.World) :=
  let s := QuizView.state w in
  (QuizView.selectedQuestionCount s, QuizView.allQuestions s,
   QuizView.quizStarted s, QuizView.currentQuestionIndex s,
   QuizView.selectedAnswers s, QuizView.questions s).

(** What the page has written and may still write in the running session:
    the attempts so far, plus one while the quiz is not submitted. *)
Definition attempts_in_reach (w : QuizView.World) : Z :=
  Z.of_nat (length (Backend.quiz_attempts (QuizView.backend w)))
  + (if QuizView.isSubmitted (QuizView.state w) then 0 else 1).

(** Successive profile updates, one for each passing submission with the
    given points. *)
Definition updateProfiles (uid : string) (points : list Z)
    (w : QuizView.World) : QuizView.World :=
  fold_left (fun w totalPoints => QuizView.updateProfile uid totalPoints w)
    points w.

(** The number of seconds that pass during a sequence of exam events. *)
Definition examTicks (es : list ExamPage.Event) : Z :=
  Z.of_nat (length (filter (fun e => e = ExamPage.Tick) es)).

(** The exam events that neither record a violation nor submit: the passing
    of a second, a blocked copy or paste, and the clicks on options, on the
    navigation and on the button of the warning dialog. *)
Definition uneventful (e : ExamPage.Event) : bool :=
  match e with
  | ExamPage.VisibilityChange _ | ExamPage.FullscreenChange _
  | ExamPage.AutoSubmit | ExamPage.ClickSubmit => false
  | _ => true
  end.

(** A secure exam under way for user [uid] on quiz [qid], with [left]
    seconds on the clock and the backend as [d]; the interval is the one of
    the render in which the clock last changed, which had this user, this
    quiz and this clock and was not submitting. *)
Definition exam_running (uid qid : string) (left : Z) (d : Backend.t)
    (p : ExamPage.Page) : Prop :=
  let w := ExamPage.world p in
  let s := SecureExam.state w in
  let c := ExamPage.timer p in
  SecureExam.user s = Some uid
  /\ SecureExam.quizId s = Some qid
  /\ SecureExam.examStarted s = true
  /\ SecureExam.isSubmitting s = false
  /\ SecureExam.timeLeft s = left
  /\ 0 < left
  /\ SecureExam.navigated w = None
  /\ SecureExam.backend w = d
  /\ (SecureExam.user c, SecureExam.quizId c, SecureExam.examStarted c,
      SecureExam.isSubmitting c, SecureExam.timeLeft c)
     = (Some uid, Some qid, true, false, left).

(** The part of the exam component that neither a violation nor a
    submission touches. *)
Definition exam_fields (s : SecureExam.State) :=
  (SecureExam.user s, SecureExam.quizId s, SecureExam.questions s,
   SecureExam.currentQuestion s, SecureExam.answers s,
   SecureExam.isFullscreen s, SecureExam.timeLeft s,
   SecureExam.examStarted s).

(** The two listeners of the monitor as their effects keep them: the
    [visibilitychange] listener is of a render with the session as it is;
    the [fullscreenchange] listener is of a render with [isFullscreen] as
    it is and, while fullscreen is held, with a session that has the
    fullscreen exits counted so far. *)
Definition monitor_in_step (p : ExamPage.Page) : Prop :=
  let s := SecureExam.state (ExamPage.world p) in
  let v := ExamPage.visibility p in
  let f := ExamPage.fullscreen p in
  SecureExam.examStarted v = SecureExam.examStarted s
  /\ SecureExam.examSession v = SecureExam.examSession s
  /\ SecureExam.examStarted f = SecureExam.examStarted s
  /\ SecureExam.isFullscreen f = SecureExam.isFullscreen s
  /\ (SecureExam.isFullscreen s = true ->
      or0 ∘ ExamSession.fullscreen_exits <$> SecureExam.examSession f
      = or0 ∘ ExamSession.fullscreen_exits <$> SecureExam.examSession s).

(** The closures that may still submit the exam of user [uid] on quiz
    [qid]: the two listeners, which hand their render to [setTimeout], and
    the callbacks pending.  All of them are of renders of this user and
    this quiz in which nothing was being submitted; and while the page is
    mounted nothing is being submitted on it. *)
Definition submitters (p : ExamPage.Page) : list SecureExam.State :=
  ExamPage.visibility p :: ExamPage.fullscreen p :: ExamPage.timeouts p.

Definition unguarded (uid qid : string) (p : ExamPage.Page) : Prop :=
  let w := ExamPage.world p in
  let s := SecureExam.state w in
  SecureExam.user s = Some uid
  /\ SecureExam.quizId s = Some qid
  /\ (SecureExam.navigated w = None -> SecureExam.isSubmitting s = false)
  /\ Forall (fun c => SecureExam.user c = Some uid
                      /\ SecureExam.quizId c = Some qid
                      /\ SecureExam.isSubmitting c = false)
       (submitters p).

(** A session row after the closing of session [sid], compared with the row
    before: the same, except that the row of [sid] is ended and inactive. *)
Definition closed_from (sid : string) (before after : ExamSessionRow.t)
  : Prop :=
  ExamSessionRow.id after = ExamSessionRow.id before
  /\ ExamSessionRow.tab_switches after = ExamSessionRow.tab_switches before
  /\ ExamSessionRow.fullscreen_exits after
     = ExamSessionRow.fullscreen_exits before
  /\ ExamSessionRow.is_flagged after = ExamSessionRow.is_flagged before
  /\ ExamSessionRow.flag_reason after = ExamSessionRow.flag_reason before
  /\ (if String.eqb (ExamSessionRow.id before) sid
      then ExamSessionRow.ended after = true
           /\ ExamSessionRow.is_active after = false
      else ExamSessionRow.ended after = ExamSessionRow.ended before
           /\ ExamSessionRow.is_active after
              = ExamSessionRow.is_active before).

(** The page of a user about to take the exam of a quiz, its questions
    loaded, over a backend without session rows. *)
Definition examLobby (uid qid : string) (questions : list Question.t)
  : SecureExam.World :=
  SecureExam.mkWorld (SecureExam.initial (Some uid) (Some qid) questions)
    (Backend.mk [] [] [] [] [] [] []) [] None 0 false false.

(** How many of the courses count for a level, a course without level
    counting as a beginner course. *)
Definition courses_of (level : difficulty_level)
    (courses : list Analytics.Course) : Z :=
  Z.of_nat
    (length
       (filter (fun c => default beginner (Analytics.difficulty c) = level)
          courses)).

(** The page of a secure exam just started on one sample question. *)
Definition sampleExamPage : ExamPage.Page :=
  ExamPage.mount
    (SecureExam.started "user-1" "quiz-1" "session-1" "2026-01-03T09:00:00Z"
       (samplePool 1)).

(** Three tab switches, the user coming back after each. *)
Definition threeTabSwitches : list ExamPage.Event :=
  [ExamPage.VisibilityChange true; ExamPage.VisibilityChange false;
   ExamPage.VisibilityChange true; ExamPage.VisibilityChange false;
   ExamPage.VisibilityChange true; ExamPage.VisibilityChange false].

(** The order of the question rows: ascending [order_index], the rows
    without one last. *)
Definition index_before (a b : option Z) : Prop :=
  match a, b with
  | Some x, Some y => x <= y
  | _, None => True
  | None, Some _ => False
  end.

Definition ascending (rows : list QuestionRow.t) : Prop :=
  StronglySorted
    (fun a b => index_before (QuestionRow.order_index a)
                  (QuestionRow.order_index b)) rows.

(** What a question of either page takes from its row: the id, the text,
    the correct answer, and the points, 10 when the row has none or 0. *)
Definition question_of (row : QuestionRow.t) (q : Question.t) : Prop :=
  Question.id q = QuestionRow.id row
  /\ Question.question q = QuestionRow.question row
  /\ Question.correct_answer q = QuestionRow.correct_answer row
  /\ Question.points q
     = match QuestionRow.points row with
       | Some n => if n =? 0 then 10 else n
       | None => 10
       end.

(** The options of an exam question: those of the row when they are an
    array, none otherwise. *)
Definition exam_options_of (row : QuestionRow.t) (q : Question.t) : Prop :=
  (forall items,
     QuestionRow.options row = JArray items ->
     Question.options q = JArray items)
  /\ ((forall items, QuestionRow.options row <> JArray items) ->
      Question.options q = JArray []).

(** * Properties *)

(** ** Shuffling and truncation *)

Section SortFacts.
Context {A : Type}.
Variable Math_random : nat -> JS.double.

Lemma sort_insert_perm (x : A) (placed : list A) (k : nat) :
  (JS.sort_insert Math_random x placed k).1 ≡ₚ x :: placed.
Proof.
  revert k; induction placed as [|y rest IH]; intros k; simpl; [done|].
  destruct (JS.ltb0 _); simpl; [done|].
  specialize (IH (S k)).
  destruct (JS.sort_insert Math_random x rest (S k)) as [r k'] eqn:E.
  simpl in *. rewrite IH. apply Permutation_swap.
Qed.

Lemma sort_random_perm (arr : list A) (k : nat) :
  (JS.sort_random Math_random arr k).1 ≡ₚ arr.
Proof.
  revert k; induction arr as [|x rest IH]; intros k; simpl; [done|].
  specialize (IH k).
  destruct (JS.sort_random Math_random rest k) as [placed k'] eqn:E.
  simpl in IH. rewrite sort_insert_perm. by rewrite IH.
Qed.

(** The comparator is evaluated once per placement step, so the draws only
    move forward. *)
Lemma sort_insert_draws (x : A) (placed : list A) (k : nat) :
  (k <= (JS.sort_insert Math_random x placed k).2)%nat.
Proof.
  revert k; induction placed as [|y rest IH]; intros k; simpl; [lia|].
  destruct (JS.ltb0 _); simpl; [lia|].
  specialize (IH (S k)).
  destruct (JS.sort_insert Math_random x rest (S k)) as [r k'].
  simpl in *. lia.
Qed.

End SortFacts.

Lemma slice0_count {A : Type} (n len : Z) (arr : list A) :
  0 <= n -> len = Z.of_nat (length arr) ->
  JS.slice0 (JS.Math_min (JS.Int n) len) arr
  = take (Z.to_nat (Z.min n len)) arr.
Proof.
  intros Hn ->. unfold JS.slice0, JS.Math_min.
  destruct (Z.ltb_spec (Z.min n (Z.of_nat (length arr))) 0) as [H|H]; [lia|].
  f_equal. lia.
Qed.

(** Every prefix of a rearrangement of [pool] is made of distinct members
    of [pool]: whatever algorithm the engine sorts with. *)
Lemma prefix_of_rearrangement {A : Type} (pool shuffled : list A) (k : nat) :
  shuffled ≡ₚ pool ->
  length (take k shuffled) = Nat.min k (length pool)
  /\ (exists rest, take k shuffled ++ rest ≡ₚ pool)
  /\ (forall q, q ∈ take k shuffled -> q ∈ pool)
  /\ (NoDup pool -> NoDup (take k shuffled)).
Proof.
  intros Hp. split; [|split; [|split]].
  - rewrite length_take, (Permutation_length Hp). lia.
  - exists (drop k shuffled). by rewrite take_drop.
  - intros q Hq. rewrite <- Hp. by apply (subseteq_take k shuffled).
  - intros Hnd. rewrite <- Hp in Hnd.
    rewrite <- (take_drop k shuffled) in Hnd.
    by apply NoDup_app in Hnd as [? _].
Qed.

(** ** Session configuration *)

Lemma startQuiz_state (Math_random : nat -> JS.double) (w : QuizView.World) :
  let s := QuizView.state w in
  QuizView.state (QuizView.startQuiz Math_random w)
  = QuizView.setQuizStarted true
      ((if QuizView.timerEnabled s
        then QuizView.setTimeRemaining
               (Some (JS.times (JS.parseInt (QuizView.timerMinutes s)) 60))
        else fun s => s)
         (QuizView.setStartTime (QuizView.now w)
            (QuizView.setQuestions
               (QuizView.selectQuestions Math_random w).1 s))).
Proof.
  unfold QuizView.startQuiz.
  destruct (QuizView.selectQuestions Math_random w) as [selected drawn].
  simpl. by destruct (QuizView.timerEnabled _).
Qed.

Lemma startQuiz_questions (Math_random : nat -> JS.double)
    (w : QuizView.World) :
  QuizView.questions (QuizView.state (QuizView.startQuiz Math_random w))
  = (QuizView.selectQuestions Math_random w).1.
Proof.
  rewrite startQuiz_state. simpl.
  by destruct (QuizView.timerEnabled _).
Qed.

Lemma startQuiz_surroundings (Math_random : nat -> JS.double)
    (w : QuizView.World) :
  QuizView.backend (QuizView.startQuiz Math_random w) = QuizView.backend w
  /\ QuizView.toasts (QuizView.startQuiz Math_random w) = QuizView.toasts w
  /\ QuizView.now (QuizView.startQuiz Math_random w) = QuizView.now w.
Proof.
  unfold QuizView.startQuiz.
  by destruct (QuizView.selectQuestions Math_random w).
Qed.

(** C5.  With the count menu on "all", [startQuiz] presents the pool as it
    was loaded, in the same order.  With a numeric count [n], it presents
    exactly [min n N] questions out of the [N] of the pool, each of them a
    separate member of the pool (the questions presented, followed by some
    remaining ones, are a rearrangement of the pool), so none is repeated
    unless the pool itself repeats it.  This holds for every sequence of
    random draws. *)
Theorem startQuiz_selects_questions (Math_random : nat -> JS.double)
    (w : QuizView.World) :
  let pool := QuizView.allQuestions (QuizView.state w) in
  let chosenCount := QuizView.selectedQuestionCount (QuizView.state w) in
  let chosen :=
    QuizView.questions (QuizView.state (QuizView.startQuiz Math_random w)) in
  (chosenCount = "all" -> chosen = pool)
  /\ (forall n : Z,
        chosenCount <> "all" -> JS.parseInt chosenCount = JS.Int n -> 0 <= n ->
        length chosen = Z.to_nat (Z.min n (Z.of_nat (length pool)))
        /\ (exists rest, chosen ++ rest ≡ₚ pool)
        /\ (forall q, q ∈ chosen -> q ∈ pool)
        /\ (NoDup pool -> NoDup chosen)).
Proof.
  intros pool chosenCount chosen. subst chosen.
  rewrite startQuiz_questions. unfold QuizView.selectQuestions.
  fold pool chosenCount.
  destruct (String.eqb_spec chosenCount "all") as [Hall|Hnum].
  - split; [done|]. intros n Hn; by destruct Hn.
  - split; [intros Hall; by destruct Hnum|].
    intros n _ Hparse Hn. rewrite Hparse.
    pose proof (sort_random_perm Math_random pool (QuizView.draws w)) as Hp.
    destruct (JS.sort_random Math_random pool (QuizView.draws w))
      as [shuffled k].
    cbn [fst] in *.
    rewrite slice0_count by (by rewrite ?(Permutation_length Hp)).
    destruct (prefix_of_rearrangement pool shuffled
                (Z.to_nat (Z.min n (Z.of_nat (length pool)))) Hp)
      as (Hlen & Hrest & Hin & Hnd).
    split; [|done]. rewrite Hlen. lia.
Qed.

Lemma samplePool_6_NoDup : NoDup (samplePool 6).
Proof.
  apply NoDup_ListNoDup. vm_compute.
  repeat (constructor;
          [simpl; intros H; decompose [or] H; (discriminate || done)|]).
  constructor.
Qed.

Lemma startQuiz_selects_questions_witness :
  QuizView.questions
    (QuizView.state
       (QuizView.startQuiz sampleRandom (sampleSetup 6 "all" false "10")))
  = samplePool 6
  /\ length
       (QuizView.questions
          (QuizView.state
             (QuizView.startQuiz sampleRandom (sampleSetup 6 "5" false "10"))))
     = 5%nat
  /\ NoDup
       (QuizView.questions
          (QuizView.state
             (QuizView.startQuiz sampleRandom (sampleSetup 6 "5" false "10")))).
Proof.
  split.
  - apply (startQuiz_selects_questions sampleRandom
             (sampleSetup 6 "all" false "10")).
    reflexivity.
  - destruct (startQuiz_selects_questions sampleRandom
                (sampleSetup 6 "5" false "10")) as [_ H].
    destruct (H 5) as (Hlen & _ & _ & Hnd);
      [discriminate | reflexivity | lia |].
    split; [exact Hlen | apply Hnd, samplePool_6_NoDup].
Defined.

(** The count menu always starts with "all", whatever the size of the
    pool. *)
Lemma getQuestionCountOptions_all (s : QuizView.State) :
  head (QuizView.getQuestionCountOptions s) = Some "all".
Proof.
  unfold QuizView.getQuestionCountOptions. cbv zeta.
  repeat case_match; reflexivity.
Qed.

(** ** Security violations *)

(** One violation: the counter of its own kind goes up by one, the flag
    becomes the comparison of that counter alone with 3, and the automatic
    submission is scheduled when the comparison holds. *)
Lemma handleSecurityViolation_session (type : SecureExam.ViolationType)
    (w : SecureExam.World) (es : ExamSession.t) :
  SecureExam.examSession (SecureExam.state w) = Some es ->
  let newCount := or0 (SecureExam.counter type es) + 1 in
  let w' := SecureExam.handleSecurityViolation type w in
  SecureExam.examSession (SecureExam.state w')
  = Some (SecureExam.withCounter type newCount (3 <=? newCount) es)
  /\ SecureExam.autoSubmits w'
     = (if 3 <=? newCount then S (SecureExam.autoSubmits w)
        else SecureExam.autoSubmits w).
Proof.
  intros Hes newCount w'. subst w'. unfold SecureExam.handleSecurityViolation.
  rewrite Hes. fold newCount. by destruct (3 <=? newCount).
Qed.

Lemma recordAll_snoc (types : list SecureExam.ViolationType)
    (type : SecureExam.ViolationType) (w : SecureExam.World) :
  SecureExam.recordAll (types ++ [type]) w
  = SecureExam.handleSecurityViolation type (SecureExam.recordAll types w).
Proof. unfold SecureExam.recordAll. by rewrite fold_left_app. Qed.

Lemma occurrences_snoc (type t : SecureExam.ViolationType)
    (types : list SecureExam.ViolationType) :
  occurrences type (types ++ [t])
  = occurrences type types + (if decide (t = type) then 1 else 0).
Proof.
  unfold occurrences. rewrite filter_app, length_app. simpl.
  rewrite filter_cons, filter_nil. destruct (decide (t = type)); simpl; lia.
Qed.

(** The session after any sequence of violations of a fresh exam: each
    counter holds the number of violations of its kind, and the flag tells
    whether the kind recorded last has occurred three times. *)
Lemma recordAll_started (uid qid sid t0 : string) (qs : list Question.t)
    (types : list SecureExam.ViolationType) :
  exists es,
    SecureExam.examSession
      (SecureExam.state
         (SecureExam.recordAll types (SecureExam.started uid qid sid t0 qs)))
    = Some es
    /\ ExamSession.tab_switches es
       = Some (occurrences SecureExam.tab_switch types)
    /\ ExamSession.fullscreen_exits es
       = Some (occurrences SecureExam.fullscreen_exit types)
    /\ ExamSession.is_flagged es
       = match last types with
         | Some type => 3 <=? occurrences type types
         | None => false
         end.
Proof.
  induction types as [|type types IH] using rev_ind.
  - eexists. split; [reflexivity|]. done.
  - destruct IH as (es & Hes & Htab & Hfs & _).
    rewrite recordAll_snoc.
    destruct (handleSecurityViolation_session type _ es Hes) as [-> _].
    eexists. split; [reflexivity|].
    rewrite last_snoc, !occurrences_snoc.
    destruct type; simpl; rewrite ?Htab, ?Hfs; simpl;
      rewrite ?Z.add_0_r; done.
Qed.

(** Up to two violations, of whatever kinds, neither flag the sample exam
    nor schedule its automatic submission. *)
Lemma two_violations_never_flag (types : list SecureExam.ViolationType) :
  (length types <= 2)%nat ->
  let w := SecureExam.recordAll types sampleExam in
  ExamSession.is_flagged <$> SecureExam.examSession (SecureExam.state w)
  = Some false
  /\ SecureExam.autoSubmits w = 0%nat.
Proof.
  intros Hlen.
  destruct types as [|a [|b [|c rest]]]; [| | |simpl in Hlen; lia];
    try destruct a; try destruct b; vm_compute; done.
Qed.

(** Three violations of one kind flag it and schedule the submission. *)
Lemma three_of_a_kind_flag (type : SecureExam.ViolationType) :
  let w := SecureExam.recordAll [type; type; type] sampleExam in
  ExamSession.is_flagged <$> SecureExam.examSession (SecureExam.state w)
  = Some true
  /\ SecureExam.autoSubmits w = 1%nat.
Proof. destruct type; vm_compute; done. Qed.

(** C1.  Two tab switches followed by one fullscreen exit: the header of the
    page shows 3 violations out of 3, yet the session is not flagged, in
    the component and in its [exam_sessions] row, and no automatic
    submission is scheduled.  The threshold is applied to the counter of the
    kind just recorded, which is 1 here. *)
Theorem mixed_violations_reach_three_unflagged :
  let w := SecureExam.recordAll
             [SecureExam.tab_switch; SecureExam.tab_switch;
              SecureExam.fullscreen_exit] sampleExam in
  SecureExam.headerViolations (SecureExam.state w) = 3
  /\ ExamSession.is_flagged <$> SecureExam.examSession (SecureExam.state w)
     = Some false
  /\ ExamSessionRow.is_flagged
       <$> Backend.exam_sessions (SecureExam.backend w) = [false]
  /\ SecureExam.autoSubmits w = 0%nat.
Proof. vm_compute. done. Qed.

(** C2.  Three tab switches flag the session; a fullscreen exit recorded
    next clears the flag again, in the component and in the row (whose
    [flag_reason] goes back to null), although the two counters now add up
    to 4. *)
Theorem later_violation_clears_flag :
  let flagged := SecureExam.recordAll
                   [SecureExam.tab_switch; SecureExam.tab_switch;
                    SecureExam.tab_switch] sampleExam in
  let w := SecureExam.handleSecurityViolation SecureExam.fullscreen_exit
             flagged in
  ExamSession.is_flagged
    <$> SecureExam.examSession (SecureExam.state flagged) = Some true
  /\ SecureExam.headerViolations (SecureExam.state w) = 4
  /\ ExamSession.is_flagged <$> SecureExam.examSession (SecureExam.state w)
     = Some false
  /\ (fun r => (ExamSessionRow.is_flagged r, ExamSessionRow.flag_reason r))
       <$> Backend.exam_sessions (SecureExam.backend w) = [(false, None)].
Proof. vm_compute. done. Qed.

(** ** Submission *)

Lemma timerEffect_submitted (w : QuizView.World) :
  QuizView.isSubmitted (QuizView.state w) = true ->
  QuizView.timerEffect w = w.
Proof.
  intros H. unfold QuizView.timerEffect. rewrite H.
  by rewrite !orb_true_r.
Qed.

Lemma startQuiz_isSubmitted (Math_random : nat -> JS.double)
    (w : QuizView.World) :
  QuizView.isSubmitted (QuizView.state (QuizView.startQuiz Math_random w))
  = QuizView.isSubmitted (QuizView.state w).
Proof.
  rewrite startQuiz_state. simpl. by destruct (QuizView.timerEnabled _).
Qed.

(** Once the quiz is submitted the question view is gone, and with it the
    option buttons, the navigation and the Submit button. *)
Lemma view_submitted (s : QuizView.State) :
  QuizView.isSubmitted s = true -> QuizView.view s <> QuizView.Answering.
Proof.
  intros H. unfold QuizView.view. rewrite H.
  destruct (QuizView.quiz s), (QuizView.allQuestions s),
    (QuizView.quizStarted s); done.
Qed.

Lemma handle_submitted (Math_random : nat -> JS.double) (e : QuizView.Event)
    (w : QuizView.World) :
  QuizView.isSubmitted (QuizView.state w) = true ->
  e <> QuizView.ClickRetry ->
  QuizView.isSubmitted (QuizView.state (QuizView.handle Math_random e w))
  = true
  /\ QuizView.backend (QuizView.handle Math_random e w) = QuizView.backend w.
Proof.
  intros Hsub He. pose proof (view_submitted _ Hsub) as Hview.
  assert (QuizView.intervalArmed (QuizView.state w) = false) as Harmed.
  { unfold QuizView.intervalArmed. rewrite Hsub. simpl.
    by rewrite andb_false_r. }
  unfold QuizView.handle.
  destruct e; try done; rewrite ?Harmed;
    destruct (QuizView.view (QuizView.state w)); try done.
  rewrite startQuiz_isSubmitted.
  by destruct (startQuiz_surroundings Math_random w) as (-> & _).
Qed.

Lemma dispatch_submitted (Math_random : nat -> JS.double)
    (e : QuizView.Event) (w : QuizView.World) :
  QuizView.isSubmitted (QuizView.state w) = true ->
  e <> QuizView.ClickRetry ->
  QuizView.isSubmitted (QuizView.state (QuizView.dispatch Math_random e w))
  = true
  /\ QuizView.backend (QuizView.dispatch Math_random e w)
     = QuizView.backend w.
Proof.
  intros Hsub He.
  destruct (handle_submitted Math_random e w Hsub He) as [Hsub' Hdb].
  unfold QuizView.dispatch. destruct (decide _); [done|].
  by rewrite timerEffect_submitted.
Qed.

(** The quiz page guards the submission at its triggers: once
    [isSubmitted] is set, the countdown effect returns before calling
    [handleSubmitQuiz] and the Submit button is no longer on screen, so
    whatever happens on the page short of a retry leaves the attempts, the
    profile and the recommendations as the submission wrote them. *)
Lemma submitted_quiz_is_not_resubmitted (Math_random : nat -> JS.double)
    (es : list QuizView.Event) (w : QuizView.World) :
  QuizView.isSubmitted (QuizView.state w) = true ->
  QuizView.ClickRetry ∉ es ->
  QuizView.timerEffect w = w
  /\ QuizView.backend (QuizView.run Math_random es w) = QuizView.backend w
  /\ QuizView.isSubmitted (QuizView.state (QuizView.run Math_random es w))
     = true.
Proof.
  intros Hsub Hes.
  split; [by apply timerEffect_submitted|].
  revert w Hsub. induction es as [|e es IH]; intros w Hsub; [done|].
  apply not_elem_of_cons in Hes as [He Hes].
  destruct (dispatch_submitted Math_random e w Hsub) as [Hsub' Hdb];
    [done|].
  simpl. destruct (IH Hes _ Hsub') as [-> ->]. by rewrite Hdb.
Qed.

(** ** Scoring *)

Lemma is_correct_iff (answers : gmap string Z) (q : Question.t) :
  is_correct answers q = true
  <-> answers !! Question.id q = Some (Question.correct_answer q).
Proof. unfold is_correct. by rewrite bool_decide_eq_true. Qed.

(** A question without an entry in the answer map is not correct. *)
Lemma unanswered_incorrect (answers : gmap string Z) (q : Question.t) :
  answers !! Question.id q = None -> is_correct answers q = false.
Proof.
  intros H. unfold is_correct. rewrite H. by apply bool_decide_eq_false.
Qed.

(** [correctCount] is the number of correct questions and [totalPoints] the
    sum of their points. *)
Lemma grade_counts (questions : list Question.t) (answers : gmap string Z) :
  grade questions answers
  = (Z.of_nat (length (filter (fun q => is_correct answers q = true)
                         questions)),
     foldr Z.add 0
       (Question.points
          <$> filter (fun q => is_correct answers q = true) questions)).
Proof.
  unfold grade.
  enough (forall c p,
    fold_left
      (fun '(correctCount, totalPoints) q =>
         if is_correct answers q
         then (correctCount + 1, totalPoints + Question.points q)
         else (correctCount, totalPoints)) questions (c, p)
    = (c + Z.of_nat (length (filter (fun q => is_correct answers q = true)
                               questions)),
       p + foldr Z.add 0
             (Question.points
                <$> filter (fun q => is_correct answers q = true) questions)))
    as H by (rewrite H; f_equal; lia).
  induction questions as [|q qs IH]; intros c p; simpl.
  - f_equal; lia.
  - rewrite filter_cons.
    destruct (is_correct answers q) eqn:E; rewrite IH.
    + rewrite decide_True by done.
      rewrite fmap_cons, length_cons, Nat2Z.inj_succ. cbn [foldr].
      f_equal; lia.
    + by rewrite decide_False by done.
Qed.

(** Up to 39 questions the rounded double is the exact percentage. *)
Lemma scorePercentage_exact_below_40 (correctCount total : Z) :
  0 <= correctCount <= total -> 0 < total < 40 ->
  scorePercentage correctCount total
  = round_half_up_percentage correctCount total.
Proof.
  intros Hc Hn.
  assert (forallb percentage_exact_for (seq 1 39) = true) as Hall
    by (vm_compute; reflexivity).
  rewrite forallb_forall in Hall.
  assert (In (Z.to_nat total) (seq 1 39)) as Hin1 by (apply in_seq; lia).
  apply Hall in Hin1. unfold percentage_exact_for in Hin1.
  rewrite forallb_forall in Hin1.
  assert (In (Z.to_nat correctCount) (seq 0 (S (Z.to_nat total)))) as Hin2
    by (apply in_seq; lia).
  apply Hin1 in Hin2. apply Z.eqb_eq in Hin2.
  by rewrite !Z2Nat.id in Hin2 by lia.
Qed.

(** C4.  Forty questions, twenty-three of them answered correctly (57.5 per
    cent): the loop counts 23 correct answers and 230 points, and the
    percentage in the words of the specification is 58, but
    [Math.round((23 / 40) * 100)] is 57, because the double product
    [(23 / 40) * 100] falls just below 57.5.  Both pages record 57. *)
Theorem percentage_of_23_out_of_40 :
  grade (samplePool 40) (sampleAnswers 23 40) = (23, 230)
  /\ round_half_up_percentage 23 40 = 58
  /\ scorePercentage 23 40 = 57
  /\ QuizView.score (QuizView.state (QuizView.handleSubmitQuiz sampleForty))
     = 57
  /\ Attempt.score
       <$> Backend.quiz_attempts
             (SecureExam.backend (SecureExam.handleSubmitExam sampleFortyExam))
     = [57].
Proof. vm_compute. done. Qed.

(** ** What a submission writes *)

Lemma updateProfile_frame (uid : string) (totalPoints : Z)
    (w : QuizView.World) :
  let w' := QuizView.updateProfile uid totalPoints w in
  QuizView.state w' = QuizView.state w
  /\ Backend.quiz_attempts (QuizView.backend w')
     = Backend.quiz_attempts (QuizView.backend w)
  /\ Backend.recommendations (QuizView.backend w')
     = Backend.recommendations (QuizView.backend w).
Proof.
  unfold QuizView.updateProfile.
  destruct (Backend.select_profile uid (QuizView.backend w)); [|done].
  by destruct (bool_decide _).
Qed.

(** What a submission that passes the guard of [handleSubmitQuiz] leaves
    behind: the score and [isSubmitted] in the component, one more attempt,
    the profile update when the percentage reaches the passing score, and
    the recommendation when it does not and the lesson is loaded. *)
Lemma handleSubmitQuiz_writes (w : QuizView.World) (uid : string)
    (qz : Quiz.t) :
  QuizView.user (QuizView.state w) = Some uid ->
  QuizView.quiz (QuizView.state w) = Some qz ->
  QuizView.questions (QuizView.state w) <> [] ->
  let s := QuizView.state w in
  let graded := grade (QuizView.questions s) (QuizView.selectedAnswers s) in
  let total := Z.of_nat (length (QuizView.questions s)) in
  let percentage := scorePercentage graded.1 total in
  let w' := QuizView.handleSubmitQuiz w in
  QuizView.state w'
  = QuizView.setIsSubmitted true (QuizView.setScore percentage s)
  /\ Backend.quiz_attempts (QuizView.backend w')
     = Backend.quiz_attempts (QuizView.backend w)
       ++ [Attempt.mk uid (Quiz.id qz) percentage graded.1 total
             (JS.Math_round
                (JS.div (JS.of_Z (QuizView.now w - QuizView.startTime s))
                   (JS.of_Z 1000)))]
  /\ Backend.profiles (QuizView.backend w')
     = (if Quiz.passing_score qz <=? percentage
        then Backend.profiles
               (QuizView.backend (QuizView.updateProfile uid graded.2 w))
        else Backend.profiles (QuizView.backend w))
  /\ Backend.recommendations (QuizView.backend w')
     = Backend.recommendations (QuizView.backend w)
       ++ match QuizView.lesson s with
          | Some l =>
              if percentage <? Quiz.passing_score qz
              then [Recommendation.mk uid (Lesson.id l)
                      ("Review this lesson - you scored "
                       +:+ JS.toString percentage +:+ "% on the quiz") 10]
              else []
          | None => []
          end.
Proof.
  intros Hu Hq Hqs. cbv zeta. unfold QuizView.handleSubmitQuiz.
  rewrite Hu, Hq.
  destruct (QuizView.questions (QuizView.state w)) as [|q0 qs] eqn:Eqs;
    [done|].
  rewrite <- Eqs.
  destruct (grade _ _) as [correctCount totalPoints] eqn:Eg.
  cbn [fst snd].
  set (percentage := scorePercentage _ _).
  set (w2 := QuizView.setBackend _ _).
  pose proof (updateProfile_frame uid totalPoints w2) as (Hst & Hat & Hrec).
  assert (Backend.profiles
            (QuizView.backend (QuizView.updateProfile uid totalPoints w2))
          = Backend.profiles
              (QuizView.backend (QuizView.updateProfile uid totalPoints w)))
    as Hprof.
  { unfold QuizView.updateProfile, Backend.select_profile. subst w2. simpl.
    destruct (maybeSingle _); [|done]. by destruct (bool_decide _). }
  destruct (Quiz.passing_score qz <=? percentage) eqn:Epass;
    destruct (QuizView.lesson (QuizView.state w)) as [l|];
    try destruct (percentage <? Quiz.passing_score qz) eqn:Efail;
    simpl; rewrite ?Hst, ?Hat, ?Hrec, ?Hprof, ?app_nil_r; done.
Qed.

Lemma filter_profile_update (uid : string) (newPoints : Z)
    (newLevel : option difficulty_level) (rows : list Profile.t) :
  filter (fun p => String.eqb (Profile.id p) uid)
    (List.map (fun p =>
       if String.eqb (Profile.id p) uid
       then Profile.mk (Profile.id p) (Some newPoints) newLevel
       else p) rows)
  = List.map (fun p => Profile.mk (Profile.id p) (Some newPoints) newLevel)
      (filter (fun p => String.eqb (Profile.id p) uid) rows).
Proof.
  induction rows as [|p rows IH]; [done|].
  cbn [List.map]. rewrite !filter_cons.
  destruct (String.eqb (Profile.id p) uid) eqn:E.
  - cbn [Profile.id]. rewrite E.
    rewrite !decide_True by exact I. cbn [List.map]. by rewrite IH.
  - rewrite E. by rewrite !decide_False by (intros []).
Qed.

Lemma select_profile_update (uid : string) (newPoints : Z)
    (newLevel : option difficulty_level) (d : Backend.t) (p : Profile.t) :
  Backend.select_profile uid d = Some p ->
  Backend.select_profile uid (Backend.update_profile uid newPoints newLevel d)
  = Some (Profile.mk (Profile.id p) (Some newPoints) newLevel).
Proof.
  unfold Backend.select_profile, Backend.update_profile. simpl.
  rewrite filter_profile_update.
  destruct (filter _ (Backend.profiles d)) as [|p0 [|p1 rest]]; try done.
  simpl. by intros [= ->].
Qed.

(** The level adjustment, tier by tier. *)
Lemma adjustLevel_tiers (newPoints : Z) (level : option difficulty_level) :
  let newLevel := QuizView.adjustLevel newPoints level in
  (level = Some beginner ->
     (newLevel = Some intermediate <-> 500 <= newPoints)
     /\ (newLevel = Some beginner <-> newPoints < 500))
  /\ (level = Some intermediate ->
        (newLevel = Some advanced <-> 1500 <= newPoints)
        /\ (newLevel = Some intermediate <-> newPoints < 1500))
  /\ (level = Some advanced -> newLevel = Some advanced)
  /\ level_rank level <= level_rank newLevel.
Proof.
  unfold QuizView.adjustLevel.
  destruct level as [[]|]; simpl;
    destruct (Z.leb_spec 500 newPoints), (Z.leb_spec 1500 newPoints);
    simpl; repeat split; intros; try done; try lia.
Qed.

(** C6.  When the percentage reaches the passing score, the profile of the
    user holds [currentPoints + totalPoints] afterwards; a beginner becomes
    intermediate exactly when these new points are at least 500 and an
    intermediate user becomes advanced exactly when they are at least 1500
    (otherwise the level stays), an advanced user stays advanced, and the
    level never goes down.  When the percentage is below the passing score
    the profiles are left as they were. *)
Theorem passing_attempt_updates_points_and_level (w : QuizView.World)
    (uid : string) (qz : Quiz.t) (profile : Profile.t) :
  QuizView.user (QuizView.state w) = Some uid ->
  QuizView.quiz (QuizView.state w) = Some qz ->
  QuizView.questions (QuizView.state w) <> [] ->
  Backend.select_profile uid (QuizView.backend w) = Some profile ->
  let s := QuizView.state w in
  let graded := grade (QuizView.questions s) (QuizView.selectedAnswers s) in
  let percentage :=
    scorePercentage graded.1 (Z.of_nat (length (QuizView.questions s))) in
  let totalPoints := graded.2 in
  let newPoints := or0 (Profile.total_points profile) + totalPoints in
  let w' := QuizView.handleSubmitQuiz w in
  (Quiz.passing_score qz <= percentage ->
   exists updated,
     Backend.select_profile uid (QuizView.backend w') = Some updated
     /\ Profile.total_points updated = Some newPoints
     /\ (Profile.current_level profile = Some beginner ->
           (Profile.current_level updated = Some intermediate
            <-> 500 <= newPoints)
           /\ (Profile.current_level updated = Some beginner
               <-> newPoints < 500))
     /\ (Profile.current_level profile = Some intermediate ->
           (Profile.current_level updated = Some advanced
            <-> 1500 <= newPoints)
           /\ (Profile.current_level updated = Some intermediate
               <-> newPoints < 1500))
     /\ (Profile.current_level profile = Some advanced ->
           Profile.current_level updated = Some advanced)
     /\ level_rank (Profile.current_level profile)
        <= level_rank (Profile.current_level updated))
  /\ (percentage < Quiz.passing_score qz ->
      Backend.profiles (QuizView.backend w')
      = Backend.profiles (QuizView.backend w)).
Proof.
  intros Hu Hq Hqs Hp s graded percentage totalPoints newPoints w'.
  destruct (handleSubmitQuiz_writes w uid qz Hu Hq Hqs)
    as (_ & _ & Hprof & _).
  fold s graded percentage w' in Hprof.
  split.
  - intros Hpass. apply Z.leb_le in Hpass. rewrite Hpass in Hprof.
    assert (Backend.select_profile uid (QuizView.backend w')
            = Backend.select_profile uid
                (QuizView.backend
                   (QuizView.updateProfile uid totalPoints w))) as ->.
    { unfold Backend.select_profile. by rewrite Hprof. }
    unfold QuizView.updateProfile. rewrite Hp. fold newPoints.
    set (newLevel := QuizView.adjustLevel newPoints _).
    exists (Profile.mk (Profile.id profile) (Some newPoints) newLevel).
    split.
    + destruct (bool_decide _); simpl;
        by apply select_profile_update.
    + split; [done|]. apply adjustLevel_tiers.
  - intros Hfail.
    destruct (Z.leb_spec (Quiz.passing_score qz) percentage); [lia|done].
Qed.

Lemma passing_attempt_updates_points_and_level_witness :
  Profile.current_level
    <$> Backend.select_profile "user-1"
          (QuizView.backend (QuizView.handleSubmitQuiz sampleInProgress))
  = Some (Some intermediate)
  /\ Backend.profiles
       (QuizView.backend (QuizView.handleSubmitQuiz sampleInProgressWrong))
     = Backend.profiles (QuizView.backend sampleInProgressWrong).
Proof.
  split.
  - destruct (passing_attempt_updates_points_and_level sampleInProgress
                "user-1" sampleQuiz
                (Profile.mk "user-1" (Some 495) (Some beginner)))
      as [H _].
    + vm_compute; reflexivity.
    + vm_compute; reflexivity.
    + vm_compute; discriminate.
    + vm_compute; reflexivity.
    + destruct H as (updated & -> & _ & Hlevel & _);
        [vm_compute; discriminate|].
      simpl. f_equal. apply Hlevel; [reflexivity|].
      vm_compute. discriminate.
  - apply (passing_attempt_updates_points_and_level sampleInProgressWrong
             "user-1" sampleQuiz
             (Profile.mk "user-1" (Some 495) (Some beginner))).
    + vm_compute; reflexivity.
    + vm_compute; reflexivity.
    + vm_compute; discriminate.
    + vm_compute; reflexivity.
    + vm_compute; reflexivity.
Defined.

Lemma maybeSingle_filter {A : Type} (P : A -> bool) (rows : list A) (r : A) :
  maybeSingle (filter (fun x => P x) rows) = Some r -> P r = true.
Proof.
  intros H.
  assert (r ∈ filter (fun x => P x) rows) as Hin.
  { destruct (filter _ rows) as [|r0 [|r1 rest]]; try done.
    injection H as ->. apply list_elem_of_singleton. done. }
  apply list_elem_of_filter in Hin as [Hr _]. by apply Is_true_true.
Qed.

(** The lesson [fetchQuizData] loads on a page that holds none yet is the
    one the quiz row names as its own. *)
Lemma fetchQuizData_lesson (Number_toString : JS.double -> string)
    (JSON_parse : string -> option Json) (quizId : string)
    (w : QuizView.World) (qz : Quiz.t) (l : Lesson.t) :
  QuizView.lesson (QuizView.state w) = None ->
  let w' := QuizView.fetchQuizData Number_toString JSON_parse quizId w in
  QuizView.quiz (QuizView.state w') = Some qz ->
  QuizView.lesson (QuizView.state w') = Some l ->
  Lesson.id l = Quiz.lesson_id qz.
Proof.
  intros Hnone w'. subst w'. unfold QuizView.fetchQuizData.
  destruct (QuizView.user (QuizView.state w)); [|by rewrite Hnone].
  destruct (maybeSingle (filter _ (Backend.quizzes _))) as [quizData|];
    [|simpl; by rewrite Hnone].
  destruct (maybeSingle (filter _ (Backend.lessons _))) as [lessonData|]
    eqn:El; simpl; [|by rewrite Hnone].
  intros [= <-] [= <-].
  apply maybeSingle_filter in El. by apply String.eqb_eq.
Qed.

(** C7, as the code has it.  A submission on the quiz page adds a
    recommendation exactly when the percentage is below the passing score
    and the lesson of the quiz has been loaded; it then adds one row, for
    the submitting user and that lesson, whose reason is "Review this lesson
    - you scored P% on the quiz" with P the percentage in decimal, and whose
    priority is 10.  The lesson loaded on a fresh page is the one the quiz
    belongs to. *)
Theorem recommendation_on_failed_quiz :
  (forall (w : QuizView.World) (uid : string) (qz : Quiz.t),
     QuizView.user (QuizView.state w) = Some uid ->
     QuizView.quiz (QuizView.state w) = Some qz ->
     QuizView.questions (QuizView.state w) <> [] ->
     let s := QuizView.state w in
     let percentage :=
       scorePercentage
         (grade (QuizView.questions s) (QuizView.selectedAnswers s)).1
         (Z.of_nat (length (QuizView.questions s))) in
     Backend.recommendations
       (QuizView.backend (QuizView.handleSubmitQuiz w))
     = Backend.recommendations (QuizView.backend w)
       ++ match QuizView.lesson s with
          | Some l =>
              if percentage <? Quiz.passing_score qz
              then [Recommendation.mk uid (Lesson.id l)
                      ("Review this lesson - you scored "
                       +:+ JS.toString percentage +:+ "% on the quiz") 10]
              else []
          | None => []
          end)
  /\ (forall (Number_toString : JS.double -> string)
        (JSON_parse : string -> option Json) (quizId : string)
        (w : QuizView.World) (qz : Quiz.t) (l : Lesson.t),
        QuizView.lesson (QuizView.state w) = None ->
        let w' := QuizView.fetchQuizData Number_toString JSON_parse quizId w in
        QuizView.quiz (QuizView.state w') = Some qz ->
        QuizView.lesson (QuizView.state w') = Some l ->
        Lesson.id l = Quiz.lesson_id qz).
Proof.
  split.
  - intros w uid qz Hu Hq Hqs s percentage.
    by destruct (handleSubmitQuiz_writes w uid qz Hu Hq Hqs)
      as (_ & _ & _ & ->).
  - apply fetchQuizData_lesson.
Qed.

(** C7, as stated, fails when the lesson is not loaded: the only question
    is answered wrongly, the percentage 0 is below the passing score 70,
    and no recommendation is written. *)
Lemma failed_quiz_without_lesson_no_recommendation :
  let w := QuizView.handleSubmitQuiz sampleWithoutLesson in
  QuizView.isSubmitted (QuizView.state w) = true
  /\ QuizView.score (QuizView.state w) = 0
  /\ Quiz.passing_score <$> QuizView.quiz (QuizView.state w) = Some 70
  /\ Backend.recommendations (QuizView.backend w) = [].
Proof. vm_compute. done. Qed.

Lemma recommendation_on_failed_quiz_witness :
  Backend.recommendations
    (QuizView.backend (QuizView.handleSubmitQuiz sampleInProgressWrong))
  = [Recommendation.mk "user-1" "lesson-1"
       "Review this lesson - you scored 0% on the quiz" 10]
  /\ Lesson.id sampleLesson = Quiz.lesson_id sampleQuiz.
Proof.
  destruct recommendation_on_failed_quiz as [Hrec Hlesson].
  split.
  - rewrite (Hrec sampleInProgressWrong "user-1" sampleQuiz).
    + vm_compute; reflexivity.
    + vm_compute; reflexivity.
    + vm_compute; reflexivity.
    + vm_compute; discriminate.
  - apply (Hlesson integer_toString JSON_parse_scalar "quiz-1"
             (QuizView.mkWorld (QuizView.initial (Some "user-1"))
                sampleBackend [] None 0 0%nat)).
    + reflexivity.
    + vm_compute; reflexivity.
    + vm_compute; reflexivity.
Defined.

(** ** Selecting an answer *)

(** On the quiz page a selection after submission changes nothing. *)
Lemma handleSelectAnswer_submitted (questionId : string) (answerIndex : Z)
    (s : QuizView.State) :
  QuizView.isSubmitted s = true ->
  QuizView.handleSelectAnswer questionId answerIndex s = s.
Proof. intros H. unfold QuizView.handleSelectAnswer. by rewrite H. Qed.

Lemma handleSelectAnswer_open (questionId : string) (answerIndex : Z)
    (s : QuizView.State) :
  QuizView.isSubmitted s = false ->
  QuizView.handleSelectAnswer questionId answerIndex s
  = QuizView.setSelectedAnswers
      (<[questionId := answerIndex]> (QuizView.selectedAnswers s)) s.
Proof. intros H. unfold QuizView.handleSelectAnswer. by rewrite H. Qed.

(** Before submission it writes the entry of that question and no other. *)
Lemma handleSelectAnswer_writes (questionId : string) (answerIndex : Z)
    (s : QuizView.State) :
  QuizView.isSubmitted s = false ->
  let answers :=
    QuizView.selectedAnswers
      (QuizView.handleSelectAnswer questionId answerIndex s) in
  answers !! questionId = Some answerIndex
  /\ forall other, other <> questionId ->
       answers !! other = QuizView.selectedAnswers s !! other.
Proof.
  intros H. unfold QuizView.handleSelectAnswer. rewrite H. simpl. split.
  - apply lookup_insert_eq.
  - intros other Hne. by apply lookup_insert_ne.
Qed.

(** On the secure exam page a selection always writes the entry of that
    question and no other. *)
Lemma handleAnswerSelect_writes (questionId : string) (answerIndex : Z)
    (s : SecureExam.State) :
  let answers :=
    SecureExam.answers
      (SecureExam.handleAnswerSelect questionId answerIndex s) in
  answers !! questionId = Some answerIndex
  /\ forall other, other <> questionId ->
       answers !! other = SecureExam.answers s !! other.
Proof.
  simpl. split.
  - apply lookup_insert_eq.
  - intros other Hne. by apply lookup_insert_ne.
Qed.

(** C8.  In the secure exam a selection made while the submission is under
    way ([isSubmitting] set, attempt already written) still overwrites the
    answer map: question "0", answered 0 when the exam was scored, reads 2
    afterwards. *)
Theorem answer_after_exam_submission_is_recorded :
  let submitted := SecureExam.state (SecureExam.handleSubmitExam sampleFortyExam) in
  let after := SecureExam.handleAnswerSelect "0" 2 submitted in
  SecureExam.isSubmitting submitted = true
  /\ SecureExam.answers submitted !! "0" = Some 0
  /\ SecureExam.answers after !! "0" = Some 2.
Proof. vm_compute. done. Qed.

(** ** Option payloads *)

Section ParseOptions.
Variable Number_toString : JS.double -> string.
Variable JSON_parse : string -> option Json.

(** An array payload becomes the array of its elements converted with
    [String], in the same order. *)
Lemma parseOptions_array (items : list Json) :
  parseOptions Number_toString JSON_parse (JArray items)
  = JArray (List.map (fun opt => JString (String_of Number_toString opt))
              items)
  /\ is_string_array
       (parseOptions Number_toString JSON_parse (JArray items)) = true.
Proof.
  split; [done|]. simpl. induction items as [|i items IH]; [done|].
  simpl. exact IH.
Qed.

(** A payload that is neither an array nor a string becomes the empty
    array, and so does a string that [JSON.parse] rejects. *)
Lemma parseOptions_rejected (options : Json) :
  match options with
  | JArray _ => False
  | JString text => JSON_parse text = None
  | _ => True
  end ->
  parseOptions Number_toString JSON_parse options = JArray [].
Proof. destruct options; simpl; try done. by intros ->. Qed.

(** C10.  A string payload that [JSON.parse] accepts is returned as parsed,
    without a look at its shape: when the parsed value is not an array of
    strings, [parseOptions] hands a value that is not a [string[]] to the
    question it formats. *)
Theorem parseOptions_returns_parsed_value (text : string) (v : Json) :
  JSON_parse text = Some v ->
  is_string_array v = false ->
  parseOptions Number_toString JSON_parse (JString text) = v
  /\ is_string_array (parseOptions Number_toString JSON_parse (JString text))
     = false.
Proof. intros Hparse Hshape. simpl. by rewrite Hparse. Qed.

End ParseOptions.

Lemma parseOptions_returns_parsed_value_witness :
  JSON_parse_scalar "42" = Some (JNumber (JS.of_Z 42))
  /\ parseOptions integer_toString JSON_parse_scalar (JString "42")
     = JNumber (JS.of_Z 42)
  /\ is_string_array
       (parseOptions integer_toString JSON_parse_scalar (JString "42"))
     = false.
Proof.
  split; [reflexivity|].
  apply (parseOptions_returns_parsed_value integer_toString JSON_parse_scalar
           "42" (JNumber (JS.of_Z 42))); reflexivity.
Defined.

(** ** The countdown *)

Lemma view_answering (s : QuizView.State) :
  QuizView.quiz s <> None -> QuizView.allQuestions s <> [] ->
  QuizView.quizStarted s = true -> QuizView.isSubmitted s = false ->
  QuizView.view s = QuizView.Answering.
Proof.
  intros Hq Ha Hst Hsub. unfold QuizView.view. rewrite Hst, Hsub.
  by destruct (QuizView.quiz s), (QuizView.allQuestions s).
Qed.

Lemma view_setup (s : QuizView.State) :
  QuizView.view s = QuizView.Setup ->
  QuizView.quiz s <> None /\ QuizView.allQuestions s <> []
  /\ QuizView.quizStarted s = false.
Proof.
  unfold QuizView.view.
  destruct (QuizView.quiz s), (QuizView.allQuestions s),
    (QuizView.quizStarted s), (QuizView.isSubmitted s); done.
Qed.

Lemma ticks_cons (e : QuizView.Event) (es : list QuizView.Event) :
  ticks (e :: es)
  = (if decide (e = QuizView.Tick) then 1 else 0) + ticks es.
Proof.
  unfold ticks. rewrite filter_cons.
  destruct (decide (e = QuizView.Tick)); simpl; lia.
Qed.

Lemma ticks_nonneg (es : list QuizView.Event) : 0 <= ticks es.
Proof. unfold ticks. lia. Qed.

Lemma counting_down_frame (uid : string) (remaining : Z) (d : Backend.t)
    (w w' : QuizView.World) :
  session_frame w' = session_frame w ->
  counting_down uid remaining d w -> counting_down uid remaining d w'.
Proof.
  unfold session_frame, counting_down. cbv zeta.
  intros [= H1 H2 H3 H4 H5 H6 H7 H8 H9].
  by rewrite H1, H2, H3, H4, H5, H6, H7, H8, H9.
Qed.

Lemma untimed_frame (d : Backend.t) (w w' : QuizView.World) :
  session_frame w' = session_frame w -> untimed d w -> untimed d w'.
Proof.
  unfold session_frame, untimed. cbv zeta.
  intros [= _ H2 H3 _ H5 H6 H7 H8 H9].
  by rewrite H2, H3, H5, H6, H7, H8, H9.
Qed.

Section Countdown.
Variable Math_random : nat -> JS.double.

(** While a question is on screen, a click other than Submit moves the
    cursor or records an answer, and nothing else. *)
Lemma handle_click (e : QuizView.Event) (w : QuizView.World) :
  QuizView.view (QuizView.state w) = QuizView.Answering ->
  QuizView.isSubmitted (QuizView.state w) = false ->
  e <> QuizView.Tick -> e <> QuizView.ClickSubmit ->
  session_frame (QuizView.handle Math_random e w) = session_frame w.
Proof.
  intros Hview Hsub Ht He. unfold QuizView.handle. rewrite Hview.
  destruct e; try done.
  - destruct (QuizView.currentQuestion _); [|done].
    unfold session_frame, QuizView.update. simpl.
    by rewrite handleSelectAnswer_open.
  - by destruct (_ =? 0).
  - by destruct (_ =? _).
  - by destruct (_ <? _)%nat.
Qed.

Lemma dispatch_click (e : QuizView.Event) (w : QuizView.World) :
  QuizView.view (QuizView.state w) = QuizView.Answering ->
  QuizView.isSubmitted (QuizView.state w) = false ->
  e <> QuizView.Tick -> e <> QuizView.ClickSubmit ->
  session_frame (QuizView.dispatch Math_random e w) = session_frame w.
Proof.
  intros Hview Hsub Ht He.
  pose proof (handle_click e w Hview Hsub Ht He) as Hframe.
  unfold QuizView.dispatch. rewrite decide_True; [done|].
  unfold session_frame in Hframe. unfold QuizView.timerDeps.
  injection Hframe as _ _ _ _ -> -> -> -> _. done.
Qed.

(** A second of a running countdown: the interval callback takes one off,
    and the effect runs on the new value. *)
Lemma dispatch_tick (uid : string) (remaining : Z) (d : Backend.t)
    (w : QuizView.World) :
  counting_down uid remaining d w ->
  QuizView.dispatch Math_random QuizView.Tick w
  = QuizView.timerEffect
      (QuizView.update
         (QuizView.setTimeRemaining (Some (JS.Int (remaining - 1))))
         (QuizView.setNow (QuizView.now w + 1000) w)).
Proof.
  intros (Hu & Hq & Ha & Hqs & Hst & Hte & Hsub & Htr & Hr & Hd).
  assert (QuizView.handle Math_random QuizView.Tick w
          = QuizView.update
              (QuizView.setTimeRemaining (Some (JS.Int (remaining - 1))))
              (QuizView.setNow (QuizView.now w + 1000) w)) as Hhandle.
  { unfold QuizView.handle, QuizView.intervalArmed, QuizView.countdown.
    rewrite Hst, Hte, Hsub, Htr. simpl.
    destruct (Z.leb_spec remaining 0); [lia|]. simpl.
    unfold QuizView.update. simpl. rewrite Htr. simpl.
    destruct (Z.leb_spec remaining 0); [lia|]. done. }
  unfold QuizView.dispatch. rewrite Hhandle.
  rewrite decide_False; [done|].
  unfold QuizView.timerDeps. simpl. rewrite Htr. intros [= Heq]. lia.
Qed.

Lemma timerEffect_counting (uid : string) (remaining : Z) (d : Backend.t)
    (w : QuizView.World) :
  counting_down uid remaining d w -> QuizView.timerEffect w = w.
Proof.
  intros (Hu & Hq & Ha & Hqs & Hst & Hte & Hsub & Htr & Hr & Hd).
  unfold QuizView.timerEffect. rewrite Hst, Hte, Hsub, Htr. simpl.
  destruct (Z.leb_spec remaining 0); [lia|done].
Qed.

(** A tick with more than one second left. *)
Lemma tick_counting (uid : string) (remaining : Z) (d : Backend.t)
    (w : QuizView.World) :
  counting_down uid remaining d w -> 1 < remaining ->
  counting_down uid (remaining - 1) d
    (QuizView.dispatch Math_random QuizView.Tick w).
Proof.
  intros Hinv Hrem. rewrite (dispatch_tick uid remaining d w Hinv).
  destruct Hinv as (Hu & Hq & Ha & Hqs & Hst & Hte & Hsub & Htr & Hr & Hd).
  assert (counting_down uid (remaining - 1) d
            (QuizView.update
               (QuizView.setTimeRemaining (Some (JS.Int (remaining - 1))))
               (QuizView.setNow (QuizView.now w + 1000) w))) as Hinv'.
  { unfold counting_down. simpl. repeat split; try done. lia. }
  by rewrite (timerEffect_counting _ _ _ _ Hinv').
Qed.

(** The tick that takes the last second: the effect marks the timer as
    expired and submits with the answers and questions of that moment. *)
Lemma tick_expires (uid : string) (d : Backend.t) (w : QuizView.World) :
  counting_down uid 1 d w ->
  let w' := QuizView.dispatch Math_random QuizView.Tick w in
  let s := QuizView.state w in
  let percentage :=
    scorePercentage
      (grade (QuizView.questions s) (QuizView.selectedAnswers s)).1
      (Z.of_nat (length (QuizView.questions s))) in
  QuizView.isSubmitted (QuizView.state w') = true
  /\ QuizView.timerExpired (QuizView.state w') = true
  /\ QuizView.score (QuizView.state w') = percentage
  /\ exists attempt,
       Backend.quiz_attempts (QuizView.backend w')
       = Backend.quiz_attempts d ++ [attempt]
       /\ Attempt.user_id attempt = uid
       /\ Attempt.score attempt = percentage.
Proof.
  intros Hinv. cbv zeta. rewrite (dispatch_tick uid 1 d w Hinv).
  destruct Hinv as (Hu & Hq & Ha & Hqs & Hst & Hte & Hsub & Htr & Hr & Hd).
  unfold QuizView.timerEffect. simpl. rewrite Hst, Hte, Hsub. simpl.
  destruct (QuizView.quiz (QuizView.state w)) as [qz|] eqn:Equiz; [|done].
  set (expired := QuizView.update (QuizView.setTimerExpired true) _).
  destruct (handleSubmitQuiz_writes expired uid qz)
    as (Hstate & Hattempts & _); try done.
  rewrite Hstate, Hattempts. subst expired. simpl. rewrite Hd.
  repeat split; try done. eexists. split; [reflexivity|]. done.
Qed.

Lemma run_counting (uid : string) (d : Backend.t) (es : list QuizView.Event) :
  forall (remaining : Z) (w : QuizView.World),
    counting_down uid remaining d w ->
    QuizView.ClickSubmit ∉ es ->
    ticks es < remaining ->
    counting_down uid (remaining - ticks es) d
      (QuizView.run Math_random es w).
Proof.
  induction es as [|e es IH]; intros remaining w Hinv Hes Hticks.
  - simpl. by rewrite Z.sub_0_r.
  - apply not_elem_of_cons in Hes as [He Hes].
    rewrite ticks_cons in *. pose proof (ticks_nonneg es) as Hnn.
    simpl. destruct (decide (e = QuizView.Tick)) as [->|Hne].
    + replace (remaining - (1 + ticks es))
        with (remaining - 1 - ticks es) by lia.
      apply IH; [|done|lia]. apply tick_counting; [done|lia].
    + rewrite Z.add_0_l in *. apply IH; [|done|done].
      pose proof Hinv as (Hu & Hq & Ha & Hqs & Hst & Hte & Hsub & Hrest).
      apply (counting_down_frame _ _ _ w); [|exact Hinv].
      apply dispatch_click; try done.
      by apply view_answering.
Qed.

Lemma run_untimed (d : Backend.t) (es : list QuizView.Event) :
  forall w : QuizView.World,
    untimed d w -> QuizView.ClickSubmit ∉ es ->
    untimed d (QuizView.run Math_random es w).
Proof.
  induction es as [|e es IH]; intros w Hinv Hes; [done|].
  apply not_elem_of_cons in Hes as [He Hes].
  simpl. apply IH; [|done].
  pose proof Hinv as (Hq & Ha & Hst & Hte & Hsub & Htr & Hd).
  apply (untimed_frame _ w); [|exact Hinv].
  destruct (decide (e = QuizView.Tick)) as [->|Hne].
  - unfold QuizView.dispatch, QuizView.handle, QuizView.intervalArmed.
    rewrite Hst, Hte. simpl. by rewrite decide_True.
  - apply dispatch_click; try done. by apply view_answering.
Qed.

(** Starting a quiz from the setup card. *)
Lemma dispatch_start_timed (w : QuizView.World) (uid : string) (M : Z) :
  QuizView.view (QuizView.state w) = QuizView.Setup ->
  QuizView.user (QuizView.state w) = Some uid ->
  QuizView.isSubmitted (QuizView.state w) = false ->
  (QuizView.selectQuestions Math_random w).1 <> [] ->
  QuizView.timerEnabled (QuizView.state w) = true ->
  JS.parseInt (QuizView.timerMinutes (QuizView.state w)) = JS.Int M ->
  0 < M ->
  counting_down uid (M * 60) (QuizView.backend w)
    (QuizView.dispatch Math_random QuizView.ClickStart w).
Proof.
  intros Hview Hu Hsub Hsel Hte Hparse HM.
  destruct (view_setup _ Hview) as (Hq & Ha & Hst).
  assert (counting_down uid (M * 60) (QuizView.backend w)
            (QuizView.startQuiz Math_random w)) as Hinv.
  { unfold counting_down. cbv zeta. rewrite startQuiz_state.
    destruct (startQuiz_surroundings Math_random w) as (-> & _).
    rewrite Hte, Hparse. simpl. repeat split; try done. lia. }
  unfold QuizView.dispatch, QuizView.handle. rewrite Hview.
  destruct (decide _); [done|].
  by rewrite (timerEffect_counting _ _ _ _ Hinv).
Qed.

Lemma dispatch_start_untimed (w : QuizView.World) :
  QuizView.view (QuizView.state w) = QuizView.Setup ->
  QuizView.isSubmitted (QuizView.state w) = false ->
  QuizView.timerEnabled (QuizView.state w) = false ->
  QuizView.timeRemaining (QuizView.state w) = None ->
  untimed (QuizView.backend w)
    (QuizView.dispatch Math_random QuizView.ClickStart w).
Proof.
  intros Hview Hsub Hte Htr.
  destruct (view_setup _ Hview) as (Hq & Ha & Hst).
  assert (untimed (QuizView.backend w) (QuizView.startQuiz Math_random w))
    as Hinv.
  { unfold untimed. cbv zeta. rewrite startQuiz_state.
    destruct (startQuiz_surroundings Math_random w) as (-> & _).
    rewrite Hte. simpl. by repeat split. }
  unfold QuizView.dispatch, QuizView.handle. rewrite Hview.
  destruct (decide _); [done|].
  unfold QuizView.timerEffect.
  pose proof Hinv as (_ & _ & _ & Hoff & _). rewrite Hoff.
  simpl. by rewrite orb_true_r.
Qed.

End Countdown.

(** C9.  A quiz started from the setup card with the timer on and [M]
    minutes chosen begins with [M * 60] seconds on the countdown.  Whatever
    the user does short of clicking Submit, while fewer than [M * 60]
    seconds have passed the quiz is not submitted, the countdown shows the
    seconds left and nothing is written; the tick that completes the
    [M * 60] seconds submits the quiz, marks the timer as expired, and
    scores the questions against the answers recorded at that moment,
    writing one attempt.  Started with the timer off, the quiz has no
    countdown and is never submitted by the passing of time.  Time is
    counted in firings of the one-second interval. *)
Theorem countdown_submits_at_deadline (Math_random : nat -> JS.double)
    (w : QuizView.World) (uid : string) :
  QuizView.view (QuizView.state w) = QuizView.Setup ->
  QuizView.user (QuizView.state w) = Some uid ->
  QuizView.isSubmitted (QuizView.state w) = false ->
  QuizView.questions (QuizView.state (QuizView.startQuiz Math_random w))
  <> [] ->
  let started := QuizView.dispatch Math_random QuizView.ClickStart w in
  (forall M : Z,
     QuizView.timerEnabled (QuizView.state w) = true ->
     JS.parseInt (QuizView.timerMinutes (QuizView.state w)) = JS.Int M ->
     0 < M ->
     QuizView.timeRemaining (QuizView.state started)
     = Some (JS.Int (M * 60))
     /\ forall es : list QuizView.Event,
          QuizView.ClickSubmit ∉ es ->
          let w1 := QuizView.run Math_random es started in
          (ticks es < M * 60 ->
             QuizView.isSubmitted (QuizView.state w1) = false
             /\ QuizView.timeRemaining (QuizView.state w1)
                = Some (JS.Int (M * 60 - ticks es))
             /\ QuizView.backend w1 = QuizView.backend w)
          /\ (ticks es = M * 60 - 1 ->
              let w2 := QuizView.dispatch Math_random QuizView.Tick w1 in
              let s1 := QuizView.state w1 in
              let percentage :=
                scorePercentage
                  (grade (QuizView.questions s1)
                     (QuizView.selectedAnswers s1)).1
                  (Z.of_nat (length (QuizView.questions s1))) in
              QuizView.isSubmitted (QuizView.state w2) = true
              /\ QuizView.timerExpired (QuizView.state w2) = true
              /\ QuizView.score (QuizView.state w2) = percentage
              /\ exists attempt,
                   Backend.quiz_attempts (QuizView.backend w2)
                   = Backend.quiz_attempts (QuizView.backend w) ++ [attempt]
                   /\ Attempt.user_id attempt = uid
                   /\ Attempt.score attempt = percentage))
  /\ (QuizView.timerEnabled (QuizView.state w) = false ->
      QuizView.timeRemaining (QuizView.state w) = None ->
      forall es : list QuizView.Event,
        QuizView.ClickSubmit ∉ es ->
        let w1 := QuizView.run Math_random es started in
        QuizView.isSubmitted (QuizView.state w1) = false
        /\ QuizView.timeRemaining (QuizView.state w1) = None
        /\ QuizView.backend w1 = QuizView.backend w).
Proof.
  intros Hview Hu Hsub Hqs started. rewrite startQuiz_questions in Hqs.
  split.
  - intros M Hte Hparse HM.
    pose proof (dispatch_start_timed Math_random w uid M Hview Hu Hsub Hqs
                  Hte Hparse HM) as Hstart.
    fold started in Hstart.
    split; [apply Hstart|].
    intros es Hes w1. split.
    + intros Hticks.
      pose proof (run_counting Math_random uid _ es _ _ Hstart Hes Hticks)
        as Hinv.
      fold w1 in Hinv. by destruct Hinv as (_&_&_&_&_&_&?&?&_&?).
    + intros Hticks.
      pose proof (run_counting Math_random uid _ es _ _ Hstart Hes
                    ltac:(lia)) as Hinv.
      fold w1 in Hinv.
      replace (M * 60 - ticks es) with 1 in Hinv by lia.
      apply (tick_expires Math_random uid _ w1 Hinv).
  - intros Hte Htr es Hes w1.
    pose proof (dispatch_start_untimed Math_random w Hview Hsub Hte Htr)
      as Hstart.
    pose proof (run_untimed Math_random _ es _ Hstart Hes) as Hinv.
    by destruct Hinv as (_&_&_&_&?&?&?).
Qed.

Lemma countdown_submits_at_deadline_witness :
  let started :=
    QuizView.dispatch sampleRandom QuizView.ClickStart
      (sampleSetup 1 "all" true "1") in
  let w1 :=
    QuizView.run sampleRandom
      (QuizView.ClickOption 0 :: repeat QuizView.Tick 59) started in
  let w2 := QuizView.dispatch sampleRandom QuizView.Tick w1 in
  let untimed_start :=
    QuizView.dispatch sampleRandom QuizView.ClickStart
      (sampleSetup 1 "all" false "1") in
  QuizView.timeRemaining (QuizView.state started) = Some (JS.Int 60)
  /\ QuizView.isSubmitted (QuizView.state w1) = false
  /\ QuizView.isSubmitted (QuizView.state w2) = true
  /\ QuizView.score (QuizView.state w2) = 100
  /\ QuizView.isSubmitted
       (QuizView.state
          (QuizView.run sampleRandom (repeat QuizView.Tick 60) untimed_start))
     = false.
Proof.
  intros started w1 w2 untimed_start.
  assert (forall n, QuizView.ClickSubmit ∉ repeat QuizView.Tick n) as Hrep.
  { intros n Hin. by apply list_elem_of_In, repeat_spec in Hin. }
  destruct (countdown_submits_at_deadline sampleRandom
              (sampleSetup 1 "all" true "1") "user-1")
    as [Hon _]; [reflexivity | reflexivity | reflexivity
                | vm_compute; discriminate |].
  destruct (Hon 1) as [Hstart Hrun]; [reflexivity | reflexivity | lia |].
  assert (QuizView.ClickSubmit
          ∉ QuizView.ClickOption 0 :: repeat QuizView.Tick 59) as Hquiet.
  { apply not_elem_of_cons. split; [discriminate | apply Hrep]. }
  pose proof (Hrun _ Hquiet) as Hr. cbv zeta in Hr.
  destruct Hr as [Hbefore Hat].
  destruct Hbefore as (Hnot & _ & _); [vm_compute; reflexivity|].
  destruct Hat as (Hsub & _ & Hscore & _); [vm_compute; reflexivity|].
  destruct (countdown_submits_at_deadline sampleRandom
              (sampleSetup 1 "all" false "1") "user-1")
    as [_ Hoff]; [reflexivity | reflexivity | reflexivity
                 | vm_compute; discriminate |].
  pose proof (Hoff eq_refl eq_refl (repeat QuizView.Tick 60) (Hrep 60%nat))
    as Hnever.
  cbv zeta in Hnever. destruct Hnever as (Hnever & _ & _).
  repeat split; assumption.
Defined.

(** ** The count menu and the start *)

Lemma getQuestionCountOptions_elem (s : QuizView.State) (c : string) :
  c ∈ QuizView.getQuestionCountOptions s ->
  let total := Z.of_nat (length (QuizView.allQuestions s)) in
  c = "all"
  \/ (c = "5" /\ 5 <= total) \/ (c = "10" /\ 10 <= total)
  \/ (c = "15" /\ 15 <= total) \/ (c = "20" /\ 20 <= total).
Proof.
  unfold QuizView.getQuestionCountOptions. cbv zeta.
  set (total := Z.of_nat (length (QuizView.allQuestions s))).
  destruct (Z.leb_spec 5 total), (Z.leb_spec 10 total),
    (Z.leb_spec 15 total), (Z.leb_spec 20 total);
    simpl; rewrite ?elem_of_cons, elem_of_nil; intuition.
Qed.

(** The questions chosen under a numeric count: a prefix of a rearrangement
    of the pool. *)
Lemma selectQuestions_numeric (Math_random : nat -> JS.double)
    (w : QuizView.World) (n : Z) :
  QuizView.selectedQuestionCount (QuizView.state w) <> "all" ->
  JS.parseInt (QuizView.selectedQuestionCount (QuizView.state w)) = JS.Int n ->
  0 <= n ->
  let pool := QuizView.allQuestions (QuizView.state w) in
  exists shuffled,
    shuffled ≡ₚ pool
    /\ (QuizView.selectQuestions Math_random w).1
       = take (Z.to_nat (Z.min n (Z.of_nat (length pool)))) shuffled.
Proof.
  intros Hnum Hparse Hn pool. unfold QuizView.selectQuestions. fold pool.
  destruct (String.eqb_spec
              (QuizView.selectedQuestionCount (QuizView.state w)) "all");
    [done|].
  rewrite Hparse.
  pose proof (sort_random_perm Math_random pool (QuizView.draws w)) as Hp.
  destruct (JS.sort_random Math_random pool (QuizView.draws w))
    as [shuffled k].
  cbn [fst] in *. exists shuffled. split; [done|].
  apply slice0_count; [done|]. by rewrite (Permutation_length Hp).
Qed.

Lemma startQuiz_from_menu (Math_random : nat -> JS.double)
    (w : QuizView.World) :
  let s := QuizView.state w in
  let chosen :=
    QuizView.questions (QuizView.state (QuizView.startQuiz Math_random w)) in
  QuizView.allQuestions s <> [] ->
  QuizView.selectedQuestionCount s ∈ QuizView.getQuestionCountOptions s ->
  chosen <> []
  /\ (QuizView.selectedQuestionCount s = "all" ->
      chosen = QuizView.allQuestions s)
  /\ (QuizView.selectedQuestionCount s <> "all" ->
      JS.parseInt (QuizView.selectedQuestionCount s)
      = JS.Int (Z.of_nat (length chosen)))
  /\ exists rest, chosen ++ rest ≡ₚ QuizView.allQuestions s.
Proof.
  intros s chosen Hpool Hmenu. subst chosen s.
  rewrite startQuiz_questions.
  apply getQuestionCountOptions_elem in Hmenu. cbv zeta in Hmenu.
  set (s := QuizView.state w) in *.
  assert (forall n : Z,
            QuizView.selectedQuestionCount s = JS.toString n ->
            JS.toString n <> "all" ->
            JS.parseInt (JS.toString n) = JS.Int n ->
            0 < n <= Z.of_nat (length (QuizView.allQuestions s)) ->
            (QuizView.selectQuestions Math_random w).1 <> []
            /\ (QuizView.selectedQuestionCount s = "all" ->
                (QuizView.selectQuestions Math_random w).1
                = QuizView.allQuestions s)
            /\ (QuizView.selectedQuestionCount s <> "all" ->
                JS.parseInt (QuizView.selectedQuestionCount s)
                = JS.Int (Z.of_nat
                    (length (QuizView.selectQuestions Math_random w).1)))
            /\ exists rest,
                 (QuizView.selectQuestions Math_random w).1 ++ rest
                 ≡ₚ QuizView.allQuestions s) as Hnumeric.
  { intros n Hc Hne Hparse Hn.
    destruct (selectQuestions_numeric Math_random w n)
      as (shuffled & Hp & ->);
      [by fold s; rewrite Hc | by fold s; rewrite Hc | lia |].
    fold s in Hp |- *.
    destruct (prefix_of_rearrangement (QuizView.allQuestions s) shuffled
                (Z.to_nat (Z.min n
                   (Z.of_nat (length (QuizView.allQuestions s))))) Hp)
      as (Hlen & Hrest & _).
    assert (length (take (Z.to_nat (Z.min n
                      (Z.of_nat (length (QuizView.allQuestions s)))))
                      shuffled) = Z.to_nat n) as Hlen' by lia.
    repeat split; try done.
    - intros Hnil. rewrite Hnil in Hlen'. simpl in Hlen'. lia.
    - intros Hall. by rewrite Hc in Hall.
    - intros _. rewrite Hc, Hparse, Hlen'. f_equal. lia. }
  destruct Hmenu as [Hall | [[Hc H]|[[Hc H]|[[Hc H]|[Hc H]]]]].
  - unfold QuizView.selectQuestions. fold s. rewrite Hall.
    cbn [String.eqb Ascii.eqb Bool.eqb fst].
    repeat split; try done. exists []. by rewrite app_nil_r.
  - apply (Hnumeric 5); first [done | lia].
  - apply (Hnumeric 10); first [done | lia].
  - apply (Hnumeric 15); first [done | lia].
  - apply (Hnumeric 20); first [done | lia].
Qed.

(** X1.  When the count selected is one the menu offers for the pool at
    hand, [startQuiz] presents at least one question and never has to clamp:
    under "all" the whole pool as loaded, under a number exactly that many
    questions; in both cases questions of the pool, none taken twice. *)
Theorem menu_count_is_presented (Math_random : nat -> JS.double)
    (w : QuizView.World) :
  let s := QuizView.state w in
  let chosen :=
    QuizView.questions (QuizView.state (QuizView.startQuiz Math_random w)) in
  QuizView.allQuestions s <> [] ->
  QuizView.selectedQuestionCount s ∈ QuizView.getQuestionCountOptions s ->
  chosen <> []
  /\ (QuizView.selectedQuestionCount s = "all" ->
      chosen = QuizView.allQuestions s)
  /\ (QuizView.selectedQuestionCount s <> "all" ->
      JS.parseInt (QuizView.selectedQuestionCount s)
      = JS.Int (Z.of_nat (length chosen)))
  /\ exists rest, chosen ++ rest ≡ₚ QuizView.allQuestions s.
Proof. exact (startQuiz_from_menu Math_random w). Qed.

Lemma menu_count_is_presented_witness :
  length
    (QuizView.questions
       (QuizView.state
          (QuizView.startQuiz sampleRandom (sampleSetup 6 "5" false "10"))))
  = 5%nat.
Proof.
  destruct (menu_count_is_presented sampleRandom
              (sampleSetup 6 "5" false "10")) as (_ & _ & Hlen & _).
  - vm_compute; discriminate.
  - change ("5" ∈ ["all"; "5"]). rewrite !elem_of_cons. by right; left.
  - assert (JS.parseInt "5" = JS.Int 5) as Hfive by reflexivity.
    specialize (Hlen ltac:(vm_compute; discriminate)).
    change (QuizView.selectedQuestionCount
              (QuizView.state (sampleSetup 6 "5" false "10"))) with "5"
      in Hlen.
    rewrite Hfive in Hlen. apply Nat2Z.inj.
    change (Z.of_nat 5) with 5. congruence.
Defined.

(** ** What the quiz page keeps true *)

Lemma handleSubmitQuiz_guard (w : QuizView.World) :
  QuizView.user (QuizView.state w) = None
  \/ QuizView.quiz (QuizView.state w) = None
  \/ QuizView.questions (QuizView.state w) = [] ->
  QuizView.handleSubmitQuiz w = w.
Proof.
  unfold QuizView.handleSubmitQuiz. intros [->|[->| ->]]; [done| |].
  - by destruct (QuizView.user (QuizView.state w)).
  - by destruct (QuizView.user (QuizView.state w)),
         (QuizView.quiz (QuizView.state w)).
Qed.

Lemma handleSubmitQuiz_cases (w : QuizView.World) :
  QuizView.handleSubmitQuiz w = w
  \/ exists uid qz,
       QuizView.user (QuizView.state w) = Some uid
       /\ QuizView.quiz (QuizView.state w) = Some qz
       /\ QuizView.questions (QuizView.state w) <> [].
Proof.
  destruct (QuizView.user (QuizView.state w)) as [uid|] eqn:Hu;
    [|left; apply handleSubmitQuiz_guard; auto].
  destruct (QuizView.quiz (QuizView.state w)) as [qz|] eqn:Hq;
    [|left; apply handleSubmitQuiz_guard; auto].
  destruct (QuizView.questions (QuizView.state w)) as [|q qs] eqn:Hqs;
    [left; apply handleSubmitQuiz_guard; auto|].
  right. by exists uid, qz.
Qed.

Lemma handleSubmitQuiz_page_fields (w : QuizView.World) :
  page_fields (QuizView.handleSubmitQuiz w) = page_fields w.
Proof.
  destruct (handleSubmitQuiz_cases w) as [->|(uid & qz & Hu & Hq & Hqs)];
    [done|].
  destruct (handleSubmitQuiz_writes w uid qz Hu Hq Hqs) as (Hstate & _).
  unfold page_fields. cbv zeta. by rewrite Hstate.
Qed.

Lemma timerEffect_page_fields (w : QuizView.World) :
  page_fields (QuizView.timerEffect w) = page_fields w.
Proof.
  unfold QuizView.timerEffect.
  destruct (_ || _); [done|].
  destruct (QuizView.timeRemaining _) as [t|]; [|done].
  destruct (JS.leb t 0); [|done].
  by rewrite handleSubmitQuiz_page_fields.
Qed.

Lemma page_invariant_fields (w w' : QuizView.World) :
  page_fields w' = page_fields w -> page_invariant w -> page_invariant w'.
Proof.
  unfold page_fields, page_invariant, QuizView.getQuestionCountOptions.
  cbv zeta. intros [= H1 H2 H3 H4 H5 H6].
  by rewrite H1, H2, H3, H4, H5, H6.
Qed.

Lemma view_started (s : QuizView.State) :
  QuizView.view s = QuizView.Answering \/ QuizView.view s = QuizView.Results ->
  QuizView.quizStarted s = true.
Proof.
  unfold QuizView.view.
  destruct (QuizView.quiz s), (QuizView.allQuestions s),
    (QuizView.quizStarted s), (QuizView.isSubmitted s);
    simpl; intros [?|?]; done.
Qed.

Lemma view_answering_unsubmitted (s : QuizView.State) :
  QuizView.view s = QuizView.Answering -> QuizView.isSubmitted s = false.
Proof.
  unfold QuizView.view.
  destruct (QuizView.quiz s), (QuizView.allQuestions s),
    (QuizView.quizStarted s), (QuizView.isSubmitted s); done.
Qed.

Lemma currentQuestion_elem (s : QuizView.State) (q : Question.t) :
  QuizView.currentQuestion s = Some q -> q ∈ QuizView.questions s.
Proof.
  unfold QuizView.currentQuestion.
  destruct (_ <? 0); [done|]. apply list_elem_of_lookup_2.
Qed.

Section PageInvariant.
Variable Math_random : nat -> JS.double.

Lemma handle_page_invariant (e : QuizView.Event) (w : QuizView.World) :
  page_invariant w ->
  page_invariant (QuizView.handle Math_random e w)
  /\ QuizView.allQuestions (QuizView.state (QuizView.handle Math_random e w))
     = QuizView.allQuestions (QuizView.state w).
Proof.
  intros Hinv.
  assert (forall w', page_fields w' = page_fields w ->
            page_invariant w'
            /\ QuizView.allQuestions (QuizView.state w')
               = QuizView.allQuestions (QuizView.state w)) as Hsame.
  { intros w' Hf. split; [by apply (page_invariant_fields w)|].
    unfold page_fields in Hf. by injection Hf as _ -> _ _ _ _. }
  pose proof Hinv as (Hmenu & Hbefore & Hafter).
  unfold QuizView.handle.
  destruct e.
  - (* Tick *)
    apply Hsame. by destruct (QuizView.intervalArmed _).
  - (* ClickStart *)
    destruct (QuizView.view (QuizView.state w)) eqn:Hview;
      try by apply Hsame.
    destruct (view_setup _ Hview) as (_ & Hpool & Hst).
    destruct (Hbefore Hst) as [Hidx Hans].
    destruct (startQuiz_from_menu Math_random w Hpool Hmenu)
      as (Hne & _ & _ & Hrest).
    rewrite startQuiz_questions in Hne, Hrest.
    unfold page_invariant. cbv zeta. rewrite startQuiz_state.
    assert (forall f : QuizView.State -> QuizView.State,
              (if QuizView.timerEnabled (QuizView.state w)
               then QuizView.setTimeRemaining
                      (Some (JS.times
                         (JS.parseInt
                            (QuizView.timerMinutes (QuizView.state w))) 60))
               else fun s => s) = f ->
              (f = QuizView.setTimeRemaining
                     (Some (JS.times
                        (JS.parseInt
                           (QuizView.timerMinutes (QuizView.state w))) 60))
               \/ f = fun s => s)) as Hf
      by (intros f <-; destruct (QuizView.timerEnabled _); auto).
    destruct (Hf _ eq_refl) as [-> | ->]; simpl;
      (split; [split; [done|]|done]);
      (split; [done|]); intros _;
      rewrite Hidx, Hans;
      (split; [|split; [done|]]);
      try (intros k [v Hk]; by rewrite lookup_empty in Hk);
      destruct ((QuizView.selectQuestions Math_random w).1);
      simpl; try done; lia.
  - (* ClickOption *)
    destruct (QuizView.view (QuizView.state w)) eqn:Hview;
      try by apply Hsame.
    destruct (QuizView.currentQuestion _) as [q|] eqn:Hq; [|by apply Hsame].
    pose proof (view_started (QuizView.state w) (or_introl Hview)) as Hst.
    pose proof (view_answering_unsubmitted _ Hview) as Hsub.
    destruct (Hafter Hst) as (Hidx & Hrest & Hkeys).
    unfold QuizView.update. simpl.
    rewrite handleSelectAnswer_open by done.
    split; [|done]. unfold page_invariant. simpl.
    split; [done|]. split; [by rewrite Hst|]. intros _.
    split; [done|]. split; [done|].
    intros k Hk. destruct (decide (k = Question.id q)) as [->|Hne].
    + apply list_elem_of_fmap_2. by apply currentQuestion_elem.
    + rewrite lookup_insert_ne in Hk by done. by apply Hkeys.
  - (* ClickPrevious *)
    destruct (QuizView.view (QuizView.state w)) eqn:Hview;
      try by apply Hsame.
    destruct (Z.eqb_spec (QuizView.currentQuestionIndex (QuizView.state w)) 0);
      [by apply Hsame|].
    pose proof (view_started (QuizView.state w) (or_introl Hview)) as Hst.
    destruct (Hafter Hst) as (Hidx & Hrest & Hkeys).
    split; [|done]. unfold page_invariant. simpl.
    split; [done|]. split; [by rewrite Hst|]. intros _.
    split; [lia|done].
  - (* ClickNext *)
    destruct (QuizView.view (QuizView.state w)) eqn:Hview;
      try by apply Hsame.
    destruct (Z.eqb_spec (QuizView.currentQuestionIndex (QuizView.state w))
                (Z.of_nat (length (QuizView.questions (QuizView.state w)))
                 - 1));
      [by apply Hsame|].
    pose proof (view_started (QuizView.state w) (or_introl Hview)) as Hst.
    destruct (Hafter Hst) as (Hidx & Hrest & Hkeys).
    split; [|done]. unfold page_invariant. simpl.
    split; [done|]. split; [by rewrite Hst|]. intros _.
    split; [lia|done].
  - (* ClickQuestion *)
    destruct (QuizView.view (QuizView.state w)) eqn:Hview;
      try by apply Hsame.
    destruct (Nat.ltb_spec idx
                (length (QuizView.questions (QuizView.state w))));
      [|by apply Hsame].
    pose proof (view_started (QuizView.state w) (or_introl Hview)) as Hst.
    destruct (Hafter Hst) as (Hidx & Hrest & Hkeys).
    split; [|done]. unfold page_invariant. simpl.
    split; [done|]. split; [by rewrite Hst|]. intros _.
    split; [lia|done].
  - (* ClickSubmit *)
    destruct (QuizView.view (QuizView.state w)) eqn:Hview;
      try by apply Hsame.
    destruct (_ && _); [|by apply Hsame].
    apply Hsame, handleSubmitQuiz_page_fields.
  - (* ClickRetry *)
    destruct (QuizView.view (QuizView.state w)) eqn:Hview;
      try by apply Hsame.
    split; [|done]. unfold page_invariant. simpl.
    split; [done|]. split; [done|]. done.
Qed.

Lemma dispatch_page_invariant (e : QuizView.Event) (w : QuizView.World) :
  page_invariant w ->
  page_invariant (QuizView.dispatch Math_random e w)
  /\ QuizView.allQuestions
       (QuizView.state (QuizView.dispatch Math_random e w))
     = QuizView.allQuestions (QuizView.state w).
Proof.
  intros Hinv.
  destruct (handle_page_invariant e w Hinv) as [Hinv' Hpool].
  unfold QuizView.dispatch. destruct (decide _); [done|].
  pose proof (timerEffect_page_fields (QuizView.handle Math_random e w))
    as Hf.
  split; [by apply (page_invariant_fields _ _ Hf)|].
  unfold page_fields in Hf. injection Hf as _ Hf _ _ _ _. by rewrite Hf.
Qed.

Lemma run_page_invariant (es : list QuizView.Event) :
  forall w : QuizView.World,
    page_invariant w ->
    page_invariant (QuizView.run Math_random es w)
    /\ QuizView.allQuestions (QuizView.state (QuizView.run Math_random es w))
       = QuizView.allQuestions (QuizView.state w).
Proof.
  induction es as [|e es IH]; intros w Hinv; [done|].
  destruct (dispatch_page_invariant e w Hinv) as [Hinv' Hpool].
  destruct (IH _ Hinv') as [Hinv'' Hpool'].
  simpl. split; [done|]. by rewrite Hpool'.
Qed.

End PageInvariant.

(** X2.  On a page the interface has kept in order (see [page_invariant]:
    a freshly loaded page is), whatever sequence of events follows, a
    started quiz has its cursor on one of the questions presented:
    [questions[currentQuestionIndex]] is never undefined. *)
Theorem cursor_stays_on_a_question (Math_random : nat -> JS.double)
    (es : list QuizView.Event) (w : QuizView.World) :
  page_invariant w ->
  let s := QuizView.state (QuizView.run Math_random es w) in
  QuizView.quizStarted s = true ->
  is_Some (QuizView.currentQuestion s).
Proof.
  intros Hinv s Hst. subst s.
  destruct (run_page_invariant Math_random es w Hinv)
    as [(_ & _ & Hafter) _].
  destruct (Hafter Hst) as (Hidx & _).
  unfold QuizView.currentQuestion.
  destruct (Z.ltb_spec (QuizView.currentQuestionIndex
                          (QuizView.state (QuizView.run Math_random es w))) 0);
    [lia|].
  apply lookup_lt_is_Some_2. lia.
Qed.

Lemma sampleSetup_invariant : page_invariant (sampleSetup 6 "5" false "10").
Proof.
  unfold page_invariant. cbv zeta. split; [|split; [done|done]].
  change ("5" ∈ ["all"; "5"]). rewrite !elem_of_cons. by right; left.
Qed.

Lemma cursor_stays_on_a_question_witness :
  is_Some
    (QuizView.currentQuestion
       (QuizView.state
          (QuizView.run sampleRandom
             [QuizView.ClickStart; QuizView.ClickNext; QuizView.ClickNext;
              QuizView.ClickPrevious; QuizView.ClickQuestion 4;
              QuizView.ClickNext]
             (sampleSetup 6 "5" false "10")))).
Proof.
  apply (cursor_stays_on_a_question sampleRandom _ _ sampleSetup_invariant).
  vm_compute. reflexivity.
Defined.


Lemma samplePool_6_ids_NoDup : NoDup (Question.id <$> samplePool 6).
Proof.
  apply NoDup_ListNoDup. vm_compute.
  repeat (constructor;
          [simpl; intros H; decompose [or] H; (discriminate || done)|]).
  constructor.
Qed.


(** ** One attempt per session *)

Lemma handleSubmitQuiz_reach (w : QuizView.World) :
  QuizView.isSubmitted (QuizView.state w) = false ->
  attempts_in_reach (QuizView.handleSubmitQuiz w) <= attempts_in_reach w.
Proof.
  intros Hsub.
  destruct (handleSubmitQuiz_cases w) as [->|(uid & qz & Hu & Hq & Hqs)];
    [lia|].
  destruct (handleSubmitQuiz_writes w uid qz Hu Hq Hqs)
    as (Hstate & Hattempts & _).
  unfold attempts_in_reach. rewrite Hstate, Hattempts, Hsub, length_app.
  simpl. lia.
Qed.

Lemma timerEffect_reach (w : QuizView.World) :
  attempts_in_reach (QuizView.timerEffect w) <= attempts_in_reach w.
Proof.
  unfold QuizView.timerEffect.
  destruct (_ || _) eqn:Hguard; [lia|].
  apply orb_false_iff in Hguard as [_ Hsub].
  destruct (QuizView.timeRemaining _) as [t|]; [|lia].
  destruct (JS.leb t 0); [|lia].
  etrans; [by apply handleSubmitQuiz_reach|].
  unfold attempts_in_reach. simpl. lia.
Qed.

Section Attempts.
Variable Math_random : nat -> JS.double.

Lemma handle_reach (e : QuizView.Event) (w : QuizView.World) :
  attempts_in_reach (QuizView.handle Math_random e w)
  <= attempts_in_reach w
     + (if decide (e = QuizView.ClickRetry) then 1 else 0).
Proof.
  unfold QuizView.handle.
  destruct e; destruct (decide _) as [Heq|Hne]; try done.
  - (* Tick *)
    destruct (QuizView.intervalArmed _); unfold attempts_in_reach; simpl;
      lia.
  - (* ClickStart *)
    destruct (QuizView.view (QuizView.state w)); try lia.
    unfold attempts_in_reach. rewrite startQuiz_isSubmitted.
    destruct (startQuiz_surroundings Math_random w) as (-> & _). lia.
  - (* ClickOption *)
    destruct (QuizView.view (QuizView.state w)) eqn:Hview; try lia.
    destruct (QuizView.currentQuestion _); [|lia].
    unfold QuizView.update. simpl.
    rewrite handleSelectAnswer_open
      by (by apply view_answering_unsubmitted).
    unfold attempts_in_reach. simpl. lia.
  - (* ClickPrevious *)
    destruct (QuizView.view (QuizView.state w)); try lia.
    destruct (_ =? 0); unfold attempts_in_reach; simpl; lia.
  - (* ClickNext *)
    destruct (QuizView.view (QuizView.state w)); try lia.
    destruct (_ =? _); unfold attempts_in_reach; simpl; lia.
  - (* ClickQuestion *)
    destruct (QuizView.view (QuizView.state w)); try lia.
    destruct (_ <? _)%nat; unfold attempts_in_reach; simpl; lia.
  - (* ClickSubmit *)
    destruct (QuizView.view (QuizView.state w)) eqn:Hview; try lia.
    destruct (_ && _); [|lia].
    pose proof (handleSubmitQuiz_reach w
                  (view_answering_unsubmitted _ Hview)). lia.
  - (* ClickRetry *)
    destruct (QuizView.view (QuizView.state w)); try lia;
      destruct (QuizView.isSubmitted (QuizView.state w)) eqn:Hsub;
      unfold attempts_in_reach; simpl; rewrite ?Hsub; lia.
Qed.

Lemma run_reach (es : list QuizView.Event) :
  forall w : QuizView.World,
    attempts_in_reach (QuizView.run Math_random es w)
    <= attempts_in_reach w + retries es.
Proof.
  induction es as [|e es IH]; intros w.
  - unfold retries. simpl. lia.
  - simpl. etrans; [apply IH|].
    assert (attempts_in_reach (QuizView.dispatch Math_random e w)
            <= attempts_in_reach w
               + (if decide (e = QuizView.ClickRetry) then 1 else 0)) as Hstep.
    { unfold QuizView.dispatch. destruct (decide (_ = _)).
      - apply handle_reach.
      - etrans; [apply timerEffect_reach | apply handle_reach]. }
    unfold retries in *. rewrite filter_cons.
    destruct (decide (e = QuizView.ClickRetry)); simpl length; lia.
Qed.

End Attempts.

Lemma handleSubmitQuiz_grows (w : QuizView.World) :
  Backend.quiz_attempts (QuizView.backend w)
  `prefix_of` Backend.quiz_attempts
                (QuizView.backend (QuizView.handleSubmitQuiz w)).
Proof.
  destruct (handleSubmitQuiz_cases w) as [->|(uid & qz & Hu & Hq & Hqs)];
    [done|].
  destruct (handleSubmitQuiz_writes w uid qz Hu Hq Hqs) as (_ & -> & _).
  by eexists.
Qed.

Lemma dispatch_grows (Math_random : nat -> JS.double) (e : QuizView.Event)
    (w : QuizView.World) :
  Backend.quiz_attempts (QuizView.backend w)
  `prefix_of` Backend.quiz_attempts
                (QuizView.backend (QuizView.dispatch Math_random e w)).
Proof.
  assert (Backend.quiz_attempts (QuizView.backend w)
          `prefix_of` Backend.quiz_attempts
                        (QuizView.backend (QuizView.handle Math_random e w)))
    as Hhandle.
  { unfold QuizView.handle. destruct e.
    - by destruct (QuizView.intervalArmed _).
    - destruct (QuizView.view (QuizView.state w)); try done.
      by destruct (startQuiz_surroundings Math_random w) as (-> & _).
    - destruct (QuizView.view (QuizView.state w)); try done.
      by destruct (QuizView.currentQuestion _).
    - destruct (QuizView.view (QuizView.state w)); try done.
      by destruct (_ =? 0).
    - destruct (QuizView.view (QuizView.state w)); try done.
      by destruct (_ =? _).
    - destruct (QuizView.view (QuizView.state w)); try done.
      by destruct (_ <? _)%nat.
    - destruct (QuizView.view (QuizView.state w)); try done.
      destruct (_ && _); [|done]. apply handleSubmitQuiz_grows.
    - by destruct (QuizView.view (QuizView.state w)). }
  unfold QuizView.dispatch. destruct (decide _); [done|].
  etrans; [exact Hhandle|].
  unfold QuizView.timerEffect.
  destruct (_ || _); [done|].
  destruct (QuizView.timeRemaining _) as [t|]; [|done].
  destruct (JS.leb t 0); [|done].
  apply (handleSubmitQuiz_grows
           (QuizView.update (QuizView.setTimerExpired true)
              (QuizView.handle Math_random e w))).
Qed.

Lemma run_grows (Math_random : nat -> JS.double) (es : list QuizView.Event) :
  forall w : QuizView.World,
    Backend.quiz_attempts (QuizView.backend w)
    `prefix_of` Backend.quiz_attempts
                  (QuizView.backend (QuizView.run Math_random es w)).
Proof.
  induction es as [|e es IH]; intros w; [done|].
  simpl. etrans; [apply (dispatch_grows Math_random e)|apply IH].
Qed.

(** X4.  Along any sequence of events on the quiz page, the attempts already
    written stay as they are (a retry deletes none), and those added are at
    most one for the running session (none if it is already submitted) plus
    one for every click on Try Again: a session writes its attempt at most
    once. *)
Theorem one_attempt_per_session (Math_random : nat -> JS.double)
    (es : list QuizView.Event) (w : QuizView.World) :
  exists added,
    Backend.quiz_attempts (QuizView.backend (QuizView.run Math_random es w))
    = Backend.quiz_attempts (QuizView.backend w) ++ added
    /\ Z.of_nat (length added)
       <= (if QuizView.isSubmitted (QuizView.state w) then 0 else 1)
          + retries es.
Proof.
  destruct (run_grows Math_random es w) as [added Hadded].
  exists added. split; [done|].
  pose proof (run_reach Math_random es w) as H.
  unfold attempts_in_reach in H. rewrite Hadded, length_app in H.
  destruct (QuizView.isSubmitted
              (QuizView.state (QuizView.run Math_random es w))); lia.
Qed.

(** ** More on scoring and progression *)

Lemma sum_Permutation (l l' : list Z) :
  l ≡ₚ l' -> foldr Z.add 0 l = foldr Z.add 0 l'.
Proof. induction 1; simpl; lia. Qed.

(** X5.  The score does not depend on the order in which the questions are
    presented: two arrangements of the same questions give the same count
    of correct answers and the same points; and the count lies between 0
    and the number of questions. *)
Theorem grade_ignores_order (questions questions' : list Question.t)
    (answers : gmap string Z) :
  questions' ≡ₚ questions ->
  grade questions' answers = grade questions answers
  /\ 0 <= (grade questions answers).1 <= Z.of_nat (length questions).
Proof.
  intros Hp. rewrite !grade_counts. split.
  - f_equal.
    + by rewrite Hp.
    + apply sum_Permutation. by rewrite Hp.
  - cbn [fst].
    pose proof (length_filter (fun q => is_correct answers q = true)
                  questions).
    lia.
Qed.

Lemma grade_ignores_order_witness :
  grade (rev (samplePool 3)) (sampleAnswers 2 3)
  = grade (samplePool 3) (sampleAnswers 2 3).
Proof.
  apply (grade_ignores_order (samplePool 3) (rev (samplePool 3))).
  apply Permutation_sym, Permutation_rev.
Defined.

(** The profile after one update. *)
Lemma updateProfile_profile (uid : string) (totalPoints : Z)
    (w : QuizView.World) (profile : Profile.t) :
  Backend.select_profile uid (QuizView.backend w) = Some profile ->
  let newPoints := or0 (Profile.total_points profile) + totalPoints in
  let newLevel :=
    QuizView.adjustLevel newPoints (Profile.current_level profile) in
  let w' := QuizView.updateProfile uid totalPoints w in
  Backend.select_profile uid (QuizView.backend w')
  = Some (Profile.mk (Profile.id profile) (Some newPoints) newLevel)
  /\ QuizView.toasts w'
     = QuizView.toasts w
       ++ (if decide (newLevel = Profile.current_level profile) then []
           else [Toast.mk "Level Up!"
                   ("Congratulations! You've advanced to "
                    +:+ QuizView.level_text newLevel +:+ " level!")]).
Proof.
  intros Hp. cbv zeta. unfold QuizView.updateProfile. rewrite Hp.
  set (newPoints := or0 _ + _). set (newLevel := QuizView.adjustLevel _ _).
  destruct (decide (newLevel = Profile.current_level profile)) as [Heq|Hne].
  - rewrite bool_decide_eq_true_2 by done. simpl.
    split; [by apply select_profile_update|by rewrite app_nil_r].
  - rewrite bool_decide_eq_false_2 by done. simpl.
    split; [by apply select_profile_update|done].
Qed.

Lemma adjustLevel_one_tier (newPoints : Z) (level : option difficulty_level) :
  level_rank level <= level_rank (QuizView.adjustLevel newPoints level)
  <= level_rank level + 1.
Proof.
  unfold QuizView.adjustLevel.
  destruct level as [[]|]; simpl;
    destruct (500 <=? newPoints), (1500 <=? newPoints); simpl; lia.
Qed.

(** X6.  One profile update moves the level up by one tier at most (a
    beginner with 1500 points or more becomes intermediate, not advanced),
    never down, and shows the "Level Up!" toast, naming the new level,
    exactly when the level has changed. *)
Theorem level_rises_one_tier_at_most (uid : string) (totalPoints : Z)
    (w : QuizView.World) (profile : Profile.t) :
  Backend.select_profile uid (QuizView.backend w) = Some profile ->
  let w' := QuizView.updateProfile uid totalPoints w in
  exists updated,
    Backend.select_profile uid (QuizView.backend w') = Some updated
    /\ level_rank (Profile.current_level profile)
       <= level_rank (Profile.current_level updated)
       <= level_rank (Profile.current_level profile) + 1
    /\ QuizView.toasts w'
       = QuizView.toasts w
         ++ (if decide (Profile.current_level updated
                        = Profile.current_level profile)
             then []
             else [Toast.mk "Level Up!"
                     ("Congratulations! You've advanced to "
                      +:+ QuizView.level_text (Profile.current_level updated)
                      +:+ " level!")]).
Proof.
  intros Hp w'. subst w'.
  destruct (updateProfile_profile uid totalPoints w profile Hp)
    as [Hsel Htoast].
  eexists. split; [exact Hsel|]. split; [apply adjustLevel_one_tier|].
  exact Htoast.
Qed.

Lemma level_rises_one_tier_at_most_witness :
  Profile.current_level
    <$> Backend.select_profile "user-1"
          (QuizView.backend
             (QuizView.updateProfile "user-1" 2000 sampleInProgress))
  = Some (Some intermediate).
Proof.
  destruct (level_rises_one_tier_at_most "user-1" 2000 sampleInProgress
              (Profile.mk "user-1" (Some 495) (Some beginner)))
    as (updated & Hsel & Hrank & _); [reflexivity|].
  rewrite Hsel. simpl. f_equal.
  assert (Backend.select_profile "user-1"
            (QuizView.backend
               (QuizView.updateProfile "user-1" 2000 sampleInProgress))
          = Some (Profile.mk "user-1" (Some 2495) (Some intermediate)))
    as Hval by (vm_compute; reflexivity).
  rewrite Hval in Hsel. by injection Hsel as <-.
Defined.

Lemma updateProfiles_profile (uid : string) (points : list Z) :
  forall (w : QuizView.World) (profile : Profile.t),
    Backend.select_profile uid (QuizView.backend w) = Some profile ->
    exists updated,
      Backend.select_profile uid
        (QuizView.backend (updateProfiles uid points w)) = Some updated
      /\ Profile.id updated = Profile.id profile
      /\ or0 (Profile.total_points updated)
         = or0 (Profile.total_points profile) + foldr Z.add 0 points
      /\ level_rank (Profile.current_level profile)
         <= level_rank (Profile.current_level updated).
Proof.
  induction points as [|p points IH]; intros w profile Hp.
  - exists profile. simpl. repeat split; try done; lia.
  - destruct (updateProfile_profile uid p w profile Hp) as [Hsel _].
    destruct (IH _ _ Hsel) as (updated & Hsel' & Hid & Hpoints & Hrank).
    exists updated. simpl in *. split; [exact Hsel'|].
    split; [done|]. split; [lia|].
    pose proof (adjustLevel_one_tier
                  (or0 (Profile.total_points profile) + p)
                  (Profile.current_level profile)).
    lia.
Qed.

(** X7.  Over successive profile updates the points add up: after updates
    with the points [p1, ..., pn] the profile of the user holds the points
    it had plus [p1 + ... + pn], and its level is not below the level it
    had. *)
Theorem points_add_up (uid : string) (points : list Z)
    (w : QuizView.World) (profile : Profile.t) :
  Backend.select_profile uid (QuizView.backend w) = Some profile ->
  exists updated,
    Backend.select_profile uid
      (QuizView.backend (updateProfiles uid points w)) = Some updated
    /\ Profile.id updated = Profile.id profile
    /\ or0 (Profile.total_points updated)
       = or0 (Profile.total_points profile) + foldr Z.add 0 points
    /\ level_rank (Profile.current_level profile)
       <= level_rank (Profile.current_level updated).
Proof. apply updateProfiles_profile. Qed.

Lemma points_add_up_witness :
  exists updated,
    Backend.select_profile "user-1"
      (QuizView.backend (updateProfiles "user-1" [10; 500; 1000]
                           sampleInProgress)) = Some updated
    /\ or0 (Profile.total_points updated) = 2005.
Proof.
  destruct (points_add_up "user-1" [10; 500; 1000] sampleInProgress
              (Profile.mk "user-1" (Some 495) (Some beginner)))
    as (updated & Hsel & _ & Hpoints & _); [reflexivity|].
  exists updated. split; [exact Hsel|]. rewrite Hpoints. reflexivity.
Defined.

(** ** Submitting and loading with something missing *)

Lemma handleSubmitQuiz_without_profile (w : QuizView.World) (uid : string)
    (qz : Quiz.t) :
  QuizView.user (QuizView.state w) = Some uid ->
  QuizView.quiz (QuizView.state w) = Some qz ->
  QuizView.questions (QuizView.state w) <> [] ->
  Backend.select_profile uid (QuizView.backend w) = None ->
  let w' := QuizView.handleSubmitQuiz w in
  Backend.profiles (QuizView.backend w') = Backend.profiles (QuizView.backend w)
  /\ QuizView.toasts w' = QuizView.toasts w.
Proof.
  intros Hu Hq Hqs Hp. cbv zeta. unfold QuizView.handleSubmitQuiz.
  rewrite Hu, Hq.
  destruct (QuizView.questions (QuizView.state w)) as [|q0 qs] eqn:Eqs;
    [done|].
  rewrite <- Eqs.
  destruct (grade _ _) as [correctCount totalPoints].
  set (percentage := scorePercentage _ _).
  set (w2 := QuizView.setBackend _ _).
  assert (QuizView.updateProfile uid totalPoints w2 = w2) as ->.
  { unfold QuizView.updateProfile.
    assert (Backend.select_profile uid (QuizView.backend w2) = None) as ->
      by exact Hp.
    done. }
  destruct (Quiz.passing_score qz <=? percentage);
    destruct (QuizView.lesson (QuizView.state w));
    try destruct (percentage <? Quiz.passing_score qz); done.
Qed.

(** X8.  [handleSubmitQuiz] with something missing.  Without a user, a quiz
    or questions it changes nothing at all.  With all three but no single
    profile row for the user, it still records the score and writes the
    attempt, and leaves the profiles alone and shows no toast, whatever the
    percentage. *)
Theorem submission_with_something_missing (w : QuizView.World) :
  (QuizView.user (QuizView.state w) = None
   \/ QuizView.quiz (QuizView.state w) = None
   \/ QuizView.questions (QuizView.state w) = [] ->
   QuizView.handleSubmitQuiz w = w)
  /\ (forall (uid : string) (qz : Quiz.t),
        QuizView.user (QuizView.state w) = Some uid ->
        QuizView.quiz (QuizView.state w) = Some qz ->
        QuizView.questions (QuizView.state w) <> [] ->
        Backend.select_profile uid (QuizView.backend w) = None ->
        let w' := QuizView.handleSubmitQuiz w in
        QuizView.isSubmitted (QuizView.state w') = true
        /\ length (Backend.quiz_attempts (QuizView.backend w'))
           = S (length (Backend.quiz_attempts (QuizView.backend w)))
        /\ Backend.profiles (QuizView.backend w')
           = Backend.profiles (QuizView.backend w)
        /\ QuizView.toasts w' = QuizView.toasts w).
Proof.
  split; [apply handleSubmitQuiz_guard|].
  intros uid qz Hu Hq Hqs Hp w'. subst w'.
  destruct (handleSubmitQuiz_writes w uid qz Hu Hq Hqs)
    as (Hstate & Hattempts & _).
  destruct (handleSubmitQuiz_without_profile w uid qz Hu Hq Hqs Hp)
    as [Hprofiles Htoasts].
  rewrite Hstate, Hattempts, length_app. simpl.
  repeat split; try done. lia.
Qed.

Lemma submission_with_something_missing_witness :
  QuizView.handleSubmitQuiz (sampleSetup 1 "all" false "10")
  = sampleSetup 1 "all" false "10"
  /\ QuizView.toasts
       (QuizView.handleSubmitQuiz
          (QuizView.setBackend
             (Backend.setProfiles [] (QuizView.backend sampleInProgress))
             sampleInProgress)) = [].
Proof.
  split.
  - apply (submission_with_something_missing
             (sampleSetup 1 "all" false "10")).
    right; right. reflexivity.
  - destruct (submission_with_something_missing
                (QuizView.setBackend
                   (Backend.setProfiles []
                      (QuizView.backend sampleInProgress))
                   sampleInProgress)) as [_ H].
    apply (H "user-1" sampleQuiz).
    + vm_compute; reflexivity.
    + vm_compute; reflexivity.
    + vm_compute; discriminate.
    + vm_compute; reflexivity.
Defined.

(** *** The order of the rows *)

Lemma index_leb_before (a b : option Z) :
  index_leb a b = true <-> index_before a b.
Proof.
  destruct a as [x|], b as [y|]; simpl; try done.
  apply Z.leb_le.
Qed.

Lemma index_before_total (a b : option Z) :
  index_leb a b = false -> index_before b a.
Proof.
  destruct a as [x|], b as [y|]; simpl; try done.
  intros H. apply Z.leb_gt in H. lia.
Qed.

Lemma index_before_trans (a b c : option Z) :
  index_before a b -> index_before b c -> index_before a c.
Proof.
  destruct a as [x|], b as [y|], c as [z|]; simpl; try done. lia.
Qed.

Lemma insert_by_order_index_perm (r : QuestionRow.t)
    (rows : list QuestionRow.t) :
  insert_by_order_index r rows ≡ₚ r :: rows.
Proof.
  induction rows as [|r' rows IH]; simpl; [done|].
  destruct (index_leb _ _); [done|].
  rewrite IH. apply Permutation_swap.
Qed.

Lemma order_by_order_index_perm (rows : list QuestionRow.t) :
  order_by_order_index rows ≡ₚ rows.
Proof.
  induction rows as [|r rows IH]; simpl; [done|].
  by rewrite insert_by_order_index_perm, IH.
Qed.

Lemma insert_by_order_index_ascending (r : QuestionRow.t)
    (rows : list QuestionRow.t) :
  ascending rows -> ascending (insert_by_order_index r rows).
Proof.
  unfold ascending. induction rows as [|r' rows IH]; intros Hs; simpl.
  - constructor; constructor.
  - apply StronglySorted_inv in Hs as [Hs Hall].
    destruct (index_leb _ _) eqn:E.
    + apply index_leb_before in E.
      constructor; [by constructor|]. constructor; [done|].
      eapply Forall_impl; [exact Hall|]. simpl. intros r'' H.
      by eapply index_before_trans.
    + apply index_before_total in E.
      constructor; [by apply IH|].
      rewrite insert_by_order_index_perm. by constructor.
Qed.

Lemma order_by_order_index_ascending (rows : list QuestionRow.t) :
  ascending (order_by_order_index rows).
Proof.
  induction rows as [|r rows IH]; simpl; [constructor|].
  by apply insert_by_order_index_ascending.
Qed.

Section FetchQuizData.
Variable Number_toString : JS.double -> string.
Variable JSON_parse : string -> option Json.

Lemma formatQuestion_of_row (row : QuestionRow.t) :
  let q := QuizView.formatQuestion Number_toString JSON_parse row in
  question_of row q
  /\ Question.options q
     = parseOptions Number_toString JSON_parse (QuestionRow.options row)
  /\ Question.explanation q = QuestionRow.explanation row
  /\ Question.order_index q
     = match QuestionRow.order_index row with Some n => n | None => 0 end.
Proof.
  unfold question_of, QuizView.formatQuestion. simpl.
  repeat split; try done.
  by destruct (QuestionRow.points row) as [[| |]|].
Qed.

(** X9.  [fetchQuizData] on the quiz page.  Without a user it does nothing.
    When the quiz is not found (no row, or several, with that id) it shows
    the "Quiz not found." toast and navigates to /courses without touching
    the component.  When it is found, the page holds that quiz, with the id
    asked for, and as pool one question for each row of that quiz, the rows
    taken in ascending [order_index] (those without one last); each
    question has the id, the text, the correct answer, the explanation and
    the [order_index] (0 when missing) of its row, the options of the row as
    [parseOptions] reads them, and the points of the row, 10 when the row
    has none or 0.  It never writes to the backend. *)
Theorem fetchQuizData_outcomes (quizId : string) (w : QuizView.World) :
  let w' := QuizView.fetchQuizData Number_toString JSON_parse quizId w in
  let found :=
    maybeSingle
      (filter (fun q => String.eqb (Quiz.id q) quizId)
         (Backend.quizzes (QuizView.backend w))) in
  QuizView.backend w' = QuizView.backend w
  /\ (QuizView.user (QuizView.state w) = None -> w' = w)
  /\ (QuizView.user (QuizView.state w) <> None ->
      found = None ->
      QuizView.state w' = QuizView.state w
      /\ QuizView.navigated w' = Some "/courses"
      /\ QuizView.toasts w'
         = QuizView.toasts w ++ [Toast.mk "Error" "Quiz not found."])
  /\ (QuizView.user (QuizView.state w) <> None ->
      forall quizData,
        found = Some quizData ->
        QuizView.quiz (QuizView.state w') = Some quizData
        /\ Quiz.id quizData = quizId
        /\ (exists rows,
              rows ≡ₚ filter
                        (fun q => String.eqb (QuestionRow.quiz_id q) quizId)
                        (Backend.quiz_questions (QuizView.backend w))
              /\ ascending rows
              /\ Forall2
                   (fun row q =>
                      question_of row q
                      /\ Question.options q
                         = parseOptions Number_toString JSON_parse
                             (QuestionRow.options row)
                      /\ Question.explanation q = QuestionRow.explanation row
                      /\ Question.order_index q
                         = match QuestionRow.order_index row with
                           | Some n => n
                           | None => 0
                           end)
                   rows (QuizView.allQuestions (QuizView.state w')))
        /\ QuizView.navigated w' = QuizView.navigated w
        /\ QuizView.toasts w' = QuizView.toasts w).
Proof.
  cbv zeta. unfold QuizView.fetchQuizData.
  destruct (QuizView.user (QuizView.state w)) as [uid|]; [|done].
  destruct (maybeSingle (filter _ (Backend.quizzes _))) as [quizData|] eqn:Ef.
  - split; [done|]. split; [done|]. split; [done|].
    intros _ quizData' [= <-].
    apply maybeSingle_filter in Ef. apply String.eqb_eq in Ef.
    set (rows := order_by_order_index
                   (filter
                      (fun q => String.eqb (QuestionRow.quiz_id q) quizId)
                      (Backend.quiz_questions (QuizView.backend w)))).
    assert (Forall2
              (fun row q =>
                 question_of row q
                 /\ Question.options q
                    = parseOptions Number_toString JSON_parse
                        (QuestionRow.options row)
                 /\ Question.explanation q = QuestionRow.explanation row
                 /\ Question.order_index q
                    = match QuestionRow.order_index row with
                      | Some n => n
                      | None => 0
                      end)
              rows
              (map (QuizView.formatQuestion Number_toString JSON_parse) rows))
      as Hrows.
    { induction rows as [|row rows' IH]; simpl; constructor; [|exact IH].
      apply formatQuestion_of_row. }
    destruct (maybeSingle (filter _ (Backend.lessons _))); simpl;
      (split; [done|]; split; [done|]; split; [|done];
       exists rows; split; [apply order_by_order_index_perm|];
       split; [apply order_by_order_index_ascending|exact Hrows]).
  - split; [done|]. split; [done|]. split; [done|]. by intros _ quizData.
Qed.

End FetchQuizData.

Lemma fetchQuizData_outcomes_witness :
  let loaded :=
    QuizView.fetchQuizData integer_toString JSON_parse_scalar "quiz-1"
      (QuizView.mkWorld (QuizView.initial (Some "user-1"))
         sampleBackendWithRows [] None 0 0%nat) in
  let missing :=
    QuizView.fetchQuizData integer_toString JSON_parse_scalar "quiz-2"
      (QuizView.mkWorld (QuizView.initial (Some "user-1"))
         sampleBackendWithRows [] None 0 0%nat) in
  QuizView.quiz (QuizView.state loaded) = Some sampleQuiz
  /\ Question.id <$> QuizView.allQuestions (QuizView.state loaded)
     = ["a"; "b"]
  /\ QuizView.navigated missing = Some "/courses".
Proof.
  split; [|split].
  - apply (fetchQuizData_outcomes integer_toString JSON_parse_scalar "quiz-1"
             (QuizView.mkWorld (QuizView.initial (Some "user-1"))
                sampleBackendWithRows [] None 0 0%nat));
      [discriminate | reflexivity].
  - reflexivity.
  - apply (fetchQuizData_outcomes integer_toString JSON_parse_scalar "quiz-2"
             (QuizView.mkWorld (QuizView.initial (Some "user-1"))
                sampleBackendWithRows [] None 0 0%nat));
      [discriminate | reflexivity].
Defined.

(** ** The clock *)

(** X10.  For every number of seconds below one hundred minutes,
    [formatTime] gives five characters, MM:SS, whose two fields read back as
    the minutes and the seconds counted. *)
Theorem formatTime_reads_back (seconds : Z) :
  0 <= seconds < 6000 ->
  let text := formatTime seconds in
  String.length text = 5%nat
  /\ String.get 2 text = Some ":"%char
  /\ clockMinutes text = JS.Int (seconds / 60)
  /\ clockSeconds text = JS.Int (seconds mod 60).
Proof.
  intros Hrange.
  assert (forallb clock_reads_back (seq 0 (Z.to_nat 6000)) = true) as Hall
    by (vm_compute; reflexivity).
  rewrite forallb_forall in Hall.
  assert (In (Z.to_nat seconds) (seq 0 (Z.to_nat 6000))) as Hin
    by (apply in_seq; lia).
  apply Hall in Hin. unfold clock_reads_back in Hin.
  rewrite Z2Nat.id in Hin by lia.
  rewrite !andb_true_iff, !bool_decide_eq_true, Nat.eqb_eq in Hin.
  cbv zeta. tauto.
Qed.

Lemma formatTime_reads_back_witness :
  formatTime 1799 = "29:59" /\ clockSeconds (formatTime 1799) = JS.Int 59.
Proof.
  split; [reflexivity|].
  apply (formatTime_reads_back 1799). lia.
Defined.

(** ** The secure exam: submission *)

Lemma handleSubmitExam_state (w : SecureExam.World) :
  SecureExam.isSubmitting (SecureExam.state w) = false ->
  SecureExam.state (SecureExam.handleSubmitExam w)
  = SecureExam.setIsSubmitting true (SecureExam.state w)
  /\ SecureExam.navigated (SecureExam.handleSubmitExam w) = Some "/dashboard"
  /\ SecureExam.fullscreenElement (SecureExam.handleSubmitExam w) = false
  /\ SecureExam.autoSubmits (SecureExam.handleSubmitExam w)
     = SecureExam.autoSubmits w.
Proof.
  intros Hsub. unfold SecureExam.handleSubmitExam. rewrite Hsub.
  destruct (grade _ _) as [correctCount totalPoints].
  destruct (SecureExam.user (SecureExam.state w)),
    (SecureExam.quizId (SecureExam.state w)),
    (SecureExam.examSession (SecureExam.state w)),
    (SecureExam.fullscreenElement w) eqn:Hfs; simpl; rewrite ?Hfs; done.
Qed.

Lemma handleSubmitExam_backend (w : SecureExam.World) :
  SecureExam.isSubmitting (SecureExam.state w) = false ->
  let s := SecureExam.state w in
  let graded := grade (SecureExam.questions s) (SecureExam.answers s) in
  let total := Z.of_nat (length (SecureExam.questions s)) in
  let score := if 0 <? total then scorePercentage graded.1 total else 0 in
  SecureExam.backend (SecureExam.handleSubmitExam w)
  = match SecureExam.user s, SecureExam.quizId s with
    | Some uid, Some qid =>
        let d := Backend.insert_attempt
                   (Attempt.mk uid qid score graded.1 total
                      (1800 - SecureExam.timeLeft s))
                   (SecureExam.backend w) in
        match SecureExam.examSession s with
        | Some es => SecureExam.end_session (ExamSession.id es) d
        | None => d
        end
    | _, _ => SecureExam.backend w
    end.
Proof.
  intros Hsub. cbv zeta. unfold SecureExam.handleSubmitExam. rewrite Hsub.
  destruct (grade _ _) as [correctCount totalPoints].
  destruct (SecureExam.user (SecureExam.state w)),
    (SecureExam.quizId (SecureExam.state w)),
    (SecureExam.examSession (SecureExam.state w)),
    (SecureExam.fullscreenElement w) eqn:Hfs; simpl; rewrite ?Hfs; done.
Qed.

Lemma end_session_rows (sid : string) (d : Backend.t) :
  Forall2 (closed_from sid) (Backend.exam_sessions d)
    (Backend.exam_sessions (SecureExam.end_session sid d))
  /\ Backend.quiz_attempts (SecureExam.end_session sid d)
     = Backend.quiz_attempts d.
Proof.
  split; [|done]. unfold SecureExam.end_session. simpl.
  induction (Backend.exam_sessions d) as [|r rows IH]; simpl;
    constructor; [|exact IH].
  unfold closed_from. destruct (String.eqb (ExamSessionRow.id r) sid) eqn:E;
    simpl; rewrite ?E; done.
Qed.

(** X11.  A first [handleSubmitExam] on an exam with a user, a quiz and a
    session: it writes one attempt, with [1800 - timeLeft] as time taken and
    with score 0 when the exam has no question (nothing is divided by the
    empty length); it ends the row of this session and no other, leaving
    the violation counters, the flag and its reason of every row as they
    were; and it leaves fullscreen and navigates to /dashboard. *)
Theorem handleSubmitExam_closes_session (w : SecureExam.World)
    (uid qid : string) (es : ExamSession.t) :
  SecureExam.isSubmitting (SecureExam.state w) = false ->
  SecureExam.user (SecureExam.state w) = Some uid ->
  SecureExam.quizId (SecureExam.state w) = Some qid ->
  SecureExam.examSession (SecureExam.state w) = Some es ->
  let w' := SecureExam.handleSubmitExam w in
  (exists attempt,
     Backend.quiz_attempts (SecureExam.backend w')
     = Backend.quiz_attempts (SecureExam.backend w) ++ [attempt]
     /\ Attempt.user_id attempt = uid
     /\ Attempt.quiz_id attempt = qid
     /\ Attempt.time_taken_seconds attempt
        = 1800 - SecureExam.timeLeft (SecureExam.state w)
     /\ (SecureExam.questions (SecureExam.state w) = [] ->
         Attempt.score attempt = 0 /\ Attempt.total_questions attempt = 0))
  /\ Forall2 (closed_from (ExamSession.id es))
       (Backend.exam_sessions (SecureExam.backend w))
       (Backend.exam_sessions (SecureExam.backend w'))
  /\ SecureExam.fullscreenElement w' = false
  /\ SecureExam.navigated w' = Some "/dashboard".
Proof.
  intros Hsub Hu Hq Hes w'. subst w'.
  destruct (handleSubmitExam_state w Hsub) as (_ & Hnav & Hfs & _).
  pose proof (handleSubmitExam_backend w Hsub) as Hdb. cbv zeta in Hdb.
  rewrite Hu, Hq, Hes in Hdb. rewrite Hdb.
  destruct (end_session_rows (ExamSession.id es)
              (Backend.insert_attempt
                 (Attempt.mk uid qid
                    (if 0 <? Z.of_nat
                               (length (SecureExam.questions
                                          (SecureExam.state w)))
                     then scorePercentage
                            (grade (SecureExam.questions (SecureExam.state w))
                               (SecureExam.answers (SecureExam.state w))).1
                            (Z.of_nat
                               (length (SecureExam.questions
                                          (SecureExam.state w))))
                     else 0)
                    (grade (SecureExam.questions (SecureExam.state w))
                       (SecureExam.answers (SecureExam.state w))).1
                    (Z.of_nat
                       (length (SecureExam.questions (SecureExam.state w))))
                    (1800 - SecureExam.timeLeft (SecureExam.state w)))
                 (SecureExam.backend w))) as [Hrows ->].
  split; [|split; [exact Hrows|done]].
  eexists. split; [reflexivity|]. simpl.
  split; [done|]. split; [done|]. split; [done|].
  by intros ->.
Qed.

Lemma handleSubmitExam_closes_session_witness :
  Attempt.time_taken_seconds
    <$> Backend.quiz_attempts
          (SecureExam.backend (SecureExam.handleSubmitExam sampleExam))
  = [0]
  /\ SecureExam.navigated (SecureExam.handleSubmitExam sampleExam)
     = Some "/dashboard".
Proof.
  destruct (handleSubmitExam_closes_session sampleExam "user-1" "quiz-1"
              (ExamSession.mk "session-1" "quiz-1" "2026-01-03T09:00:00Z"
                 (Some 0) (Some 0) false))
    as ((attempt & Hattempts & _ & _ & Htime & _) & _ & _ & Hnav);
    try reflexivity.
  split; [|exact Hnav].
  rewrite Hattempts. simpl. by rewrite Htime.
Defined.

(** ** The secure exam: cursor, clock and monitor *)

(** The handlers of the render on screen read the state as it is. *)
Lemma handleSecurityViolationIn_current (type : SecureExam.ViolationType)
    (w : SecureExam.World) :
  ExamPage.handleSecurityViolationIn (SecureExam.state w) type w
  = SecureExam.handleSecurityViolation type w.
Proof. reflexivity. Qed.

Lemma handleSubmitExamIn_current (w : SecureExam.World) :
  SecureExam.navigated w = None ->
  ExamPage.handleSubmitExamIn (SecureExam.state w) w
  = SecureExam.handleSubmitExam w.
Proof.
  intros H. unfold ExamPage.handleSubmitExamIn, SecureExam.handleSubmitExam.
  by rewrite H.
Qed.

Lemma handleSecurityViolationIn_frame (c : SecureExam.State)
    (type : SecureExam.ViolationType) (w : SecureExam.World) :
  let w' := ExamPage.handleSecurityViolationIn c type w in
  exam_fields (SecureExam.state w') = exam_fields (SecureExam.state w)
  /\ SecureExam.isSubmitting (SecureExam.state w')
     = SecureExam.isSubmitting (SecureExam.state w)
  /\ SecureExam.navigated w' = SecureExam.navigated w
  /\ SecureExam.fullscreenElement w' = SecureExam.fullscreenElement w
  /\ Backend.quiz_attempts (SecureExam.backend w')
     = Backend.quiz_attempts (SecureExam.backend w).
Proof.
  cbv zeta. unfold ExamPage.handleSecurityViolationIn.
  destruct (SecureExam.examSession c) as [es|]; [|done].
  by destruct (3 <=? _).
Qed.

Lemma handleSecurityViolationIn_session (c : SecureExam.State)
    (type : SecureExam.ViolationType) (w : SecureExam.World)
    (es : ExamSession.t) :
  SecureExam.examSession c = Some es ->
  let newCount := or0 (SecureExam.counter type es) + 1 in
  SecureExam.examSession
    (SecureExam.state (ExamPage.handleSecurityViolationIn c type w))
  = Some (SecureExam.withCounter type newCount (3 <=? newCount) es).
Proof.
  intros Hes newCount. unfold ExamPage.handleSecurityViolationIn.
  rewrite Hes. fold newCount. by destruct (3 <=? newCount).
Qed.

Lemma handleSubmitExamIn_frame (c : SecureExam.State)
    (w : SecureExam.World) :
  let w' := ExamPage.handleSubmitExamIn c w in
  exam_fields (SecureExam.state w') = exam_fields (SecureExam.state w)
  /\ SecureExam.examSession (SecureExam.state w')
     = SecureExam.examSession (SecureExam.state w).
Proof.
  cbv zeta. unfold ExamPage.handleSubmitExamIn.
  destruct (SecureExam.isSubmitting c); [done|].
  destruct (grade _ _) as [correctCount totalPoints].
  destruct (SecureExam.navigated w), (SecureExam.user c),
    (SecureExam.quizId c), (SecureExam.examSession c),
    (SecureExam.fullscreenElement w) eqn:Hfs; simpl; rewrite ?Hfs; done.
Qed.

(** A closure of a render in which nothing was being submitted goes
    through with the submission, whatever the component holds by now. *)
Lemma handleSubmitExamIn_submits (c : SecureExam.State)
    (w : SecureExam.World) :
  SecureExam.isSubmitting c = false ->
  let w' := ExamPage.handleSubmitExamIn c w in
  let graded := grade (SecureExam.questions c) (SecureExam.answers c) in
  let total := Z.of_nat (length (SecureExam.questions c)) in
  let score := if 0 <? total then scorePercentage graded.1 total else 0 in
  SecureExam.navigated w' = Some "/dashboard"
  /\ (SecureExam.navigated w = None ->
      SecureExam.isSubmitting (SecureExam.state w') = true)
  /\ SecureExam.backend w'
     = match SecureExam.user c, SecureExam.quizId c with
       | Some uid, Some qid =>
           let d := Backend.insert_attempt
                      (Attempt.mk uid qid score graded.1 total
                         (1800 - SecureExam.timeLeft c))
                      (SecureExam.backend w) in
           match SecureExam.examSession c with
           | Some es => SecureExam.end_session (ExamSession.id es) d
           | None => d
           end
       | _, _ => SecureExam.backend w
       end.
Proof.
  intros Hsub. cbv zeta. unfold ExamPage.handleSubmitExamIn. rewrite Hsub.
  destruct (grade _ _) as [correctCount totalPoints].
  destruct (SecureExam.navigated w), (SecureExam.user c),
    (SecureExam.quizId c), (SecureExam.examSession c),
    (SecureExam.fullscreenElement w) eqn:Hfs; simpl; rewrite ?Hfs; done.
Qed.

Lemma violation_world (c : SecureExam.State)
    (type : SecureExam.ViolationType) (p : ExamPage.Page) :
  ExamPage.world (ExamPage.violation c type p)
  = ExamPage.handleSecurityViolationIn c type (ExamPage.world p).
Proof.
  unfold ExamPage.violation, ExamPage.handleSecurityViolationIn.
  destruct (SecureExam.examSession c) as [es|]; [|done].
  by destruct (3 <=? _).
Qed.

Lemma tick_world (p : ExamPage.Page) :
  let w := ExamPage.world p in
  let prev := SecureExam.timeLeft (SecureExam.state w) in
  ExamPage.world (ExamPage.tick p)
  = if ExamPage.timerArmed (ExamPage.timer p)
    then
      if prev <=? 1
      then SecureExam.update (SecureExam.setTimeLeft 0)
             (ExamPage.handleSubmitExamIn (ExamPage.timer p) w)
      else SecureExam.update (SecureExam.setTimeLeft (prev - 1)) w
    else w.
Proof.
  cbv zeta. unfold ExamPage.tick.
  destruct (ExamPage.timerArmed _); [|done].
  cbv zeta. by destruct (_ =? _).
Qed.

Lemma fullscreenChange_world (element : bool) (p : ExamPage.Page) :
  let w := SecureExam.setFullscreenElement element (ExamPage.world p) in
  let c := ExamPage.fullscreen p in
  ExamPage.world (ExamPage.handleFullscreenChange element p)
  = if SecureExam.examStarted c
    then
      let w := SecureExam.update (SecureExam.setIsFullscreen element) w in
      if negb element && SecureExam.isFullscreen c
      then ExamPage.handleSecurityViolationIn c SecureExam.fullscreen_exit w
      else w
    else w.
Proof.
  cbv zeta. unfold ExamPage.handleFullscreenChange.
  destruct (SecureExam.examStarted _); [|done]. cbv zeta.
  destruct (negb element && _).
  - rewrite violation_world. by destruct (Bool.eqb _ _).
  - by destruct (Bool.eqb _ _).
Qed.

Lemma visibilityChange_world (hidden : bool) (p : ExamPage.Page) :
  let w := ExamPage.setHidden hidden (ExamPage.world p) in
  let c := ExamPage.visibility p in
  ExamPage.world (ExamPage.handleVisibilityChange hidden p)
  = if SecureExam.examStarted c
       && bool_decide (is_Some (SecureExam.examSession c))
       && hidden
    then ExamPage.handleSecurityViolationIn c SecureExam.tab_switch w
    else w.
Proof.
  cbv zeta. unfold ExamPage.handleVisibilityChange.
  destruct (_ && _); [|done]. by rewrite violation_world.
Qed.

Lemma click_cursor (e : ExamPage.Event) (w : SecureExam.World) :
  let s := SecureExam.state w in
  let s' := SecureExam.state (ExamPage.click e w) in
  0 <= SecureExam.currentQuestion s
     < Z.of_nat (length (SecureExam.questions s)) ->
  SecureExam.questions s' = SecureExam.questions s
  /\ 0 <= SecureExam.currentQuestion s'
        < Z.of_nat (length (SecureExam.questions s)).
Proof.
  cbv zeta. intros Hcur. unfold ExamPage.click.
  destruct e; try (destruct (SecureExam.examStarted _); done).
  - (* BlockedAction *)
    unfold ExamPage.preventAction. by destruct (SecureExam.examStarted _).
  - (* ClickOption *)
    destruct (SecureExam.examStarted _); [|done].
    by destruct (ExamPage.question _).
  - (* ClickPrevious *)
    destruct (SecureExam.examStarted _); [|done].
    destruct (_ =? 0); [done|]. simpl. split; [done|lia].
  - (* ClickNext *)
    destruct (SecureExam.examStarted _); [|done].
    destruct (_ =? _); [done|]. simpl. split; [done|lia].
  - (* ClickQuestion *)
    destruct (SecureExam.examStarted _); [|done].
    destruct (Nat.ltb_spec idx
                (length (SecureExam.questions (SecureExam.state w))));
      [|done].
    simpl. split; [done|lia].
  - (* ClickSubmit *)
    destruct (SecureExam.examStarted _); [|done].
    destruct (_ && _) eqn:E; [|done].
    apply andb_true_iff in E as [_ Hsub]. apply negb_true_iff in Hsub.
    by destruct (handleSubmitExam_state w Hsub) as (-> & _).
  - (* ClickUnderstood *)
    destruct (SecureExam.examStarted _); [|done].
    by destruct (SecureExam.showWarning _).
Qed.

Lemma dispatch_cursor (e : ExamPage.Event) (p : ExamPage.Page) :
  let s := SecureExam.state (ExamPage.world p) in
  let s' := SecureExam.state (ExamPage.world (ExamPage.dispatch e p)) in
  0 <= SecureExam.currentQuestion s
     < Z.of_nat (length (SecureExam.questions s)) ->
  SecureExam.questions s' = SecureExam.questions s
  /\ 0 <= SecureExam.currentQuestion s'
        < Z.of_nat (length (SecureExam.questions s)).
Proof.
  cbv zeta. intros Hcur.
  assert (forall s' : SecureExam.State,
            exam_fields s' = exam_fields (SecureExam.state (ExamPage.world p)) ->
            SecureExam.questions s'
            = SecureExam.questions (SecureExam.state (ExamPage.world p))
            /\ 0 <= SecureExam.currentQuestion s'
                  < Z.of_nat
                      (length (SecureExam.questions
                                 (SecureExam.state (ExamPage.world p)))))
    as Hframe by (by intros s' [= _ _ -> -> _ _ _ _]).
  unfold ExamPage.dispatch.
  destruct e;
    try (destruct (SecureExam.navigated (ExamPage.world p)); [done|]);
    try (by apply click_cursor).
  - (* Tick *)
    rewrite tick_world. destruct (ExamPage.timerArmed _); [|done].
    destruct (_ <=? 1); [|done]. simpl.
    destruct (handleSubmitExamIn_frame (ExamPage.timer p) (ExamPage.world p))
      as [[= _ _ -> -> _ _ _ _] _].
    done.
  - (* VisibilityChange *)
    rewrite visibilityChange_world. destruct (_ && _); [|done].
    apply Hframe.
    by destruct (handleSecurityViolationIn_frame (ExamPage.visibility p)
                   SecureExam.tab_switch
                   (ExamPage.setHidden hidden (ExamPage.world p)))
      as [-> _].
  - (* FullscreenChange *)
    rewrite fullscreenChange_world.
    destruct (SecureExam.examStarted _); [|done]. cbv zeta.
    destruct (_ && _); [|done].
    destruct (handleSecurityViolationIn_frame (ExamPage.fullscreen p)
                SecureExam.fullscreen_exit
                (SecureExam.update (SecureExam.setIsFullscreen element)
                   (SecureExam.setFullscreenElement element
                      (ExamPage.world p))))
      as [[= _ _ -> -> _ _ _ _] _].
    done.
  - (* AutoSubmit *)
    unfold ExamPage.fire. destruct (ExamPage.timeouts p) as [|c rest]; [done|].
    simpl. apply Hframe.
    by destruct (handleSubmitExamIn_frame c (ExamPage.world p)) as [-> _].
Qed.

Lemma run_cursor (es : list ExamPage.Event) :
  forall p : ExamPage.Page,
    let s := SecureExam.state (ExamPage.world p) in
    let s' := SecureExam.state (ExamPage.world (ExamPage.run es p)) in
    0 <= SecureExam.currentQuestion s
       < Z.of_nat (length (SecureExam.questions s)) ->
    SecureExam.questions s' = SecureExam.questions s
    /\ 0 <= SecureExam.currentQuestion s'
          < Z.of_nat (length (SecureExam.questions s)).
Proof.
  induction es as [|e es IH]; intros p; cbv zeta; intros Hcur; [done|].
  simpl. destruct (dispatch_cursor e p Hcur) as [Hq Hc].
  specialize (IH (ExamPage.dispatch e p)). cbv zeta in IH.
  rewrite Hq in IH. by apply IH.
Qed.

(** X12.  In a secure exam whose cursor is on one of its questions (as on a
    loaded exam with at least one question, where it starts on the first),
    whatever events follow, the firing of scheduled submissions among them,
    the questions stay the same and the cursor stays on one of them, so the
    question on screen is always defined. *)
Theorem exam_cursor_stays_in_range (es : list ExamPage.Event)
    (p : ExamPage.Page) :
  let s := SecureExam.state (ExamPage.world p) in
  let s' := SecureExam.state (ExamPage.world (ExamPage.run es p)) in
  0 <= SecureExam.currentQuestion s
     < Z.of_nat (length (SecureExam.questions s)) ->
  SecureExam.questions s' = SecureExam.questions s
  /\ 0 <= SecureExam.currentQuestion s'
        < Z.of_nat (length (SecureExam.questions s'))
  /\ is_Some (ExamPage.question s').
Proof.
  cbv zeta. intros Hcur.
  destruct (run_cursor es p Hcur) as [Hq Hc].
  split; [done|]. rewrite Hq. split; [done|].
  unfold ExamPage.question.
  destruct (Z.ltb_spec
              (SecureExam.currentQuestion
                 (SecureExam.state (ExamPage.world (ExamPage.run es p)))) 0);
    [lia|].
  apply lookup_lt_is_Some_2. rewrite Hq. lia.
Qed.

Lemma exam_cursor_stays_in_range_witness :
  is_Some
    (ExamPage.question
       (SecureExam.state
          (ExamPage.world
             (ExamPage.run
                [ExamPage.ClickNext; ExamPage.ClickNext;
                 ExamPage.ClickPrevious; ExamPage.ClickQuestion 39;
                 ExamPage.ClickNext; ExamPage.VisibilityChange true;
                 ExamPage.FullscreenChange false]
                (ExamPage.mount sampleFortyExam))))).
Proof.
  apply (exam_cursor_stays_in_range
           [ExamPage.ClickNext; ExamPage.ClickNext; ExamPage.ClickPrevious;
            ExamPage.ClickQuestion 39; ExamPage.ClickNext;
            ExamPage.VisibilityChange true; ExamPage.FullscreenChange false]
           (ExamPage.mount sampleFortyExam)).
  vm_compute. split; [discriminate|reflexivity].
Defined.

Lemma examTicks_cons (e : ExamPage.Event) (es : list ExamPage.Event) :
  examTicks (e :: es)
  = (if decide (e = ExamPage.Tick) then 1 else 0) + examTicks es.
Proof.
  unfold examTicks. rewrite filter_cons.
  destruct (decide (e = ExamPage.Tick)); simpl; lia.
Qed.

(** An uneventful event with more than a second left, or other than a
    tick: the exam goes on, one second less on the clock after a tick, and
    the interval is renewed when the clock has changed. *)
Lemma exam_running_step (uid qid : string) (left : Z) (d : Backend.t)
    (e : ExamPage.Event) (p : ExamPage.Page) :
  exam_running uid qid left d p ->
  uneventful e = true ->
  e <> ExamPage.Tick \/ 1 < left ->
  exam_running uid qid
    (if decide (e = ExamPage.Tick) then left - 1 else left) d
    (ExamPage.dispatch e p).
Proof.
  intros (Hu & Hq & Hst & Hsub & Hleft & Hpos & Hnav & Hd & Hc) Hquiet Hmore.
  injection Hc as Hcu Hcq Hcst Hcsub Hcleft.
  unfold ExamPage.dispatch.
  destruct e; try done; rewrite Hnav;
    destruct (decide _) as [Heq|Hne]; try done.
  - (* Tick *)
    destruct Hmore as [?|Hmore]; [done|].
    unfold ExamPage.tick, ExamPage.timerArmed. rewrite Hcst, Hcleft. simpl.
    destruct (Z.leb_spec left 0); [lia|]. simpl. rewrite Hleft.
    destruct (Z.leb_spec left 1); [lia|]. simpl.
    destruct (Z.eqb_spec (left - 1) left); [lia|].
    unfold exam_running. simpl. rewrite Hu, Hq, Hst, Hsub.
    repeat split; try done. lia.
  - (* BlockedAction *)
    unfold ExamPage.click, ExamPage.preventAction. rewrite Hst.
    unfold exam_running. simpl. rewrite Hcu, Hcq, Hcst, Hcsub, Hcleft.
    by repeat split.
  - (* ClickOption *)
    unfold ExamPage.click. rewrite Hst. destruct (ExamPage.question _);
      unfold exam_running; simpl;
      rewrite Hcu, Hcq, Hcst, Hcsub, Hcleft; by repeat split.
  - (* ClickPrevious *)
    unfold ExamPage.click. rewrite Hst. destruct (_ =? 0);
      unfold exam_running; simpl;
      rewrite Hcu, Hcq, Hcst, Hcsub, Hcleft; by repeat split.
  - (* ClickNext *)
    unfold ExamPage.click. rewrite Hst. destruct (_ =? _);
      unfold exam_running; simpl;
      rewrite Hcu, Hcq, Hcst, Hcsub, Hcleft; by repeat split.
  - (* ClickQuestion *)
    unfold ExamPage.click. rewrite Hst. destruct (_ <? _)%nat;
      unfold exam_running; simpl;
      rewrite Hcu, Hcq, Hcst, Hcsub, Hcleft; by repeat split.
  - (* ClickUnderstood *)
    unfold ExamPage.click. rewrite Hst. destruct (SecureExam.showWarning _);
      unfold exam_running; simpl;
      rewrite Hcu, Hcq, Hcst, Hcsub, Hcleft; by repeat split.
Qed.

Lemma exam_running_run (uid qid : string) (d : Backend.t)
    (es : list ExamPage.Event) :
  forall (left : Z) (p : ExamPage.Page),
    exam_running uid qid left d p ->
    forallb uneventful es = true ->
    examTicks es < left ->
    exam_running uid qid (left - examTicks es) d (ExamPage.run es p).
Proof.
  induction es as [|e es IH]; intros left p Hinv Hquiet Hticks.
  - simpl. unfold examTicks. simpl. by rewrite Z.sub_0_r.
  - simpl in Hquiet. apply andb_true_iff in Hquiet as [He Hes].
    rewrite examTicks_cons in *.
    assert (0 <= examTicks es) as Hnn by (unfold examTicks; lia).
    simpl.
    pose proof (exam_running_step uid qid left d e p Hinv He) as Hstep.
    destruct (decide (e = ExamPage.Tick)) as [->|Hne].
    + replace (left - (1 + examTicks es)) with (left - 1 - examTicks es)
        by lia.
      apply IH; [|done|lia]. apply Hstep. right. lia.
    + rewrite Z.add_0_l in *. apply IH; [|done|done]. apply Hstep. by left.
Qed.

(** The tick that finds one second left submits the exam, with the
    [handleSubmitExam] of the render of the interval. *)
Lemma exam_final_tick (uid qid : string) (d : Backend.t)
    (p : ExamPage.Page) :
  exam_running uid qid 1 d p ->
  let w' := ExamPage.world (ExamPage.dispatch ExamPage.Tick p) in
  SecureExam.navigated w' = Some "/dashboard"
  /\ SecureExam.isSubmitting (SecureExam.state w') = true
  /\ SecureExam.timeLeft (SecureExam.state w') = 0
  /\ exists attempt,
       Backend.quiz_attempts (SecureExam.backend w')
       = Backend.quiz_attempts d ++ [attempt]
       /\ Attempt.user_id attempt = uid
       /\ Attempt.time_taken_seconds attempt = 1799
       /\ Attempt.correct_answers attempt
          = (grade (SecureExam.questions (ExamPage.timer p))
               (SecureExam.answers (ExamPage.timer p))).1.
Proof.
  intros (Hu & Hq & Hst & Hsub & Hleft & Hpos & Hnav & Hd & Hc). cbv zeta.
  injection Hc as Hcu Hcq Hcst Hcsub Hcleft.
  unfold ExamPage.dispatch. rewrite Hnav, tick_world.
  unfold ExamPage.timerArmed. rewrite Hcst, Hcleft, Hleft. simpl.
  destruct (handleSubmitExamIn_submits (ExamPage.timer p) (ExamPage.world p)
              Hcsub) as (Hnav' & Hsub' & Hdb).
  rewrite Hcu, Hcq, Hcleft, Hd in Hdb.
  rewrite Hnav', Hdb, (Hsub' Hnav).
  split; [done|]. split; [done|]. split; [done|].
  destruct (SecureExam.examSession (ExamPage.timer p)) as [es|]; simpl;
    eexists; (split; [reflexivity|]); done.
Qed.

(** X13.  The exam clock.  While the exam is under way and nothing happens
    but the passing of seconds, blocked copies and pastes and clicks on
    options, navigation and the warning dialog, the clock shows the seconds it started with
    less the seconds passed and nothing is written.  The tick that finds
    one second left submits the exam: it writes the attempt, with 1799
    seconds as time taken (the clock still shows 1 when the attempt is
    built), puts the clock on 0 and navigates to /dashboard.  The answers
    it grades are those of the render in which the clock last changed: an
    answer given during the last second is not counted. *)
Theorem exam_clock_runs_out (uid qid : string) (left : Z)
    (es : list ExamPage.Event) (p : ExamPage.Page) :
  exam_running uid qid left (SecureExam.backend (ExamPage.world p)) p ->
  forallb uneventful es = true ->
  let p1 := ExamPage.run es p in
  let w1 := ExamPage.world p1 in
  (examTicks es < left ->
   SecureExam.timeLeft (SecureExam.state w1) = left - examTicks es
   /\ SecureExam.isSubmitting (SecureExam.state w1) = false
   /\ SecureExam.navigated w1 = None
   /\ SecureExam.backend w1 = SecureExam.backend (ExamPage.world p))
  /\ (examTicks es = left - 1 ->
      let w2 := ExamPage.world (ExamPage.dispatch ExamPage.Tick p1) in
      SecureExam.navigated w2 = Some "/dashboard"
      /\ SecureExam.isSubmitting (SecureExam.state w2) = true
      /\ SecureExam.timeLeft (SecureExam.state w2) = 0
      /\ exists attempt,
           Backend.quiz_attempts (SecureExam.backend w2)
           = Backend.quiz_attempts (SecureExam.backend (ExamPage.world p))
             ++ [attempt]
           /\ Attempt.user_id attempt = uid
           /\ Attempt.time_taken_seconds attempt = 1799
           /\ Attempt.correct_answers attempt
              = (grade (SecureExam.questions (ExamPage.timer p1))
                   (SecureExam.answers (ExamPage.timer p1))).1).
Proof.
  intros Hinv Hquiet. cbv zeta. split.
  - intros Hticks.
    by destruct (exam_running_run uid qid _ es left p Hinv Hquiet Hticks)
      as (_ & _ & _ & ? & ? & _ & ? & ? & _).
  - intros Hticks.
    assert (examTicks es < left) as Hlt by lia.
    pose proof (exam_running_run uid qid _ es left p Hinv Hquiet Hlt) as H1.
    replace (left - examTicks es) with 1 in H1 by lia.
    exact (exam_final_tick uid qid _ _ H1).
Qed.

Lemma exam_clock_runs_out_witness :
  let p1 :=
    ExamPage.run (repeat ExamPage.Tick 1799 ++ [ExamPage.ClickOption 0])
      sampleExamPage in
  SecureExam.timeLeft (SecureExam.state (ExamPage.world p1)) = 1
  /\ SecureExam.answers (SecureExam.state (ExamPage.world p1)) !! "0"
     = Some 0
  /\ (fun attempt =>
        (Attempt.time_taken_seconds attempt, Attempt.correct_answers attempt))
       <$> Backend.quiz_attempts
             (SecureExam.backend
                (ExamPage.world (ExamPage.dispatch ExamPage.Tick p1)))
     = [(1799, 0)].
Proof.
  intros p1.
  assert (exam_running "user-1" "quiz-1" 1800
            (SecureExam.backend (ExamPage.world sampleExamPage))
            sampleExamPage) as Hinv
    by (unfold exam_running; cbv zeta; repeat split; try reflexivity; lia).
  destruct (exam_clock_runs_out "user-1" "quiz-1" 1800
              (repeat ExamPage.Tick 1799 ++ [ExamPage.ClickOption 0])
              sampleExamPage Hinv) as [Hbefore Hat]; [vm_compute; reflexivity|].
  destruct Hbefore as (Hleft & _); [vm_compute; reflexivity|].
  destruct Hat as (_ & _ & _ & attempt & Hattempts & _ & Htaken & Hcorrect);
    [vm_compute; reflexivity|].
  split; [exact Hleft|]. split; [vm_compute; reflexivity|].
  fold p1 in Hattempts, Hcorrect. rewrite Hattempts.
  change (Backend.quiz_attempts
            (SecureExam.backend (ExamPage.world sampleExamPage))) with
    (@nil Attempt.t).
  simpl. rewrite Htaken, Hcorrect. vm_compute. reflexivity.
Defined.

(** *** The monitor *)

Lemma monitor_in_step_mount (w : SecureExam.World) :
  monitor_in_step (ExamPage.mount w).
Proof. by unfold monitor_in_step. Qed.

Local Ltac still_in_step :=
  unfold monitor_in_step; simpl; repeat split; (done || congruence).

(** Every event keeps the listeners of the monitor in step. *)
Lemma monitor_in_step_dispatch (e : ExamPage.Event) (p : ExamPage.Page) :
  monitor_in_step p -> monitor_in_step (ExamPage.dispatch e p).
Proof.
  intros (Hvst & Hves & Hfst & Hffs & Hfex).
  unfold ExamPage.dispatch.
  destruct e;
    try (destruct (SecureExam.navigated (ExamPage.world p)) eqn:Hnav;
         [done|]).
  - (* Tick *)
    unfold monitor_in_step.
    assert (ExamPage.visibility (ExamPage.tick p) = ExamPage.visibility p
            /\ ExamPage.fullscreen (ExamPage.tick p) = ExamPage.fullscreen p)
      as [-> ->].
    { unfold ExamPage.tick. destruct (ExamPage.timerArmed _); [|done].
      cbv zeta. by destruct (_ =? _). }
    rewrite tick_world. destruct (ExamPage.timerArmed _); [|done].
    destruct (_ <=? 1); [|done]. simpl.
    destruct (handleSubmitExamIn_frame (ExamPage.timer p) (ExamPage.world p))
      as [[= _ _ _ _ _ Hfs _ Hst] Hes].
    by rewrite Hfs, Hst, Hes.
  - (* VisibilityChange *)
    unfold ExamPage.handleVisibilityChange.
    destruct (_ && _) eqn:E; [|done].
    unfold ExamPage.violation. simpl.
    destruct (SecureExam.examSession (ExamPage.visibility p)) as [es|] eqn:Hes;
      [|unfold monitor_in_step; simpl; repeat split; (done || congruence)].
    pose proof (handleSecurityViolationIn_session (ExamPage.visibility p)
                  SecureExam.tab_switch
                  (ExamPage.setHidden hidden (ExamPage.world p)) es Hes)
      as Hes'.
    destruct (handleSecurityViolationIn_frame (ExamPage.visibility p)
                SecureExam.tab_switch
                (ExamPage.setHidden hidden (ExamPage.world p)))
      as [[= _ _ _ _ _ Hfs _ Hst] _].
    cbv zeta in Hes'. simpl in Hfs, Hst.
    assert (monitor_in_step
              (ExamPage.setVisibility
                 (SecureExam.state
                    (ExamPage.handleSecurityViolationIn
                       (ExamPage.visibility p) SecureExam.tab_switch
                       (ExamPage.setHidden hidden (ExamPage.world p))))
                 (ExamPage.setWorld
                    (ExamPage.handleSecurityViolationIn
                       (ExamPage.visibility p) SecureExam.tab_switch
                       (ExamPage.setHidden hidden (ExamPage.world p)))
                    (ExamPage.setWorld
                       (ExamPage.setHidden hidden (ExamPage.world p)) p))))
      as Hstep.
    { unfold monitor_in_step. simpl. rewrite Hst, Hfs, Hes'.
      repeat split; try done.
      intros Hheld. by rewrite (Hfex Hheld), <- Hves. }
    by destruct (3 <=? _).
  - (* FullscreenChange *)
    unfold ExamPage.handleFullscreenChange.
    destruct (SecureExam.examStarted (ExamPage.fullscreen p)) eqn:Hst;
      [|unfold monitor_in_step; simpl; repeat split; (done || congruence)].
    cbv zeta. simpl.
    destruct (negb element && SecureExam.isFullscreen (ExamPage.fullscreen p))
      eqn:E.
    + (* a held fullscreen is lost *)
      apply andb_true_iff in E as [Helement Hheld].
      apply negb_true_iff in Helement. subst element.
      rewrite Hffs in Hheld. rewrite Hheld. simpl.
      unfold ExamPage.violation. simpl.
      destruct (SecureExam.examSession (ExamPage.fullscreen p)) as [ef|]
        eqn:Hef.
      * match goal with
        | |- context [ExamPage.handleSecurityViolationIn ?c ?t ?w] =>
            destruct (handleSecurityViolationIn_frame c t w)
              as [[= _ _ _ _ _ Hfs' _ Hst'] _]
        end.
        simpl in Hfs', Hst'.
        destruct (3 <=? _); unfold monitor_in_step; simpl;
          rewrite ?Hfs', ?Hst'; repeat split; (done || congruence).
      * unfold monitor_in_step. simpl. repeat split; (done || congruence).
    + (* no violation *)
      destruct (Bool.eqb_spec
                  (SecureExam.isFullscreen
                     (SecureExam.state (ExamPage.world p))) element)
        as [Heq|Hne].
      * unfold monitor_in_step. simpl. rewrite Hffs, Heq in *.
        repeat split; (done || congruence).
      * unfold monitor_in_step. simpl. repeat split; (done || congruence).
  - (* AutoSubmit *)
    unfold ExamPage.fire. destruct (ExamPage.timeouts p) as [|c rest]; [done|].
    unfold monitor_in_step. simpl.
    destruct (handleSubmitExamIn_frame c (ExamPage.world p))
      as [[= _ _ _ _ _ Hfs _ Hst] Hes].
    by rewrite Hfs, Hst, Hes.
  - (* BlockedAction *)
    unfold ExamPage.click, ExamPage.preventAction.
    destruct (SecureExam.examStarted
                (SecureExam.state (ExamPage.world p))) eqn:Hst; still_in_step.
  - (* ClickOption *)
    unfold ExamPage.click.
    destruct (SecureExam.examStarted
                (SecureExam.state (ExamPage.world p))) eqn:Hst; [|still_in_step].
    destruct (ExamPage.question _); still_in_step.
  - (* ClickPrevious *)
    unfold ExamPage.click.
    destruct (SecureExam.examStarted
                (SecureExam.state (ExamPage.world p))) eqn:Hst; [|still_in_step].
    destruct (_ =? 0); still_in_step.
  - (* ClickNext *)
    unfold ExamPage.click.
    destruct (SecureExam.examStarted
                (SecureExam.state (ExamPage.world p))) eqn:Hst; [|still_in_step].
    destruct (_ =? _); still_in_step.
  - (* ClickQuestion *)
    unfold ExamPage.click.
    destruct (SecureExam.examStarted
                (SecureExam.state (ExamPage.world p))) eqn:Hst; [|still_in_step].
    destruct (_ <? _)%nat; still_in_step.
  - (* ClickSubmit *)
    unfold ExamPage.click.
    destruct (SecureExam.examStarted
                (SecureExam.state (ExamPage.world p))) eqn:Hst; [|still_in_step].
    destruct (_ && _) eqn:E; [|still_in_step].
    apply andb_true_iff in E as [_ Hsub]. apply negb_true_iff in Hsub.
    unfold monitor_in_step. simpl.
    destruct (handleSubmitExam_state (ExamPage.world p) Hsub) as (-> & _).
    simpl. repeat split; (done || congruence).
  - (* ClickUnderstood *)
    unfold ExamPage.click.
    destruct (SecureExam.examStarted
                (SecureExam.state (ExamPage.world p))) eqn:Hst; [|still_in_step].
    destruct (SecureExam.showWarning _); still_in_step.
Qed.

Lemma monitor_in_step_run (es : list ExamPage.Event) :
  forall p : ExamPage.Page,
    monitor_in_step p -> monitor_in_step (ExamPage.run es p).
Proof.
  induction es as [|e es IH]; intros p Hp; [done|].
  simpl. by apply IH, monitor_in_step_dispatch.
Qed.

Lemma fullscreen_change_step (element : bool) (p : ExamPage.Page)
    (es : ExamSession.t) :
  let s := SecureExam.state (ExamPage.world p) in
  SecureExam.examStarted s = true ->
  SecureExam.examSession s = Some es ->
  SecureExam.navigated (ExamPage.world p) = None ->
  monitor_in_step p ->
  let w' := ExamPage.world
              (ExamPage.dispatch (ExamPage.FullscreenChange element) p) in
  exists es',
    SecureExam.examSession (SecureExam.state w') = Some es'
    /\ or0 (ExamSession.fullscreen_exits es')
       = or0 (ExamSession.fullscreen_exits es)
         + (if negb element && SecureExam.isFullscreen s then 1 else 0)
    /\ SecureExam.isFullscreen (SecureExam.state w') = element
    /\ SecureExam.examStarted (SecureExam.state w') = true
    /\ SecureExam.navigated w' = None.
Proof.
  cbv zeta. intros Hst Hes Hnav (_ & _ & Hfst & Hffs & Hfex).
  unfold ExamPage.dispatch. rewrite Hnav, fullscreenChange_world.
  rewrite Hfst, Hst. cbv zeta. rewrite Hffs.
  destruct (negb element
            && SecureExam.isFullscreen (SecureExam.state (ExamPage.world p)))
    eqn:E.
  - apply andb_true_iff in E as [_ Hheld].
    specialize (Hfex Hheld). rewrite Hes in Hfex.
    destruct (SecureExam.examSession (ExamPage.fullscreen p)) as [ef|] eqn:Hef;
      [|done].
    injection Hfex as Hexits. simpl in Hexits.
    match goal with
    | |- context [ExamPage.handleSecurityViolationIn ?c ?t ?w] =>
        destruct (handleSecurityViolationIn_frame c t w)
          as ([= _ _ _ _ _ Hfs' _ Hst'] & _ & Hnav' & _);
        pose proof (handleSecurityViolationIn_session c t w ef Hef) as Hes'
    end.
    cbv zeta in Hes'. simpl in Hfs', Hst', Hnav'.
    rewrite Hes', Hfs', Hst', Hnav'. eexists. split; [reflexivity|].
    simpl. rewrite Hexits. repeat split; done || lia.
  - simpl. rewrite Hes. exists es. repeat split; done || lia.
Qed.

Lemma fullscreen_changes_run (changes : list bool) :
  forall (p : ExamPage.Page) (es : ExamSession.t),
    let s := SecureExam.state (ExamPage.world p) in
    SecureExam.examStarted s = true ->
    SecureExam.examSession s = Some es ->
    SecureExam.navigated (ExamPage.world p) = None ->
    monitor_in_step p ->
    let p' := ExamPage.run (ExamPage.FullscreenChange <$> changes) p in
    exists es',
      SecureExam.examSession (SecureExam.state (ExamPage.world p')) = Some es'
      /\ or0 (ExamSession.fullscreen_exits es')
         = or0 (ExamSession.fullscreen_exits es)
           + fullscreenLosses (SecureExam.isFullscreen s) changes.
Proof.
  induction changes as [|element changes IH]; intros p es;
    cbv zeta; intros Hst Hes Hnav Hstep.
  - exists es. simpl. split; [done|lia].
  - destruct (fullscreen_change_step element p es Hst Hes Hnav Hstep)
      as (es1 & Hes1 & Hexits & Hfs & Hst1 & Hnav1).
    pose proof (monitor_in_step_dispatch (ExamPage.FullscreenChange element)
                  p Hstep) as Hstep1.
    destruct (IH _ es1 Hst1 Hes1 Hnav1 Hstep1) as (es' & Hes' & Hexits').
    exists es'. rewrite fmap_cons. simpl in *.
    split; [exact Hes'|]. rewrite Hfs in Hexits'. lia.
Qed.

(** X14.  On a started exam with a session, its listeners as the effects
    keep them, along any sequence of fullscreen changes, [fullscreen_exits]
    goes up by one exactly for every change that leaves a fullscreen held
    until then: a second exit in a row is not counted, and neither is any
    exit after a fullscreen request that was refused. *)
Theorem fullscreen_exits_count_losses (changes : list bool)
    (p : ExamPage.Page) (es : ExamSession.t) :
  let s := SecureExam.state (ExamPage.world p) in
  SecureExam.examStarted s = true ->
  SecureExam.examSession s = Some es ->
  SecureExam.navigated (ExamPage.world p) = None ->
  monitor_in_step p ->
  let p' := ExamPage.run (ExamPage.FullscreenChange <$> changes) p in
  exists es',
    SecureExam.examSession (SecureExam.state (ExamPage.world p')) = Some es'
    /\ or0 (ExamSession.fullscreen_exits es')
       = or0 (ExamSession.fullscreen_exits es)
         + fullscreenLosses (SecureExam.isFullscreen s) changes.
Proof. apply fullscreen_changes_run. Qed.

Lemma fullscreen_exits_count_losses_witness :
  exists es',
    SecureExam.examSession
      (SecureExam.state
         (ExamPage.world
            (ExamPage.run
               (ExamPage.FullscreenChange <$> [false; false; true; false])
               (ExamPage.run threeTabSwitches sampleExamPage)))) = Some es'
    /\ or0 (ExamSession.fullscreen_exits es') = 2.
Proof.
  destruct (fullscreen_exits_count_losses [false; false; true; false]
              (ExamPage.run threeTabSwitches sampleExamPage)
              (ExamSession.mk "session-1" "quiz-1" "2026-01-03T09:00:00Z"
                 (Some 3) (Some 0) true))
    as (es' & Hes' & Hexits); try reflexivity.
  { apply monitor_in_step_run, monitor_in_step_mount. }
  exists es'. split; [exact Hes'|]. rewrite Hexits. reflexivity.
Defined.

(** Two tab switches and one fullscreen exit on the page: the listener of
    the fullscreen changes is of the render in which the exam started, so
    the component is left with the session of that render and one exit,
    while the row has both counters; neither is flagged and nothing is
    scheduled. *)
Lemma mixed_violations_on_the_page :
  let p := ExamPage.run
             [ExamPage.VisibilityChange true; ExamPage.VisibilityChange false;
              ExamPage.VisibilityChange true; ExamPage.VisibilityChange false;
              ExamPage.FullscreenChange false] sampleExamPage in
  let w := ExamPage.world p in
  SecureExam.headerViolations (SecureExam.state w) = 1
  /\ ExamSession.is_flagged <$> SecureExam.examSession (SecureExam.state w)
     = Some false
  /\ (fun r => (ExamSessionRow.tab_switches r,
                ExamSessionRow.fullscreen_exits r,
                ExamSessionRow.is_flagged r))
       <$> Backend.exam_sessions (SecureExam.backend w)
     = [(Some 2, Some 1, false)]
  /\ ExamPage.timeouts p = [].
Proof. vm_compute. done. Qed.

(** *** Scheduled submissions *)

Lemma unguarded_started (uid qid sid t0 : string) (qs : list Question.t) :
  unguarded uid qid (ExamPage.mount (SecureExam.started uid qid sid t0 qs)).
Proof.
  unfold unguarded, submitters. simpl.
  repeat split; repeat constructor; done.
Qed.

Lemma tick_submitters (p : ExamPage.Page) :
  submitters (ExamPage.tick p) = submitters p.
Proof.
  unfold ExamPage.tick. destruct (ExamPage.timerArmed _); [|done].
  cbv zeta. by destruct (_ =? _).
Qed.

(** A violation hands the render of its listener to [setTimeout] and
    renews the [visibilitychange] listener. *)
Lemma violation_submitters (c : SecureExam.State)
    (type : SecureExam.ViolationType) (p : ExamPage.Page)
    (c' : SecureExam.State) :
  c' ∈ submitters (ExamPage.violation c type p) ->
  c' ∈ submitters p
  \/ c' = c
  \/ c' = SecureExam.state
            (ExamPage.handleSecurityViolationIn c type (ExamPage.world p)).
Proof.
  unfold ExamPage.violation.
  destruct (SecureExam.examSession c) as [es|]; [|by left].
  unfold submitters.
  destruct (3 <=? _); simpl; rewrite !elem_of_cons, ?elem_of_app,
    ?list_elem_of_singleton; intros H; destruct_or!; subst; auto 7.
Qed.

Local Ltac still_unguarded Hnav Hall :=
  unfold unguarded; simpl; rewrite ?Hnav;
  rewrite <- Forall_forall in Hall; repeat split; done.

(** Every event leaves the submitting closures unguarded: each is of a
    render made while the page was mounted, and a mounted page is not
    submitting. *)
Lemma unguarded_dispatch (uid qid : string) (e : ExamPage.Event)
    (p : ExamPage.Page) :
  unguarded uid qid p -> unguarded uid qid (ExamPage.dispatch e p).
Proof.
  intros Hinv. pose proof Hinv as (Hu & Hq & Hmounted & Hall).
  rewrite Forall_forall in Hall.
  unfold ExamPage.dispatch.
  destruct e;
    try (destruct (SecureExam.navigated (ExamPage.world p)) eqn:Hnav;
         [exact Hinv|]; specialize (Hmounted eq_refl)).
  - (* Tick *)
    unfold unguarded. rewrite tick_submitters, tick_world.
    rewrite Forall_forall.
    destruct (ExamPage.timerArmed _);
      [|repeat split; try done; by apply Hall].
    destruct (_ <=? 1); [|repeat split; try done; by apply Hall]. simpl.
    destruct (handleSubmitExamIn_frame (ExamPage.timer p) (ExamPage.world p))
      as [[= -> -> _ _ _ _ _ _] _].
    split; [done|]. split; [done|]. split; [|done].
    destruct (SecureExam.isSubmitting (ExamPage.timer p)) eqn:Hsub.
    + unfold ExamPage.handleSubmitExamIn. by rewrite Hsub.
    + destruct (handleSubmitExamIn_submits _ (ExamPage.world p) Hsub)
        as (-> & _).
      done.
  - (* VisibilityChange *)
    unfold ExamPage.handleVisibilityChange.
    destruct (_ && _); [|still_unguarded Hnav Hall].
    unfold unguarded. rewrite violation_world.
    cbn [ExamPage.world ExamPage.setWorld].
    destruct (handleSecurityViolationIn_frame (ExamPage.visibility p)
                SecureExam.tab_switch
                (ExamPage.setHidden hidden (ExamPage.world p)))
      as ([= Hu' Hq' _ _ _ _ _ _] & Hsub' & Hnav' & _).
    simpl in Hu', Hq', Hsub', Hnav'.
    rewrite Hu', Hq', Hsub', Hnav'.
    split; [done|]. split; [done|]. split; [done|].
    apply Forall_forall. intros c' Hc'.
    apply violation_submitters in Hc' as [Hc'|[->| ->]].
    + by apply Hall.
    + apply Hall. unfold submitters. rewrite !elem_of_cons. auto.
    + cbn [ExamPage.world ExamPage.setWorld]. by rewrite Hu', Hq', Hsub'.
  - (* FullscreenChange *)
    unfold ExamPage.handleFullscreenChange.
    destruct (SecureExam.examStarted (ExamPage.fullscreen p));
      [|still_unguarded Hnav Hall].
    cbv zeta. simpl.
    set (p1 := if Bool.eqb _ _ then _ else _).
    assert (ExamPage.world p1
            = SecureExam.update (SecureExam.setIsFullscreen element)
                (SecureExam.setFullscreenElement element (ExamPage.world p)))
      as Hw1 by (subst p1; by destruct (Bool.eqb _ _)).
    assert (forall c, c ∈ submitters p1 ->
              SecureExam.user c = Some uid /\ SecureExam.quizId c = Some qid
              /\ SecureExam.isSubmitting c = false) as Hall1.
    { intros c. subst p1. unfold submitters.
      destruct (Bool.eqb _ _); simpl; rewrite !elem_of_cons;
        intros [->|[->|H]]; try done;
        try (apply Hall; unfold submitters; rewrite !elem_of_cons; auto). }
    destruct (negb element && _).
    + unfold unguarded. rewrite violation_world, Hw1.
      match goal with
      | |- context [ExamPage.handleSecurityViolationIn ?c ?t ?w] =>
          destruct (handleSecurityViolationIn_frame c t w)
            as ([= Hu' Hq' _ _ _ _ _ _] & Hsub' & Hnav' & _)
      end.
      simpl in Hu', Hq', Hsub', Hnav'.
      rewrite Hu', Hq', Hsub', Hnav'.
      split; [done|]. split; [done|]. split; [done|].
      apply Forall_forall. intros c' Hc'.
      apply violation_submitters in Hc' as [Hc'|[->| ->]].
      * by apply Hall1.
      * apply Hall. unfold submitters. rewrite !elem_of_cons. auto.
      * rewrite Hw1. by rewrite Hu', Hq', Hsub'.
    + unfold unguarded. rewrite Hw1. simpl. rewrite Hnav.
      split; [done|]. split; [done|]. split; [done|].
      by apply Forall_forall.
  - (* AutoSubmit *)
    unfold ExamPage.fire.
    destruct (ExamPage.timeouts p) as [|c rest] eqn:Hpending;
      [exact Hinv|].
    assert (SecureExam.isSubmitting c = false) as Hsub.
    { apply Hall. unfold submitters. rewrite Hpending, !elem_of_cons. auto. }
    unfold unguarded. simpl.
    destruct (handleSubmitExamIn_frame c (ExamPage.world p))
      as [[= -> -> _ _ _ _ _ _] _].
    destruct (handleSubmitExamIn_submits c (ExamPage.world p) Hsub)
      as (-> & _).
    split; [done|]. split; [done|]. split; [done|].
    apply Forall_forall. intros c' Hc'. apply Hall.
    unfold submitters in *. rewrite Hpending.
    rewrite !elem_of_cons in *. tauto.
  - (* BlockedAction *)
    unfold ExamPage.click, ExamPage.preventAction.
    destruct (SecureExam.examStarted _); still_unguarded Hnav Hall.
  - (* ClickOption *)
    unfold ExamPage.click.
    destruct (SecureExam.examStarted _); [|still_unguarded Hnav Hall].
    destruct (ExamPage.question _); still_unguarded Hnav Hall.
  - (* ClickPrevious *)
    unfold ExamPage.click.
    destruct (SecureExam.examStarted _); [|still_unguarded Hnav Hall].
    destruct (_ =? 0); still_unguarded Hnav Hall.
  - (* ClickNext *)
    unfold ExamPage.click.
    destruct (SecureExam.examStarted _); [|still_unguarded Hnav Hall].
    destruct (_ =? _); still_unguarded Hnav Hall.
  - (* ClickQuestion *)
    unfold ExamPage.click.
    destruct (SecureExam.examStarted _); [|still_unguarded Hnav Hall].
    destruct (_ <? _)%nat; still_unguarded Hnav Hall.
  - (* ClickSubmit *)
    unfold ExamPage.click.
    destruct (SecureExam.examStarted _); [|still_unguarded Hnav Hall].
    destruct (_ && _); [|still_unguarded Hnav Hall].
    unfold unguarded. simpl.
    destruct (handleSubmitExam_state (ExamPage.world p) Hmounted)
      as (-> & -> & _).
    simpl. split; [done|]. split; [done|]. split; [done|].
    by apply Forall_forall.
  - (* ClickUnderstood *)
    unfold ExamPage.click.
    destruct (SecureExam.examStarted _); [|still_unguarded Hnav Hall].
    destruct (SecureExam.showWarning _); still_unguarded Hnav Hall.
Qed.

Lemma unguarded_run (uid qid : string) (es : list ExamPage.Event) :
  forall p : ExamPage.Page,
    unguarded uid qid p -> unguarded uid qid (ExamPage.run es p).
Proof.
  induction es as [|e es IH]; intros p Hp; [done|].
  simpl. by apply IH, unguarded_dispatch.
Qed.

(** C3.  In the secure exam the guard of [handleSubmitExam] does not hold
    back a scheduled submission.  On an exam started for a user on a quiz,
    whatever has happened since, a pending
    [setTimeout(() => handleSubmitExam(), 3000)] callback writes an attempt
    for this user and this quiz when it fires: it belongs to a render in
    which [isSubmitting] was false, and that is the value its guard reads,
    also when the exam has been submitted in the meantime. *)
Theorem scheduled_submission_is_not_guarded (uid qid sid t0 : string)
    (qs : list Question.t) (es : list ExamPage.Event) :
  let p := ExamPage.run es
             (ExamPage.mount (SecureExam.started uid qid sid t0 qs)) in
  let p' := ExamPage.dispatch ExamPage.AutoSubmit p in
  ExamPage.timeouts p <> [] ->
  exists attempt,
    Backend.quiz_attempts (SecureExam.backend (ExamPage.world p'))
    = Backend.quiz_attempts (SecureExam.backend (ExamPage.world p))
      ++ [attempt]
    /\ Attempt.user_id attempt = uid
    /\ Attempt.quiz_id attempt = qid.
Proof.
  cbv zeta. intros Hpending.
  pose proof (unguarded_run uid qid es _
                (unguarded_started uid qid sid t0 qs))
    as (_ & _ & _ & Hall).
  set (p := ExamPage.run es _) in *.
  unfold ExamPage.dispatch, ExamPage.fire.
  destruct (ExamPage.timeouts p) as [|c rest] eqn:Hc; [done|].
  rewrite Forall_forall in Hall.
  destruct (Hall c) as (Hu & Hq & Hsub).
  { unfold submitters. rewrite Hc, !elem_of_cons. auto. }
  destruct (handleSubmitExamIn_submits c (ExamPage.world p) Hsub)
    as (_ & _ & Hdb).
  simpl. rewrite Hdb, Hu, Hq.
  destruct (SecureExam.examSession c); simpl;
    eexists; (split; [reflexivity|]); done.
Qed.

Lemma scheduled_submission_is_not_guarded_witness :
  let p :=
    ExamPage.run
      (threeTabSwitches ++ [ExamPage.ClickUnderstood; ExamPage.ClickSubmit])
      sampleExamPage in
  let p' := ExamPage.dispatch ExamPage.AutoSubmit p in
  SecureExam.isSubmitting (SecureExam.state (ExamPage.world p)) = true
  /\ length (Backend.quiz_attempts (SecureExam.backend (ExamPage.world p)))
     = 1%nat
  /\ length (Backend.quiz_attempts (SecureExam.backend (ExamPage.world p')))
     = 2%nat.
Proof.
  intros p p'.
  split; [vm_compute; reflexivity|]. split; [vm_compute; reflexivity|].
  destruct (scheduled_submission_is_not_guarded "user-1" "quiz-1" "session-1"
              "2026-01-03T09:00:00Z" (samplePool 1)
              (threeTabSwitches
               ++ [ExamPage.ClickUnderstood; ExamPage.ClickSubmit]))
    as (attempt & Hattempts & _); [vm_compute; discriminate|].
  fold sampleExamPage in Hattempts. fold p in Hattempts. fold p' in Hattempts.
  rewrite Hattempts, length_app.
  replace (length (Backend.quiz_attempts
                     (SecureExam.backend (ExamPage.world p)))) with 1%nat
    by (vm_compute; reflexivity).
  reflexivity.
Defined.

(** ** Starting the exam *)

(** X15.  What [startExam] leaves behind.  Without a user or a quiz id it
    does nothing.  When the session row cannot be inserted the exam does not
    start: no session, no row and no toast, although the page may already be
    in fullscreen.  When the row is inserted the exam is started on a session
    with both counters at 0 and no flag, the row is the last of the table,
    the clock is untouched, and the page holds fullscreen if the request was
    granted or it held it before: a refused request does not keep the exam
    from starting. *)
Theorem startExam_outcomes (granted : bool)
    (inserted : option (string * string)) (w : SecureExam.World) :
  let s := SecureExam.state w in
  let w' := ExamPage.startExam granted inserted w in
  let s' := SecureExam.state w' in
  (SecureExam.user s = None \/ SecureExam.quizId s = None -> w' = w)
  /\ (inserted = None ->
        SecureExam.examStarted s' = SecureExam.examStarted s
        /\ SecureExam.examSession s' = SecureExam.examSession s
        /\ SecureExam.backend w' = SecureExam.backend w
        /\ SecureExam.toasts w' = SecureExam.toasts w
        /\ SecureExam.navigated w' = SecureExam.navigated w)
  /\ (forall uid qid sessionId started_at,
        SecureExam.user s = Some uid ->
        SecureExam.quizId s = Some qid ->
        inserted = Some (sessionId, started_at) ->
        SecureExam.examStarted s' = true
        /\ SecureExam.examSession s'
           = Some (ExamSession.mk sessionId qid started_at (Some 0) (Some 0)
                     false)
        /\ SecureExam.headerViolations s' = 0
        /\ Backend.exam_sessions (SecureExam.backend w')
           = Backend.exam_sessions (SecureExam.backend w)
             ++ [ExamSessionRow.mk sessionId (Some 0) (Some 0) false None
                   false true]
        /\ SecureExam.isFullscreen s'
           = granted || SecureExam.isFullscreen s
        /\ SecureExam.timeLeft s' = SecureExam.timeLeft s
        /\ SecureExam.toasts w' = SecureExam.toasts w).
Proof.
  cbv zeta. unfold ExamPage.startExam. split; [|split].
  - intros [Hu | Hq].
    + rewrite Hu. reflexivity.
    + rewrite Hq. destruct (SecureExam.user (SecureExam.state w)); reflexivity.
  - intros ->.
    destruct (SecureExam.user (SecureExam.state w)),
      (SecureExam.quizId (SecureExam.state w)), granted;
      repeat split; reflexivity.
  - intros uid qid sessionId started_at Hu Hq ->. rewrite Hu, Hq.
    destruct granted; repeat split; reflexivity.
Qed.

Lemma startExam_outcomes_witness :
  let w' :=
    ExamPage.startExam false (Some ("session-1", "2026-01-03T09:00:00Z"))
      (examLobby "user-1" "quiz-1" (samplePool 3)) in
  SecureExam.examStarted (SecureExam.state w') = true
  /\ SecureExam.isFullscreen (SecureExam.state w') = false
  /\ SecureExam.backend w'
     = SecureExam.backend
         (SecureExam.started "user-1" "quiz-1" "session-1"
            "2026-01-03T09:00:00Z" (samplePool 3)).
Proof.
  cbv zeta.
  destruct (startExam_outcomes false
              (Some ("session-1", "2026-01-03T09:00:00Z"))
              (examLobby "user-1" "quiz-1" (samplePool 3)))
    as (_ & _ & H).
  destruct (H "user-1" "quiz-1" "session-1" "2026-01-03T09:00:00Z"
              eq_refl eq_refl eq_refl)
    as (Hst & _ & _ & _ & Hfs & _).
  split; [exact Hst|]. split; [exact Hfs|]. reflexivity.
Defined.

(** ** The questions of the exam *)

Lemma exam_formatQuestion_of_row (row : QuestionRow.t) :
  question_of row (ExamPage.formatQuestion row)
  /\ exam_options_of row (ExamPage.formatQuestion row).
Proof.
  unfold question_of, exam_options_of, ExamPage.formatQuestion. simpl.
  repeat split; try done.
  - by destruct (QuestionRow.points row) as [[| |]|].
  - by intros items ->.
  - intros Hother. destruct (QuestionRow.options row); try done.
    by destruct (Hother items).
Qed.

(** X16.  The questions the exam page loads for its quiz.  When the query
    fails the page shows one toast and leaves for the dashboard, keeping the
    questions it had.  Otherwise it holds one question for each row of the
    quiz, the rows taken in ascending [order_index] (those without one
    last); each question has the id, the text and the correct answer of its
    row, the points of the row, 10 when the row has none or 0, and as
    options those of the row when they are an array and none otherwise,
    also when the row holds the text of an array; nothing is navigated to
    and no toast is shown. *)
Theorem exam_questions_are_well_formed (failed : bool)
    (w : SecureExam.World) (qid : string) :
  SecureExam.quizId (SecureExam.state w) = Some qid ->
  let w' := ExamPage.fetchQuizData failed w in
  if failed
  then SecureExam.navigated w' = Some "/dashboard"
       /\ SecureExam.toasts w'
          = SecureExam.toasts w
            ++ [Toast.mk "Error" "Failed to load exam questions."]
       /\ SecureExam.questions (SecureExam.state w')
          = SecureExam.questions (SecureExam.state w)
  else (exists rows,
          rows ≡ₚ filter (fun row => QuestionRow.quiz_id row = qid)
                    (Backend.quiz_questions (SecureExam.backend w))
          /\ ascending rows
          /\ Forall2
               (fun row q => question_of row q /\ exam_options_of row q)
               rows (SecureExam.questions (SecureExam.state w')))
       /\ SecureExam.navigated w' = SecureExam.navigated w
       /\ SecureExam.toasts w' = SecureExam.toasts w.
Proof.
  intros Hqid. cbv zeta. destruct failed.
  - unfold ExamPage.fetchQuizData. simpl. by repeat split.
  - unfold ExamPage.fetchQuizData. rewrite Hqid. simpl.
    split; [|done].
    assert (filter (fun q => String.eqb (QuestionRow.quiz_id q) qid)
              (Backend.quiz_questions (SecureExam.backend w))
            = filter (fun row => QuestionRow.quiz_id row = qid)
                (Backend.quiz_questions (SecureExam.backend w))) as <-.
    { induction (Backend.quiz_questions (SecureExam.backend w))
        as [|row rows IH]; [reflexivity|].
      rewrite !filter_cons, IH.
      destruct (String.eqb_spec (QuestionRow.quiz_id row) qid) as [Heq|Hne];
        repeat case_decide; simpl; try congruence; try done;
        exfalso; auto. }
    set (rows := order_by_order_index _).
    exists rows. split; [apply order_by_order_index_perm|].
    split; [apply order_by_order_index_ascending|].
    induction rows as [|row rows' IH]; simpl; constructor; [|exact IH].
    apply exam_formatQuestion_of_row.
Qed.

Lemma exam_questions_are_well_formed_witness :
  (fun q => (Question.id q, Question.options q, Question.points q))
    <$> SecureExam.questions
          (SecureExam.state
             (ExamPage.fetchQuizData false
                (SecureExam.mkWorld
                   (SecureExam.initial (Some "user-1") (Some "quiz-1") [])
                   sampleBackendWithRows [] None 0 false false)))
  = [("a", JArray [], 10); ("b", JArray [JString "x"; JString "y"], 10)].
Proof.
  pose proof (exam_questions_are_well_formed false
                (SecureExam.mkWorld
                   (SecureExam.initial (Some "user-1") (Some "quiz-1") [])
                   sampleBackendWithRows [] None 0 false false)
                "quiz-1" eq_refl) as H.
  cbv zeta in H. destruct H as ((rows & _ & _ & Hrows) & _).
  apply Forall2_length in Hrows. clear Hrows. reflexivity.
Defined.

(** ** The course figures of the analytics page *)

Lemma count_course_fold (courses : list Analytics.Course) :
  forall t : Analytics.Tally,
    let t' := fold_left Analytics.count_course courses t in
    Analytics.beginners t'
    = Analytics.beginners t + courses_of beginner courses
    /\ Analytics.intermediates t'
       = Analytics.intermediates t + courses_of intermediate courses
    /\ Analytics.advanceds t'
       = Analytics.advanceds t + courses_of advanced courses.
Proof.
  induction courses as [|c courses IH]; intros t.
  - unfold courses_of. simpl. lia.
  - cbv zeta. simpl fold_left.
    destruct (IH (Analytics.count_course t c)) as (Hb & Hi & Ha).
    rewrite Hb, Hi, Ha. unfold courses_of, Analytics.count_course.
    rewrite !filter_cons.
    destruct (default beginner (Analytics.difficulty c)); simpl;
      repeat case_decide; try congruence; simpl length; lia.
Qed.

(** X17.  The difficulty chart counts every course once: its three values
    are the numbers of beginner, intermediate and advanced courses, a course
    without difficulty counting as a beginner course, and they add up to the
    number of courses.  The published courses are at most as many. *)
Theorem difficultyDistribution_counts_courses
    (courses : list Analytics.Course) :
  Analytics.difficultyDistribution courses
  = [("Beginner", courses_of beginner courses);
     ("Intermediate", courses_of intermediate courses);
     ("Advanced", courses_of advanced courses)]
  /\ courses_of beginner courses + courses_of intermediate courses
     + courses_of advanced courses = Z.of_nat (length courses)
  /\ 0 <= Analytics.publishedCount (Some courses)
       <= Z.of_nat (length courses).
Proof.
  split; [|split].
  - unfold Analytics.difficultyDistribution.
    destruct (count_course_fold courses (Analytics.mkTally 0 0 0))
      as (Hb & Hi & Ha).
    cbv zeta in *. rewrite Hb, Hi, Ha. reflexivity.
  - unfold courses_of.
    induction courses as [|c courses IH]; [reflexivity|].
    rewrite !filter_cons.
    destruct (default beginner (Analytics.difficulty c));
      repeat case_decide; try congruence; simpl length; lia.
  - unfold Analytics.publishedCount. split; [lia|].
    apply Nat2Z.inj_le. apply length_filter.
Qed.
